(** * Root robot protocol engine: packet framing, domain types and the
    Robot facade, embedded from [app/robot/packet.py], [app/robot/types.py]
    and [app/robot/robot.py].

    Python integers are [Z]; a [bytes] object is a [list Z] whose elements
    lie in [0, 255]; a raised exception is the [Raise] branch of [result].
    Dictionaries are [gmap]s; futures and tasks of the event loop live in
    stores indexed by identifiers, so that the table entry and the awaiting
    coroutine share one object. *)

From Stdlib Require Import ZArith List Lia Bool String Floats.
From stdpp Require Import base option list gmap.

Local Open Scope Z_scope.

(** ** Exceptions and fallible computations *)

Inductive exn : Type :=
| AssertionError (msg : string)
| TypeError (msg : string)
| ValueError (msg : string)
| OverflowError (msg : string)
| IndexError (msg : string)
| StructError (msg : string).

Inductive result (A : Type) : Type :=
| Ok (a : A)
| Raise (e : exn).

Arguments Ok {A} a.
Arguments Raise {A} e.

Definition rbind {A B : Type} (r : result A) (k : A -> result B) : result B :=
  match r with
  | Ok a => k a
  | Raise e => Raise e
  end.

Notation "'let?' x ':=' r 'in' k" := (rbind r (fun x => k))
  (at level 10, x pattern, r at level 100, k at level 200).

(** A value of Python's [bytes] type. *)
Definition is_byte (b : Z) : Prop := 0 <= b < 256.
Definition is_bytes (bs : list Z) : Prop := Forall is_byte bs.

(** [bytes(n)]: [n] zero bytes. *)
Definition zero_bytes (n : nat) : list Z := replicate n 0.

(** [raw[i]] on a sequence. *)
Definition index {A : Type} (l : list A) (i : nat) : result A :=
  match l !! i with
  | Some x => Ok x
  | None => Raise (IndexError "index out of range")
  end.

(** [raw[i:j]] for [0 <= i <= j]. *)
Definition slice {A : Type} (l : list A) (i j : nat) : list A :=
  take (j - i) (drop i l).

(** [struct.pack("B", v)]. *)
Definition pack_B (v : Z) : result (list Z) :=
  if (0 <=? v) && (v <=? 255) then Ok [v]
  else Raise (StructError "ubyte format requires 0 <= number <= 255").

(** ** packet.py *)

Module Packet.

Definition PACKET_LEN : nat := 20.
Definition PAYLOAD_LEN : nat := 16.

Record t : Type := mk {
  dev : Z;
  cmd : Z;
  inc : Z;
  payload : list Z;
  _crc : option Z
}.

(** [Packet.__init__]. *)
Definition init (dev cmd inc : Z) (payload : list Z) (crc : option Z)
  : result t :=
  if (length payload <=? PAYLOAD_LEN)%nat then
    Ok (mk dev cmd inc
           (payload ++ zero_bytes (PAYLOAD_LEN - length payload)) crc)
  else Raise (AssertionError "invalid payload length").

(** [Packet.from_bytes]. *)
Definition from_bytes (raw : list Z) : result t :=
  if (length raw =? PACKET_LEN)%nat then
    let? d := index raw 0 in
    let? c := index raw 1 in
    let? i := index raw 2 in
    let? k := index raw 19 in
    init d c i (slice raw 3 19) (Some k)
  else Raise (AssertionError "invalid packet length").

(** [Packet.packet]: the 19 bytes before the checksum. *)
Definition packet (p : t) : result (list Z) :=
  let? d := pack_B (dev p) in
  let? c := pack_B (cmd p) in
  let? i := pack_B (inc p) in
  Ok (d ++ c ++ i ++ payload p).

(** One turn of the inner loop of [calc_crc], for input byte [c] and
    bit index [i]. *)
Definition crc_bit (c : Z) (crc : Z) (i : Z) : Z :=
  let b := Z.land crc 0x80 in
  let b := if Z.land c (Z.shiftr 0x80 i) =? 0 then b else Z.lxor b 0x80 in
  let crc := Z.shiftl crc 1 in
  if b =? 0 then crc else Z.lxor crc 0x07.

(** The body of the outer loop: eight bit steps, then the mask. *)
Definition crc_byte (crc : Z) (c : Z) : Z :=
  Z.land (fold_left (crc_bit c) (seqZ 0 8) crc) 0xFF.

Definition crc_of (bs : list Z) : Z := fold_left crc_byte bs 0x00.

(** [Packet.calc_crc]. *)
Definition calc_crc (p : t) : result Z :=
  let? bs := packet p in Ok (crc_of bs).

(** [Packet.check_crc]. *)
Definition check_crc (p : t) : result bool :=
  match _crc p with
  | None => Ok false
  | Some k => let? c := calc_crc p in Ok (k =? c)
  end.

(** [Packet.to_bytes]. *)
Definition to_bytes (p : t) : result (list Z) :=
  let? bs := packet p in
  let? c := calc_crc p in
  Ok (bs ++ [c]).

(** The [crc] property: the stored checksum, or a fresh one. *)
Definition crc (p : t) : result Z :=
  match _crc p with
  | Some k => Ok k
  | None => calc_crc p
  end.

End Packet.

(** ** types.py *)

(** [range(start, stop, step)] for a non-zero [step]. *)
Definition py_range (start stop step : Z) : list Z :=
  let n := if 0 <? step then (stop - start + step - 1) / step
           else (start - stop - step - 1) / (- step) in
  (fun k => start + k * step) <$> seqZ 0 n.

(** [struct.unpack(">H", bs)[0]]. *)
Definition unpack_H (bs : list Z) : result Z :=
  match bs with
  | [hi; lo] => Ok (hi * 256 + lo)
  | _ => Raise (StructError "unpack requires a buffer of 2 bytes")
  end.

Module Bumper.
Record t : Type := mk { left : bool; right : bool }.

Definition from_packet (packet : Packet.t) : result t :=
  let? l := index (Packet.payload packet) 4 in
  let? r := index (Packet.payload packet) 4 in
  Ok (mk (negb (Z.land l 0x80 =? 0)) (negb (Z.land r 0x40 =? 0))).
End Bumper.

Module Color.
Definition WHITE : Z := 0.
Definition BLACK : Z := 1.
Definition RED : Z := 2.
Definition GREEN : Z := 3.
Definition BLUE : Z := 4.
Definition ORANGE : Z := 5.
Definition YELLOW : Z := 6.
Definition MAGENTA : Z := 7.
Definition NONE : Z := 15.
Definition ANY : Z := -1.

Record t : Type := mk { colors : list Z }.

Definition from_packet (packet : Packet.t) : t :=
  mk (c ← Packet.payload packet;
      i ← py_range 4 (-1) (-4);
      [Z.land (Z.shiftr c i) 0xF]).
End Color.

Module Light.
Definition DARKER : Z := 4.
Definition RIGHT_BRIGHTER : Z := 5.
Definition LEFT_BRIGHTER : Z := 6.
Definition LIGHTER : Z := 7.

Record t : Type := mk { state : Z; left : Z; right : Z }.

Definition from_packet (packet : Packet.t) : result t :=
  let? s := index (Packet.payload packet) 4 in
  let? l := unpack_H (slice (Packet.payload packet) 5 7) in
  let? r := unpack_H (slice (Packet.payload packet) 7 9) in
  Ok (mk s l r).
End Light.

Module Touch.
Record t : Type := mk {
  front_left : bool;
  front_right : bool;
  back_right : bool;
  back_left : bool
}.

Definition from_packet (packet : Packet.t) : result t :=
  let? a := index (Packet.payload packet) 4 in
  let? b := index (Packet.payload packet) 4 in
  let? c := index (Packet.payload packet) 4 in
  let? d := index (Packet.payload packet) 4 in
  Ok (mk (negb (Z.land a 0x80 =? 0)) (negb (Z.land b 0x40 =? 0))
         (negb (Z.land c 0x20 =? 0)) (negb (Z.land d 0x10 =? 0))).
End Touch.

(** [Marker] is an [Enum] class: its members are objects carrying a value,
    not integers. *)
Module Marker.
Definition cls : string := "Marker".
Definition UP : Z := 0.
Definition DOWN : Z := 1.
Definition ERASE : Z := 2.
End Marker.

(** ** Python values the facade computes with *)

(** A number passed by a script where the source annotates [float]. *)
Inductive number : Type :=
| NInt (z : Z)
| NFloat (f : float).

(** [x * 10]. *)
Definition times10 (x : number) : number :=
  match x with
  | NInt z => NInt (z * 10)
  | NFloat f => NFloat (f * 10)%float
  end.

(** [-x]. *)
Definition negate (x : number) : number :=
  match x with
  | NInt z => NInt (- z)
  | NFloat f => NFloat (- f)%float
  end.

(** [int(x)]: truncation toward zero. *)
Definition int_of (x : number) : result Z :=
  match x with
  | NInt z => Ok z
  | NFloat f =>
      match Prim2SF f with
      | S754_zero _ => Ok 0
      | S754_finite s m e =>
          let a := Z.shiftl (Z.pos m) e in
          Ok (if s then - a else a)
      | S754_infinity _ =>
          Raise (OverflowError "cannot convert float infinity to integer")
      | S754_nan => Raise (ValueError "cannot convert float NaN to integer")
      end
  end.

(** The operands of [bound]: integers and [Enum] members. *)
Inductive pyval : Type :=
| VInt (z : Z)
| VEnum (cls : string) (value : Z).

(** [a < b] and [a > b]: only integers are ordered, an [Enum] member
    supports neither comparison. *)
Definition py_lt (a b : pyval) : result bool :=
  match a, b with
  | VInt x, VInt y => Ok (x <? y)
  | _, _ => Raise (TypeError "'<' not supported between instances")
  end.

Definition py_gt (a b : pyval) : result bool :=
  match a, b with
  | VInt x, VInt y => Ok (x >? y)
  | _, _ => Raise (TypeError "'>' not supported between instances")
  end.

(** [max(a, b)] keeps [a] unless [b > a]; [min(a, b)] keeps [a] unless
    [b < a]. *)
Definition py_max (a b : pyval) : result pyval :=
  let? c := py_gt b a in Ok (if c then b else a).

Definition py_min (a b : pyval) : result pyval :=
  let? c := py_lt b a in Ok (if c then b else a).

(** [bytes([v])]. *)
Definition bytes_of_one (v : pyval) : result (list Z) :=
  match v with
  | VInt z =>
      if (0 <=? z) && (z <? 256) then Ok [z]
      else Raise (ValueError "bytes must be in range(0, 256)")
  | VEnum _ _ => Raise (TypeError "object cannot be interpreted as an integer")
  end.

(** The four bytes of [u], most significant first. *)
Definition be32 (u : Z) : list Z :=
  [Z.land (Z.shiftr u 24) 0xFF; Z.land (Z.shiftr u 16) 0xFF;
   Z.land (Z.shiftr u 8) 0xFF; Z.land u 0xFF].

(** [struct.pack(">i", v)]. *)
Definition pack_i (v : pyval) : result (list Z) :=
  match v with
  | VInt z =>
      if (- 2 ^ 31 <=? z) && (z <? 2 ^ 31) then Ok (be32 (z mod 2 ^ 32))
      else Raise (StructError "argument out of range")
  | VEnum _ _ => Raise (StructError "required argument is not an integer")
  end.

(** [struct.pack(">ii", v, w)]. *)
Definition pack_ii (v w : pyval) : result (list Z) :=
  let? a := pack_i v in
  let? b := pack_i w in
  Ok (a ++ b).

(** [struct.unpack(">i", bs)[0]]. *)
Definition unpack_i (bs : list Z) : result Z :=
  match bs with
  | [b3; b2; b1; b0] =>
      let u := ((b3 * 256 + b2) * 256 + b1) * 256 + b0 in
      Ok (if u <? 2 ^ 31 then u else u - 2 ^ 32)
  | _ => Raise (StructError "unpack requires a buffer of 4 bytes")
  end.

(** [struct.pack(">I", v)] and [struct.pack(">H", v)]. *)
Definition pack_I (v : Z) : result (list Z) :=
  if (0 <=? v) && (v <? 2 ^ 32) then Ok (be32 v)
  else Raise (StructError "argument out of range").

Definition pack_H (v : Z) : result (list Z) :=
  if (0 <=? v) && (v <? 2 ^ 16)
  then Ok [Z.land (Z.shiftr v 8) 0xFF; Z.land v 0xFF]
  else Raise (StructError "ushort format requires 0 <= number <= 65535").

(** [struct.pack(">IH", v, w)]. *)
Definition pack_IH (v w : Z) : result (list Z) :=
  let? a := pack_I v in
  let? b := pack_H w in
  Ok (a ++ b).

(** [x * 1000] and [x * 255]. *)
Definition times1000 (x : number) : number :=
  match x with
  | NInt z => NInt (z * 1000)
  | NFloat f => NFloat (f * 1000)%float
  end.

Definition times255 (x : number) : number :=
  match x with
  | NInt z => NInt (z * 255)
  | NFloat f => NFloat (f * 255)%float
  end.

(** [struct.pack("B", v)] for each of [vs]. *)
Fixpoint pack_Bs (vs : list pyval) : result (list Z) :=
  match vs with
  | [] => Ok []
  | VInt z :: vs' =>
      let? b := pack_B z in
      let? bs := pack_Bs vs' in
      Ok (b ++ bs)
  | VEnum _ _ :: _ => Raise (StructError "required argument is not an integer")
  end.

(** [bytes([v, ...])]. *)
Fixpoint bytes_of (vs : list pyval) : result (list Z) :=
  match vs with
  | [] => Ok []
  | v :: vs' =>
      let? b := bytes_of_one v in
      let? bs := bytes_of vs' in
      Ok (b ++ bs)
  end.

(** The other [Enum] classes of types.py. *)
Module Animation.
Definition cls : string := "Animation".
Definition OFF : Z := 0.
Definition ON : Z := 1.
Definition BLINK : Z := 2.
Definition SPIN : Z := 3.
End Animation.

Module ColorSensors.
Definition cls : string := "ColorSensors".
Definition SENSORS_0_TO_7 : Z := 0.
Definition SENSORS_8_TO_15 : Z := 1.
Definition SENSORS_16_TO_23 : Z := 2.
Definition SENSORS_24_TO_31 : Z := 3.
End ColorSensors.

Module ColorLighting.
Definition cls : string := "ColorLighting".
Definition OFF : Z := 0.
Definition RED : Z := 1.
Definition GREEN : Z := 2.
Definition BLUE : Z := 3.
Definition ALL : Z := 4.
End ColorLighting.

Module ColorFormat.
Definition cls : string := "ColorFormat".
Definition ADC_COUNTS : Z := 0.
Definition MILLIVOLTS : Z := 1.
End ColorFormat.

Module ModulationType.
Definition cls : string := "ModulationType".
Definition DISABLED : Z := 0.
Definition VOLUME : Z := 1.
Definition PULSE_WIDTH : Z := 2.
Definition FREQUENCY : Z := 3.
End ModulationType.

(** [str.encode("utf-8")] on a string given by its code points; a
    surrogate cannot be encoded ([UnicodeEncodeError] is a [ValueError]). *)
Definition utf8_char (c : Z) : result (list Z) :=
  if c <? 0x80 then Ok [c]
  else if c <? 0x800 then
    Ok [Z.lor 0xC0 (Z.shiftr c 6); Z.lor 0x80 (Z.land c 0x3F)]
  else if (0xD800 <=? c) && (c <=? 0xDFFF) then
    Raise (ValueError "'utf-8' codec can't encode: surrogates not allowed")
  else if c <? 0x10000 then
    Ok [Z.lor 0xE0 (Z.shiftr c 12);
        Z.lor 0x80 (Z.land (Z.shiftr c 6) 0x3F);
        Z.lor 0x80 (Z.land c 0x3F)]
  else
    Ok [Z.lor 0xF0 (Z.shiftr c 18);
        Z.lor 0x80 (Z.land (Z.shiftr c 12) 0x3F);
        Z.lor 0x80 (Z.land (Z.shiftr c 6) 0x3F);
        Z.lor 0x80 (Z.land c 0x3F)].

Fixpoint encode_utf8 (s : list Z) : result (list Z) :=
  match s with
  | [] => Ok []
  | c :: s' =>
      let? b := utf8_char c in
      let? bs := encode_utf8 s' in
      Ok (b ++ bs)
  end.

(** ** robot.py *)

Module Robot.

(** A future of the event loop. *)
Inductive future_state : Type :=
| Pending
| Finished (res : Packet.t)
| Cancelled.

(** What a filter hands to its callback. *)
Inductive arg : Type :=
| ANone
| ABool (b : bool)
| APacket (p : Packet.t)
| ABumper (b : Bumper.t).

(** Truth value of [if args:]; packets and dataclass instances define
    neither [__bool__] nor [__len__]. *)
Definition truthy (a : arg) : bool :=
  match a with
  | ANone => false
  | ABool b => b
  | APacket _ => true
  | ABumper _ => true
  end.

Definition filter : Type := Packet.t -> result arg.

Inductive callback : Type :=
| cb_stop                 (* lambda packet: self.stop() *)
| cb_enable_motors        (* self.enable_motors, a plain method *)
| cb_handler (h : nat).   (* an async def of the script *)

(** A coroutine object handed to [create_task]. *)
Inductive coroutine : Type :=
| co_stop
| co_handler (h : nat) (a : arg).

Record task : Type := mk_task {
  task_coro : coroutine;
  task_cancel_requested : bool
}.

Record t : Type := mk {
  _responses : gmap (Z * Z * Z) nat;
  _events : gmap (Z * Z) (list (filter * callback));
  _tasks : gmap (Z * Z) nat;
  _inc : Z;
  _running : bool;
  _enable_motors : bool;
  (* the objects behind [self._loop] *)
  futures : list future_state;
  tasks : list task;
  (* the transport behind [self._bluetooth] *)
  connected : bool;
  written : list (list Z)
}.

Definition with_responses (v : gmap (Z * Z * Z) nat) (s : t) : t :=
  mk v (_events s) (_tasks s) (_inc s) (_running s) (_enable_motors s)
     (futures s) (tasks s) (connected s) (written s).
Definition with_events (v : gmap (Z * Z) (list (filter * callback)))
  (s : t) : t :=
  mk (_responses s) v (_tasks s) (_inc s) (_running s) (_enable_motors s)
     (futures s) (tasks s) (connected s) (written s).
Definition with_tasks_table (v : gmap (Z * Z) nat) (s : t) : t :=
  mk (_responses s) (_events s) v (_inc s) (_running s) (_enable_motors s)
     (futures s) (tasks s) (connected s) (written s).
Definition with_inc (v : Z) (s : t) : t :=
  mk (_responses s) (_events s) (_tasks s) v (_running s) (_enable_motors s)
     (futures s) (tasks s) (connected s) (written s).
Definition with_running (v : bool) (s : t) : t :=
  mk (_responses s) (_events s) (_tasks s) (_inc s) v (_enable_motors s)
     (futures s) (tasks s) (connected s) (written s).
Definition with_enable_motors (v : bool) (s : t) : t :=
  mk (_responses s) (_events s) (_tasks s) (_inc s) (_running s) v
     (futures s) (tasks s) (connected s) (written s).
Definition with_futures (v : list future_state) (s : t) : t :=
  mk (_responses s) (_events s) (_tasks s) (_inc s) (_running s)
     (_enable_motors s) v (tasks s) (connected s) (written s).
Definition with_tasks (v : list task) (s : t) : t :=
  mk (_responses s) (_events s) (_tasks s) (_inc s) (_running s)
     (_enable_motors s) (futures s) v (connected s) (written s).
Definition with_written (v : list (list Z)) (s : t) : t :=
  mk (_responses s) (_events s) (_tasks s) (_inc s) (_running s)
     (_enable_motors s) (futures s) (tasks s) (connected s) v.

(** Methods read and write the robot and may raise; what was written
    before the exception stays written. *)
Definition M (A : Type) : Type := t -> result A * t.

Definition ret {A : Type} (a : A) : M A := fun s => (Ok a, s).

Definition bind {A B : Type} (m : M A) (k : A -> M B) : M B :=
  fun s =>
    match m s with
    | (Ok a, s') => k a s'
    | (Raise e, s') => (Raise e, s')
    end.

Definition lift {A : Type} (r : result A) : M A := fun s => (r, s).
Definition get {A : Type} (f : t -> A) : M A := fun s => (Ok (f s), s).
Definition modify (f : t -> t) : M unit := fun s => (Ok tt, f s).

Notation "'let!' x ':=' m 'in' k" := (bind m (fun x => k))
  (at level 10, x pattern, m at level 100, k at level 200).
Notation "m ';;' k" := (bind m (fun _ => k))
  (at level 100, k at level 200, right associativity).

(** How a coroutine call ends at its first suspension: it returned, or it
    waits on a future. *)
Inductive outcome : Type :=
| Returned
| Awaiting (future : nat).

(** [Robot.__init__], for a transport that is connected or not. *)
Definition init (bluetooth_connected : bool) : t :=
  mk ∅ ∅ ∅ 0 false true [] [] bluetooth_connected [].

(** [self._loop.create_future()]. *)
Definition create_future : M nat :=
  fun s => (Ok (length (futures s)),
            with_futures (futures s ++ [Pending]) s).

(** [self._loop.create_task(coro)]: a task wraps a coroutine object and
    nothing else. *)
Definition create_task (coro : option coroutine) : M nat :=
  fun s =>
    match coro with
    | Some c => (Ok (length (tasks s)),
                 with_tasks (tasks s ++ [mk_task c false]) s)
    | None => (Raise (TypeError "a coroutine was expected, got None"), s)
    end.

(** [task.cancel()]. *)
Definition cancel_task (id : nat) : M unit :=
  modify (fun s =>
    with_tasks (alter (fun k => mk_task (task_coro k) true) id (tasks s)) s).

(** [Bluetooth.write]. *)
Definition bluetooth_write (data : list Z) : M unit :=
  fun s =>
    if connected s then (Ok tt, with_written (written s ++ [data]) s)
    else (Ok tt, s).

(** The [inc] property. *)
Definition inc : M Z :=
  fun s =>
    let inc := _inc s in
    let s := with_inc (_inc s + 1) s in
    let s := if _inc s >? 255 then with_inc 0 s else s in
    (Ok inc, s).

(** [Robot.bound]. *)
Definition bound (value low high : pyval) : result pyval :=
  let? m := py_max low value in py_min high m.

(** [Robot.write_packet]. *)
Definition write_packet (packet : Packet.t) : M unit :=
  let! running := get _running in
  if running then
    let! data := lift (Packet.to_bytes packet) in
    bluetooth_write data
  else ret tt.

(** [Robot.enable_motors]. *)
Definition enable_motors (enable : bool) : M unit :=
  modify (with_enable_motors enable).

(** [Robot.stop]. *)
Definition stop : M unit :=
  let! i := inc in
  let! packet := lift (Packet.init 0 3 i (zero_bytes Packet.PAYLOAD_LEN) None) in
  write_packet packet ;;
  modify (with_running false).

(** [int(x * 10)] as an operand of [pack] or [bound]. *)
Definition tenths (x : number) : result pyval :=
  let? v := int_of (times10 x) in Ok (VInt v).

(** [Robot.set_speeds]. *)
Definition set_speeds (left right : number) : M outcome :=
  let! enabled := get _enable_motors in
  if enabled then
    let! left := lift (let? v := tenths left in
                       bound v (VInt (-100)) (VInt 100)) in
    let! right := lift (let? v := tenths right in
                        bound v (VInt (-100)) (VInt 100)) in
    let! i := inc in
    let! payload := lift (pack_ii left right) in
    let! packet := lift (Packet.init 1 4 i payload None) in
    write_packet packet ;;
    ret Returned
  else ret Returned.

(** [Robot.set_left_speed]. *)
Definition set_left_speed (speed : number) : M outcome :=
  let! enabled := get _enable_motors in
  if enabled then
    let! speed := lift (let? v := tenths speed in
                        bound v (VInt (-100)) (VInt 100)) in
    let! i := inc in
    let! payload := lift (pack_i speed) in
    let! packet := lift (Packet.init 1 6 i payload None) in
    write_packet packet ;;
    ret Returned
  else ret Returned.

(** [Robot.set_right_speed]. *)
Definition set_right_speed (speed : number) : M outcome :=
  let! enabled := get _enable_motors in
  if enabled then
    let! speed := lift (let? v := tenths speed in
                        bound v (VInt (-100)) (VInt 100)) in
    let! i := inc in
    let! payload := lift (pack_i speed) in
    let! packet := lift (Packet.init 1 7 i payload None) in
    write_packet packet ;;
    ret Returned
  else ret Returned.

(** [self._responses[(dev, cmd, inc)] = future]. *)
Definition expect (key : Z * Z * Z) (future : nat) : M unit :=
  modify (fun s => with_responses (<[key := future]> (_responses s)) s).

(** [Robot.drive_distance]. *)
Definition drive_distance (distance : number) : M outcome :=
  let! enabled := get _enable_motors in
  if enabled then
    let! i := inc in
    let! payload := lift (let? v := tenths distance in pack_i v) in
    let! packet := lift (Packet.init 1 8 i payload None) in
    let! future := create_future in
    expect (1, 8, i) future ;;
    write_packet packet ;;
    ret (Awaiting future)
  else ret Returned.

(** [Robot.turn_right]. *)
Definition turn_right (angle : number) : M outcome :=
  let! enabled := get _enable_motors in
  if enabled then
    let! i := inc in
    let! payload := lift (let? v := tenths angle in pack_i v) in
    let! packet := lift (Packet.init 1 12 i payload None) in
    let! future := create_future in
    expect (1, 12, i) future ;;
    write_packet packet ;;
    ret (Awaiting future)
  else ret Returned.

(** [Robot.turn_left]. *)
Definition turn_left (angle : number) : M outcome :=
  turn_right (negate angle).

(** [Robot.arc]. *)
Definition arc (angle radius : number) : M outcome :=
  let! enabled := get _enable_motors in
  if enabled then
    let! i := inc in
    let! payload := lift (let? a := tenths angle in
                          let? r := tenths radius in
                          pack_ii a r) in
    let! future := create_future in
    expect (1, 27, i) future ;;
    let! packet := lift (Packet.init 1 27 i payload None) in
    write_packet packet ;;
    ret (Awaiting future)
  else ret Returned.

(** [Robot.set_marker]. *)
Definition set_marker (position : pyval) : M outcome :=
  let! enabled := get _enable_motors in
  if enabled then
    let! i := inc in
    let! payload :=
      lift (let? v := bound position (VEnum Marker.cls Marker.UP)
                            (VEnum Marker.cls Marker.ERASE) in
            bytes_of_one v) in
    let! future := create_future in
    expect (2, 0, i) future ;;
    let! packet := lift (Packet.init 2 0 i payload None) in
    write_packet packet ;;
    ret (Awaiting future)
  else ret Returned.

(** [self._events[key].append(sub)] on the [defaultdict(list)]. *)
Definition subscribe (key : Z * Z) (sub : filter * callback) : M unit :=
  modify (fun s =>
    with_events (<[key := default [] (_events s !! key) ++ [sub]]>
                   (_events s)) s).

(** [Robot.on_bump(filter)(callback)]. *)
Definition on_bump (filter : option Bumper.t) (callback : nat) : M unit :=
  let filter_function : Robot.filter := fun packet =>
    let? bumper := Bumper.from_packet packet in
    Ok (match filter with
        | None => ABumper bumper
        | Some f =>
            if eqb (Bumper.left f) (Bumper.left bumper)
               && eqb (Bumper.right f) (Bumper.right bumper)
            then ABumper bumper else ANone
        end) in
  subscribe (12, 0) (filter_function, cb_handler callback).

(** The three subscriptions [run] installs. *)
Definition stop_filter : filter := fun packet => Ok (APacket packet).
Definition stall_filter : filter := fun packet => Ok (ABool false).
Definition cliff_filter : filter := fun packet =>
  let? b := index (Packet.payload packet) 4 in Ok (ABool (b =? 0)).

(** [Robot.run]. *)
Definition run : M unit :=
  modify (with_responses ∅) ;;
  modify (with_events ∅) ;;
  modify (with_tasks_table ∅) ;;
  subscribe (0, 4) (stop_filter, cb_stop) ;;
  subscribe (1, 29) (stall_filter, cb_enable_motors) ;;
  subscribe (20, 0) (cliff_filter, cb_enable_motors) ;;
  modify (with_inc 0) ;;
  modify (with_running true).

(** [Robot.is_running]. *)
Definition is_running (s : t) : bool := _running s.

(** [callback(args)]: a coroutine function returns a coroutine object
    without running it; [enable_motors] runs at once and returns [None].
    The flag is only ever tested for truth, so its truth value is kept. *)
Definition call (cb : callback) (a : arg) : M (option coroutine) :=
  match cb with
  | cb_stop => ret (Some co_stop)
  | cb_enable_motors => enable_motors (truthy a) ;; ret None
  | cb_handler h => ret (Some (co_handler h a))
  end.

(** A [for] loop over a list. *)
Fixpoint for_each {A : Type} (l : list A) (body : A -> M unit) : M unit :=
  match l with
  | [] => ret tt
  | x :: l' => body x ;; for_each l' body
  end.

(** Lines 411-415 of [_data_received]: the reply slot. *)
Definition resolve_response (packet : Packet.t) : M unit :=
  let key := (Packet.dev packet, Packet.cmd packet, Packet.inc packet) in
  let! responses := get _responses in
  match responses !! key with
  | Some future =>
      modify (with_responses (delete key responses)) ;;
      let! fs := get futures in
      match fs !! future with
      | Some Pending =>
          modify (with_futures (<[future := Finished packet]> fs))
      | _ => ret tt
      end
  | None => ret tt
  end.

(** Lines 420-424 of [_data_received]: the body of the loop over the
    subscribers of [key]. *)
Definition deliver (key : Z * Z) (packet : Packet.t)
  (sub : filter * callback) : M unit :=
  let '(filter, callback) := sub in
  let! args := lift (filter packet) in
  if truthy args then
    let! table := get _tasks in
    match table !! key with
    | Some old => cancel_task old
    | None => ret tt
    end ;;
    let! coro := call callback args in
    let! new := create_task coro in
    modify (fun s => with_tasks_table (<[key := new]> (_tasks s)) s)
  else ret tt.

(** Lines 417-419 of [_data_received]: the event subscribers. *)
Definition dispatch_events (packet : Packet.t) : M unit :=
  let key := (Packet.dev packet, Packet.cmd packet) in
  let! events := get _events in
  match events !! key with
  | Some subs => for_each subs (deliver key packet)
  | None => ret tt
  end.

(** [Robot._data_received]. *)
Definition _data_received (data : list Z) : M unit :=
  let! running := get _running in
  if negb running then ret tt
  else
    let! packet := lift (Packet.from_bytes data) in
    let! good := lift (Packet.check_crc packet) in
    if negb good then ret tt
    else
      resolve_response packet ;;
      dispatch_events packet.

(** *** Commands that wait for a reply and return a value *)

(** A coroutine at a suspension point: it has returned, or it awaits a
    future and continues with the packet the future is resolved with. *)
#[warnings="-register-all"]
Inductive co (A : Type) : Type :=
| Return (a : A)
| Await (future : nat) (k : Packet.t -> t -> result (co A) * t).

Arguments Return {A} a.
Arguments Await {A} future k.

(** [Robot.reset_position]. *)
Definition reset_position : M outcome :=
  let! i := inc in
  let! packet := lift (Packet.init 1 15 i (zero_bytes Packet.PAYLOAD_LEN) None) in
  write_packet packet ;;
  ret Returned.

(** [Robot.stop_playing_note]. *)
Definition stop_playing_note : M outcome :=
  let! i := inc in
  let! packet := lift (Packet.init 5 1 i (zero_bytes Packet.PAYLOAD_LEN) None) in
  write_packet packet ;;
  ret Returned.

(** [Robot.stop_saying]. *)
Definition stop_saying : M outcome := stop_playing_note.

(** [Robot.get_versions]. *)
Definition get_versions (board : Z) : M (co (list Z)) :=
  let! i := inc in
  let! future := create_future in
  expect (0, 0, i) future ;;
  let! payload := lift (bytes_of [VInt board]) in
  let! packet := lift (Packet.init 0 0 i payload None) in
  write_packet packet ;;
  ret (Await future (fun packet =>
         ret (Return (take 9 (Packet.payload packet))))).

(** [Robot.get_light_sensor_data]. *)
Definition get_light_sensor_data : M (co (Z * Z)) :=
  let! i := inc in
  let! future := create_future in
  expect (13, 1, i) future ;;
  let! packet := lift (Packet.init 13 1 i (zero_bytes Packet.PAYLOAD_LEN) None) in
  write_packet packet ;;
  ret (Await future (fun packet =>
         lift (let? l := unpack_H (slice (Packet.payload packet) 4 6) in
               let? r := unpack_H (slice (Packet.payload packet) 6 8) in
               Ok (Return (l, r))))).

(** [Robot.get_battery_level]. *)
Definition get_battery_level : M (co (Z * Z)) :=
  let! i := inc in
  let! future := create_future in
  expect (14, 1, i) future ;;
  let! packet := lift (Packet.init 14 1 i (zero_bytes Packet.PAYLOAD_LEN) None) in
  write_packet packet ;;
  ret (Await future (fun packet =>
         lift (let? mv := unpack_H (slice (Packet.payload packet) 4 6) in
               let? percent := index (Packet.payload packet) 6 in
               Ok (Return (mv, percent))))).

(** [Robot.set_lights]. *)
Definition set_lights (red green blue animation : pyval) : M outcome :=
  let! animation := lift (bound animation (VEnum Animation.cls Animation.OFF)
                                (VEnum Animation.cls Animation.SPIN)) in
  let! red := lift (bound red (VInt 0) (VInt 255)) in
  let! green := lift (bound green (VInt 0) (VInt 255)) in
  let! blue := lift (bound blue (VInt 0) (VInt 255)) in
  let! payload := lift (bytes_of [animation; red; green; blue]) in
  let! i := inc in
  let! packet := lift (Packet.init 3 2 i payload None) in
  write_packet packet ;;
  ret Returned.

(** [Robot.get_color_sensor_data]: the reply is eight unsigned 16-bit
    values. *)
Definition get_color_sensor_data (bank lighting format : pyval)
  : M (co (list Z)) :=
  let! bank :=
    lift (bound bank (VEnum ColorSensors.cls ColorSensors.SENSORS_0_TO_7)
            (VEnum ColorSensors.cls ColorSensors.SENSORS_24_TO_31)) in
  let! lighting :=
    lift (bound lighting (VEnum ColorLighting.cls ColorLighting.OFF)
            (VEnum ColorLighting.cls ColorLighting.ALL)) in
  let! format :=
    lift (bound format (VEnum ColorFormat.cls ColorFormat.ADC_COUNTS)
            (VEnum ColorFormat.cls ColorFormat.MILLIVOLTS)) in
  let! i := inc in
  let! future := create_future in
  expect (4, 1, i) future ;;
  let! payload := lift (bytes_of [bank; lighting; format]) in
  let! packet := lift (Packet.init 4 1 i payload None) in
  write_packet packet ;;
  ret (Await future (fun packet =>
         lift (let pl := Packet.payload packet in
               if (length pl =? 16)%nat then
                 let? v0 := unpack_H (slice pl 0 2) in
                 let? v1 := unpack_H (slice pl 2 4) in
                 let? v2 := unpack_H (slice pl 4 6) in
                 let? v3 := unpack_H (slice pl 6 8) in
                 let? v4 := unpack_H (slice pl 8 10) in
                 let? v5 := unpack_H (slice pl 10 12) in
                 let? v6 := unpack_H (slice pl 12 14) in
                 let? v7 := unpack_H (slice pl 14 16) in
                 Ok (Return [v0; v1; v2; v3; v4; v5; v6; v7])
               else Raise (StructError "unpack requires a buffer of 16 bytes")))).

(** [abs(int(x))]. *)
Definition abs_int (x : number) : result Z :=
  let? v := int_of x in Ok (Z.abs v).

(** [Robot.play_note]. *)
Definition play_note (frequency duration : number) : M outcome :=
  let! i := inc in
  let! payload := lift (let? f := abs_int frequency in
                        let? d := abs_int (times1000 duration) in
                        pack_IH f d) in
  let! future := create_future in
  expect (5, 0, i) future ;;
  let! packet := lift (Packet.init 5 0 i payload None) in
  write_packet packet ;;
  ret (Awaiting future).

(** [Robot.play_sweep]. *)
Definition play_sweep (start_frequency end_frequency duration : number)
    (attack release volume : number) (modulation_type modulation_rate : pyval)
    (append : bool) : M outcome :=
  let! i := inc in
  let! start_frequency := lift (abs_int (times1000 start_frequency)) in
  let! end_frequency := lift (abs_int (times1000 end_frequency)) in
  let! duration := lift (abs_int (times1000 duration)) in
  let! attack := lift (let? v := int_of (times1000 attack) in
                       bound (VInt v) (VInt 0) (VInt 255)) in
  let! release := lift (let? v := int_of (times1000 release) in
                        bound (VInt v) (VInt 0) (VInt 255)) in
  let! volume := lift (let? v := int_of (times255 volume) in
                       bound (VInt v) (VInt 0) (VInt 255)) in
  let! modulation_type :=
    lift (bound modulation_type
            (VEnum ModulationType.cls ModulationType.DISABLED)
            (VEnum ModulationType.cls ModulationType.FREQUENCY)) in
  let! modulation_rate := lift (bound modulation_rate (VInt 0) (VInt 255)) in
  let! payload :=
    lift (let? a := pack_I start_frequency in
          let? b := pack_I end_frequency in
          let? c := pack_H duration in
          let? d := pack_Bs [attack; release; volume; modulation_type;
                             modulation_rate;
                             VInt (if append then 1 else 0)] in
          Ok (a ++ b ++ c ++ d)) in
  let! future := create_future in
  expect (5, 5, i) future ;;
  let! packet := lift (Packet.init 5 5 i payload None) in
  write_packet packet ;;
  ret (Awaiting future).

(** The loop of [set_name]: drop the last character while the encoding
    is longer than a payload.  [n] bounds the number of turns; the loop
    takes at most one turn per character, so [set_name] passes the length
    of the name. *)
Fixpoint fit_name (n : nat) (name : list Z) : result (list Z) :=
  let? utf := encode_utf8 name in
  if (Packet.PAYLOAD_LEN <? length utf)%nat then
    match n with
    | S n' => fit_name n' (removelast name)
    | O => Ok utf
    end
  else Ok utf.

(** [Robot.set_name]. *)
Definition set_name (name : list Z) : M outcome :=
  let! utf := lift (fit_name (length name) name) in
  let! i := inc in
  let! packet := lift (Packet.init 0 1 i utf None) in
  write_packet packet ;;
  ret Returned.

(** [[buf[i : i + 16] for i in range(0, len(buf), 16)]]. *)
Definition chunks (buf : list Z) : list (list Z) :=
  (fun i => slice buf (Z.to_nat i) (Z.to_nat i + Packet.PAYLOAD_LEN))
    <$> py_range 0 (Z.of_nat (length buf)) (Z.of_nat Packet.PAYLOAD_LEN).

(** The loop of [say] over the chunks still to send. *)
Fixpoint say_chunks (payloads : list (list Z)) : M (co unit) :=
  match payloads with
  | [] => ret (Return tt)
  | payload :: rest =>
      let! i := inc in
      let! future := create_future in
      expect (5, 4, i) future ;;
      let! packet := lift (Packet.init 5 4 i payload None) in
      write_packet packet ;;
      ret (Await future (fun _ => say_chunks rest))
  end.

(** [Robot.say]. *)
Definition say (phrase : list Z) : M (co unit) :=
  let! buf := lift (encode_utf8 phrase) in
  say_chunks (chunks buf).

End Robot.

(** ** Vocabulary of the properties *)

(** [n] successive reads of the [inc] property, with the values read. *)
Fixpoint allocations (n : nat) (s : Robot.t) : list Z * Robot.t :=
  match n with
  | O => ([], s)
  | S n' =>
      match Robot.inc s with
      | (Ok v, s1) => let '(vs, s2) := allocations n' s1 in (v :: vs, s2)
      | (Raise _, s1) => ([], s1)
      end
  end.

(** Flip bit [k mod 8] of byte [k / 8] of a frame. *)
Definition flip_bit (frame : list Z) (k : nat) : list Z :=
  alter (fun b => Z.lxor b (2 ^ Z.of_nat (k mod 8))) (k / 8)%nat frame.

(** A frame-sized error pattern: value [v] at byte [j], zero elsewhere. *)
Definition one_hot (n j : nat) (v : Z) : list Z := <[j := v]> (replicate n 0).

(** Every single-bit pattern over the 19 checked bytes has a non-zero
    checksum. *)
Definition single_bit_patterns_nonzero : bool :=
  forallb (fun j =>
    forallb (fun i =>
      negb (Packet.crc_of (one_hot 19 j (2 ^ Z.of_nat i)) =? 0))
      (seq 0 8))
    (seq 0 19).

(** What a method leaves alone: [keeps R m] says every run of [m], raising
    or not, ends in a state related by [R] to the one it started in. *)
Definition keeps (R : Robot.t -> Robot.t -> Prop) {A : Type}
  (m : Robot.M A) : Prop :=
  forall s, R s (m s).2.

(** The reply table and the futures. *)
Definition same_slots (s s' : Robot.t) : Prop :=
  Robot._responses s' = Robot._responses s /\
  Robot.futures s' = Robot.futures s.

(** The subscriptions, the running flag, the tasks and the motor flag. *)
Definition same_events (s s' : Robot.t) : Prop :=
  Robot._events s' = Robot._events s /\
  Robot._running s' = Robot._running s /\
  Robot._tasks s' = Robot._tasks s /\
  Robot.tasks s' = Robot.tasks s /\
  Robot._enable_motors s' = Robot._enable_motors s.

(** An inbound frame as the robot would send it. *)
Definition inbound (dev cmd inc : Z) (payload : list Z) : list Z :=
  match (let? p := Packet.init dev cmd inc payload None in Packet.to_bytes p)
  with
  | Ok data => data
  | Raise _ => []
  end.

(** The coroutine a subscriber is started with when its filter matches. *)
Definition delivered (p : Packet.t) (sub : Robot.filter * Robot.callback)
  : option Robot.coroutine :=
  match sub.1 p with
  | Ok a =>
      if Robot.truthy a then
        match sub.2 with
        | Robot.cb_handler h => Some (Robot.co_handler h a)
        | Robot.cb_stop => Some Robot.co_stop
        | Robot.cb_enable_motors => None
        end
      else None
  | Raise _ => None
  end.

(** A subscriber whose filter returns on [p] and whose callback is a
    coroutine function, as the [on_] decorators require. *)
Definition starts_coroutine (p : Packet.t)
    (sub : Robot.filter * Robot.callback) : Prop :=
  (exists a, sub.1 p = Ok a) /\ sub.2 <> Robot.cb_enable_motors.

(** A subscriber the dispatch loop gets past on [p]: its filter returns a
    value, and when that value counts as a match the callback is a
    coroutine function, so that [create_task] receives a coroutine. *)
Definition handles (p : Packet.t)
    (sub : Robot.filter * Robot.callback) : Prop :=
  exists a, sub.1 p = Ok a /\
    (Robot.truthy a = true -> sub.2 <> Robot.cb_enable_motors).

(** A started robot with a bump handler registered and one
    [drive_distance] call waiting for its reply. *)
Definition driving : Robot.t :=
  let s := (Robot.run (Robot.init true)).2 in
  let s := (Robot.on_bump None 7 s).2 in
  (Robot.drive_distance (NFloat 12.5) s).2.

(** The motor flag is not switched off. *)
Definition motors_stay_on (s s' : Robot.t) : Prop :=
  Robot._enable_motors s = true -> Robot._enable_motors s' = true.

(** The subscriptions and the running flag. *)
Definition same_subscriptions (s s' : Robot.t) : Prop :=
  Robot._events s' = Robot._events s /\
  Robot._running s' = Robot._running s.

(** A task after [cancel()]. *)
Definition cancelled (k : Robot.task) : Robot.task :=
  Robot.mk_task (Robot.task_coro k) true.

(** Tasks created one after the other under one event key: each creation
    cancels the task created before, so only the last is left to run. *)
Fixpoint superseding (cs : list Robot.coroutine) : list Robot.task :=
  match cs with
  | [] => []
  | [c] => [Robot.mk_task c false]
  | c :: cs' => Robot.mk_task c true :: superseding cs'
  end.

(** The task list once the task registered under [entry], if any, has been
    cancelled. *)
Definition cancel_entry (entry : option nat) (ts : list Robot.task)
  : list Robot.task :=
  match entry with
  | Some old => alter cancelled old ts
  | None => ts
  end.

(** The filter function that [on_bump] builds for [filter]. *)
Definition bump_filter (filter : option Bumper.t) : Robot.filter :=
  fun packet =>
    let? bumper := Bumper.from_packet packet in
    Ok (match filter with
        | None => Robot.ABumper bumper
        | Some f =>
            if eqb (Bumper.left f) (Bumper.left bumper)
               && eqb (Bumper.right f) (Bumper.right bumper)
            then Robot.ABumper bumper else Robot.ANone
        end).

(** A started robot with the three bump handlers of [examples/events.py]:
    any bump (1), both bumpers (2), left bumper only (3). *)
Definition listening : Robot.t :=
  let s := (Robot.run (Robot.init true)).2 in
  let s := (Robot.on_bump None 1 s).2 in
  let s := (Robot.on_bump (Some (Bumper.mk true true)) 2 s).2 in
  (Robot.on_bump (Some (Bumper.mk true false)) 3 s).2.

(** The 20 bytes that go to the wire for [Packet(dev, cmd, inc, payload)]. *)
Definition frame_of (dev cmd inc : Z) (payload : list Z) : list Z :=
  let body := dev :: cmd :: inc
              :: payload ++ zero_bytes (Packet.PAYLOAD_LEN - length payload) in
  body ++ [Packet.crc_of body].

(** The sequence number after [i]. *)
Definition next_inc (i : Z) : Z := if i + 1 >? 255 then 0 else i + 1.

(** The clamp of [bound(v, -100, 100)]. *)
Definition clamp_speed (v : Z) : Z := Z.min 100 (Z.max (-100) v).

(** What a command that expects a reply has done when it suspends: one
    frame written, addressed [dev], [cmd] and the current sequence number, a
    fresh pending future registered under that triplet, the counter
    advanced. *)
Definition requested (s s' : Robot.t) (dev cmd : Z) (data : list Z) : Prop :=
  Robot.written s' = Robot.written s ++ [data] /\
  length data = 20%nat /\
  slice data 0 3 = [dev; cmd; Robot._inc s] /\
  Robot._responses s'
    = <[(dev, cmd, Robot._inc s) := length (Robot.futures s)]>
        (Robot._responses s) /\
  Robot.futures s' = Robot.futures s ++ [Robot.Pending] /\
  Robot._inc s' = (Robot._inc s + 1) mod 256.

(** [struct.unpack(">I", bs)[0]]. *)
Definition unpack_I (bs : list Z) : result Z :=
  match bs with
  | [b3; b2; b1; b0] => Ok (((b3 * 256 + b2) * 256 + b1) * 256 + b0)
  | _ => Raise (StructError "unpack requires a buffer of 4 bytes")
  end.

(** The transport log, the link state, the sequence counter and the
    running flag. *)
Definition same_link (s s' : Robot.t) : Prop :=
  Robot.written s' = Robot.written s /\
  Robot.connected s' = Robot.connected s /\
  Robot._inc s' = Robot._inc s /\
  Robot._running s' = Robot._running s.

(** An event loop that hands the coroutine one inbound frame per
    suspension: the frame goes through [_data_received], and if that
    finished the awaited future the coroutine continues with its result. *)
Fixpoint resume_with {A : Type} (replies : list (list Z)) (c : Robot.co A)
    (s : Robot.t) : result (Robot.co A) * Robot.t :=
  match replies, c with
  | reply :: rest, Robot.Await future k =>
      let s1 := (Robot._data_received reply s).2 in
      match Robot.futures s1 !! future with
      | Some (Robot.Finished p) =>
          match k p s1 with
          | (Ok c', s2) => resume_with rest c' s2
          | (Raise e, s2) => (Raise e, s2)
          end
      | _ => (Ok c, s1)
      end
  | _, _ => (Ok c, s)
  end.

(** The frames of consecutive requests to [dev], [cmd] from sequence
    number [i] on, and the acknowledgements a robot returns for them. *)
Fixpoint frames_from (dev cmd i : Z) (payloads : list (list Z))
  : list (list Z) :=
  match payloads with
  | [] => []
  | payload :: rest =>
      frame_of dev cmd i payload :: frames_from dev cmd (next_inc i) rest
  end.

Fixpoint acks_from (dev cmd i : Z) (n : nat) : list (list Z) :=
  match n with
  | O => []
  | S n' => frame_of dev cmd i [] :: acks_from dev cmd (next_inc i) n'
  end.

(** * Properties *)

(** ** Packet construction *)

Section PacketInit.
Variables (dev cmd inc : Z) (payload : list Z) (crc : option Z).

Lemma init_ok :
  (length payload <= Packet.PAYLOAD_LEN)%nat ->
  Packet.init dev cmd inc payload crc =
    Ok (Packet.mk dev cmd inc
          (payload ++ zero_bytes (Packet.PAYLOAD_LEN - length payload)) crc).
Proof.
  intros H. unfold Packet.init.
  destruct (Nat.leb_spec (length payload) Packet.PAYLOAD_LEN); [done | lia].
Qed.

Lemma init_too_long :
  (Packet.PAYLOAD_LEN < length payload)%nat ->
  Packet.init dev cmd inc payload crc =
    Raise (AssertionError "invalid payload length").
Proof.
  intros H. unfold Packet.init.
  destruct (Nat.leb_spec (length payload) Packet.PAYLOAD_LEN); [lia | done].
Qed.

(** C8: a payload of at most 16 bytes is stored as 16 bytes, the argument
    followed by zero bytes (unchanged when it already has 16); a longer
    payload makes the constructor fail with an assertion error. *)
Theorem payload_padding :
  ((length payload <= 16)%nat ->
     exists p, Packet.init dev cmd inc payload crc = Ok p /\
       length (Packet.payload p) = 16%nat /\
       Packet.payload p = payload ++ replicate (16 - length payload) 0 /\
       (length payload = 16%nat -> Packet.payload p = payload)) /\
  ((16 < length payload)%nat ->
     exists msg,
       Packet.init dev cmd inc payload crc = Raise (AssertionError msg)).
Proof.
  split; intros H.
  - eexists. split; [apply init_ok; exact H |]. cbn [Packet.payload].
    unfold zero_bytes, Packet.PAYLOAD_LEN.
    rewrite length_app, length_replicate.
    split; [lia |]. split; [reflexivity |].
    intros ->. rewrite Nat.sub_diag. apply app_nil_r.
  - eexists. apply init_too_long. exact H.
Qed.
End PacketInit.

Lemma payload_padding_witness :
  (exists p, Packet.init 1 4 7 [0; 0; 0; 100] None = Ok p /\
     length (Packet.payload p) = 16%nat /\
     Packet.payload p = [0; 0; 0; 100] ++ replicate 12 0 /\
     (length [0; 0; 0; 100] = 16%nat -> Packet.payload p = [0; 0; 0; 100])) /\
  (exists msg,
     Packet.init 1 4 7 (replicate 17 9) None = Raise (AssertionError msg)).
Proof.
  split.
  - apply (proj1 (payload_padding 1 4 7 [0; 0; 0; 100] None)). simpl. lia.
  - apply (proj2 (payload_padding 1 4 7 (replicate 17 9) None)). simpl. lia.
Defined.

(** ** Sequence numbers *)

Lemma inc_spec (s : Robot.t) :
  Robot.inc s =
    (Ok (Robot._inc s),
     Robot.with_inc (if Robot._inc s + 1 >? 255 then 0 else Robot._inc s + 1) s).
Proof.
  unfold Robot.inc. cbn. destruct (Robot._inc s + 1 >? 255); reflexivity.
Qed.

Lemma allocations_spec (n : nat) : forall s : Robot.t,
  0 <= Robot._inc s <= 255 ->
  (allocations n s).1 =
    (fun k => (Robot._inc s + k) mod 256) <$> seqZ 0 (Z.of_nat n) /\
  Robot._inc (allocations n s).2 = (Robot._inc s + Z.of_nat n) mod 256.
Proof.
  induction n as [| n IH]; intros s Hs.
  - cbn. rewrite Z.add_0_r, Z.mod_small by lia. done.
  - cbn [allocations]. rewrite inc_spec.
    set (s1 := Robot.with_inc _ s).
    assert (H1 : Robot._inc s1 = (Robot._inc s + 1) mod 256).
    { subst s1. cbn. destruct (Z.gtb_spec (Robot._inc s + 1) 255).
      - replace (Robot._inc s) with 255 by lia. reflexivity.
      - rewrite Z.mod_small; lia. }
    destruct (IH s1) as [IHv IHc].
    { rewrite H1. pose proof (Z.mod_pos_bound (Robot._inc s + 1) 256). lia. }
    destruct (allocations n s1) as [vs s2] eqn:E. cbn in *.
    split.
    + rewrite Nat2Z.inj_succ, seqZ_cons by lia.
      rewrite fmap_cons, Z.add_0_r, Z.mod_small by lia. f_equal.
      rewrite IHv, Z.pred_succ, <- (fmap_add_seqZ 1 0), <- list_fmap_compose.
      apply list_fmap_ext. intros _ k _. cbn. rewrite H1.
      rewrite Zplus_mod_idemp_l. f_equal. lia.
    + rewrite IHc, H1, Zplus_mod_idemp_l. f_equal. lia.
Qed.

(** C3: from a counter of 0 the first 256 reads give 0, 1, ..., 255 and the
    257th gives 0 again; after any number of reads the counter is within
    [0, 255]. *)
Theorem inc_wraps_after_256 (s : Robot.t) :
  Robot._inc s = 0 ->
  (allocations 257 s).1 = seqZ 0 256 ++ [0] /\
  forall n, 0 <= Robot._inc (allocations n s).2 <= 255.
Proof.
  intros H0. split.
  - rewrite (proj1 (allocations_spec 257 s ltac:(lia))), H0. reflexivity.
  - intros n. rewrite (proj2 (allocations_spec n s ltac:(lia))).
    pose proof (Z.mod_pos_bound (Robot._inc s + Z.of_nat n) 256). lia.
Qed.

Lemma inc_wraps_after_256_witness :
  (allocations 257 (Robot.init true)).1 = seqZ 0 256 ++ [0] /\
  forall n, 0 <= Robot._inc (allocations n (Robot.init true)).2 <= 255.
Proof. apply (inc_wraps_after_256 (Robot.init true)). reflexivity. Defined.

(** ** Decoded domain values *)

Lemma land_pow2_testbit (b n : Z) :
  0 <= n -> negb (Z.land b (2 ^ n) =? 0) = Z.testbit b n.
Proof.
  intros Hn. destruct (Z.testbit b n) eqn:Hb.
  - apply negb_true_iff, Z.eqb_neq. intros H0.
    apply (f_equal (fun x => Z.testbit x n)) in H0.
    rewrite Z.land_spec, Hb, Z.pow2_bits_true, Z.bits_0 in H0 by lia. done.
  - apply negb_false_iff, Z.eqb_eq, Z.bits_inj'. intros m Hm.
    rewrite Z.land_spec, Z.bits_0, Z.pow2_bits_eqb by lia.
    destruct (Z.eqb_spec n m) as [-> |]; [rewrite Hb; done |].
    apply andb_false_r.
Qed.

Lemma index_lookup {A : Type} (l : list A) (i : nat) (x : A) :
  l !! i = Some x -> index l i = Ok x.
Proof. unfold index. intros ->. reflexivity. Qed.

(** C9 (amended): the bump state is read from payload byte 4: left is
    pressed exactly when its bit 0x80 is set, right exactly when its bit
    0x40 is set. *)
Theorem bumper_from_payload_byte_4 (p : Packet.t) (b : Z) :
  Packet.payload p !! 4%nat = Some b ->
  Bumper.from_packet p = Ok (Bumper.mk (Z.testbit b 7) (Z.testbit b 6)).
Proof.
  intros Hb. unfold Bumper.from_packet.
  rewrite (index_lookup _ _ _ Hb). cbn.
  change 128 with (2 ^ 7). change 64 with (2 ^ 6).
  rewrite !land_pow2_testbit by lia. reflexivity.
Qed.

Lemma bumper_from_payload_byte_4_witness :
  Bumper.from_packet
    (Packet.mk 12 0 0 [0; 0; 0; 0; 0xC0; 0; 0; 0; 0; 0; 0; 0; 0; 0; 0; 0] None)
  = Ok (Bumper.mk (Z.testbit 0xC0 7) (Z.testbit 0xC0 6)).
Proof. apply bumper_from_payload_byte_4. reflexivity. Defined.

(** C9 as stated fails: with bits 0x80 and 0x40 of payload byte 0 set and
    payload byte 4 zero, neither side is reported pressed. *)
Lemma bumper_ignores_payload_byte_0 :
  exists p,
    Packet.init 12 0 0 [0xC0] None = Ok p /\
    Packet.payload p !! 0%nat = Some 0xC0 /\
    Z.testbit 0xC0 7 = true /\ Z.testbit 0xC0 6 = true /\
    Bumper.from_packet p = Ok (Bumper.mk false false).
Proof. eexists. repeat split. Qed.

Section Nibbles.
Variables hi lo : Z -> Z.

Lemma pairs_length (l : list Z) :
  length (l ≫= fun c => [hi c; lo c]) = (2 * length l)%nat.
Proof. induction l as [| c l IH]; cbn in *; lia. Qed.

Lemma pairs_lookup (l : list Z) : forall (k : nat) (b : Z),
  l !! k = Some b ->
  (l ≫= fun c => [hi c; lo c]) !! (2 * k)%nat = Some (hi b) /\
  (l ≫= fun c => [hi c; lo c]) !! (2 * k + 1)%nat = Some (lo b).
Proof.
  induction l as [| c l IH]; intros k b Hk; [done |].
  destruct k as [| k].
  - cbn in Hk. injection Hk as ->. done.
  - cbn in Hk. destruct (IH k b Hk) as [H1 H2].
    replace (2 * S k)%nat with (S (S (2 * k))) by lia.
    replace (S (S (2 * k)) + 1)%nat with (S (S (2 * k + 1))) by lia.
    done.
Qed.

Lemma pairs_Forall (P : Z -> Prop) (l : list Z) :
  (forall c, P (hi c) /\ P (lo c)) -> Forall P (l ≫= fun c => [hi c; lo c]).
Proof.
  intros H. induction l as [| c l IH]; cbn; [constructor |].
  destruct (H c). repeat constructor; assumption.
Qed.
End Nibbles.

Lemma nibble_range (c i : Z) : 0 <= Z.land (Z.shiftr c i) 0xF <= 15.
Proof.
  pose proof (Z.land_ones (Z.shiftr c i) 4 ltac:(lia)) as E.
  change (Z.ones 4) with 15 in E. change (2 ^ 4) with 16 in E. rewrite E.
  pose proof (Z.mod_pos_bound (Z.shiftr c i) 16). lia.
Qed.

Lemma color_from_packet_unfold (p : Packet.t) :
  Color.colors (Color.from_packet p) =
    (Packet.payload p ≫=
       fun c => [Z.land (Z.shiftr c 4) 0xF; Z.land (Z.shiftr c 0) 0xF]).
Proof. reflexivity. Qed.

(** C10: for a 16-byte payload the color decode is a list of exactly 32
    integers in [0, 15]; entries 2k and 2k+1 are the high and the low nibble
    of payload byte k; the wildcard -1 never occurs. *)
Theorem color_from_packet_nibbles (p : Packet.t) :
  length (Packet.payload p) = 16%nat ->
  is_bytes (Packet.payload p) ->
  let cs := Color.colors (Color.from_packet p) in
  length cs = 32%nat /\
  Forall (fun c => 0 <= c <= 15) cs /\
  (forall (k : nat) (b : Z), Packet.payload p !! k = Some b ->
     cs !! (2 * k)%nat = Some (b / 16) /\
     cs !! (2 * k + 1)%nat = Some (b mod 16)) /\
  Color.ANY ∉ cs.
Proof.
  intros Hlen Hbytes cs. subst cs. rewrite color_from_packet_unfold.
  assert (HF : Forall (fun c => 0 <= c <= 15)
                 (Packet.payload p ≫= fun c =>
                    [Z.land (Z.shiftr c 4) 0xF; Z.land (Z.shiftr c 0) 0xF])).
  { apply pairs_Forall. intros c. split; apply nibble_range. }
  split; [rewrite pairs_length, Hlen; reflexivity |].
  split; [exact HF |]. split.
  - intros k b Hk.
    destruct (pairs_lookup (fun c => Z.land (Z.shiftr c 4) 0xF)
                (fun c => Z.land (Z.shiftr c 0) 0xF) _ k b Hk) as [H1 H2].
    rewrite H1, H2.
    assert (Hb : is_byte b).
    { unfold is_bytes in Hbytes. rewrite Forall_lookup in Hbytes. eauto. }
    unfold is_byte in Hb.
    change 15 with (Z.ones 4). rewrite !Z.land_ones by lia.
    rewrite Z.shiftr_0_r, Z.shiftr_div_pow2 by lia.
    change (2 ^ 4) with 16. split; [| reflexivity].
    f_equal. apply Z.mod_small. split; [apply Z.div_pos; lia |].
    apply Z.div_lt_upper_bound; lia.
  - intros Hin. rewrite Forall_forall in HF. apply HF in Hin.
    unfold Color.ANY in Hin. lia.
Qed.

Lemma color_from_packet_nibbles_witness :
  let p := Packet.mk 4 2 0
             [0x1F; 0xA0; 0; 0; 0; 0; 0; 0; 0; 0; 0; 0; 0; 0; 0; 0x7E] None in
  let cs := Color.colors (Color.from_packet p) in
  length cs = 32%nat /\
  Forall (fun c => 0 <= c <= 15) cs /\
  (forall (k : nat) (b : Z), Packet.payload p !! k = Some b ->
     cs !! (2 * k)%nat = Some (b / 16) /\
     cs !! (2 * k + 1)%nat = Some (b mod 16)) /\
  Color.ANY ∉ cs.
Proof.
  apply color_from_packet_nibbles.
  - reflexivity.
  - cbn. unfold is_bytes. repeat constructor; unfold is_byte; lia.
Defined.

(** ** The checksum *)

Ltac bitwise :=
  apply Z.bits_inj'; intros ?n ?Hn;
  repeat first
    [rewrite Z.lxor_spec | rewrite Z.land_spec | rewrite Z.bits_0];
  repeat match goal with |- context [Z.testbit ?x ?n] =>
    destruct (Z.testbit x n) end;
  reflexivity.

Section CrcLinear.

Lemma land_pow2_cases (b n : Z) :
  0 <= n -> Z.land b (2 ^ n) = if Z.testbit b n then 2 ^ n else 0.
Proof.
  intros Hn. pose proof (land_pow2_testbit b n Hn) as H.
  destruct (Z.testbit b n) eqn:Hb.
  - apply Z.bits_inj'. intros m Hm.
    rewrite Z.land_spec, Z.pow2_bits_eqb by lia.
    destruct (Z.eqb_spec n m) as [<- |]; [rewrite Hb; done |].
    apply andb_false_r.
  - apply negb_false_iff, Z.eqb_eq in H. exact H.
Qed.

(** The inner step, told by the two bits it looks at. *)
Lemma crc_bit_spec (c crc i : Z) :
  0 <= i <= 7 ->
  Packet.crc_bit c crc i =
    Z.lxor (Z.shiftl crc 1)
      (if xorb (Z.testbit crc 7) (Z.testbit c (7 - i)) then 7 else 0).
Proof.
  intros Hi. unfold Packet.crc_bit.
  replace (Z.shiftr 128 i) with (2 ^ (7 - i)).
  2:{ rewrite Z.shiftr_div_pow2 by lia. change 128 with (2 ^ 7).
      replace 7 with ((7 - i) + i) at 2 by lia.
      rewrite Z.pow_add_r, Z.div_mul by lia. reflexivity. }
  change 128 with (2 ^ 7).
  rewrite (land_pow2_cases crc 7), (land_pow2_cases c (7 - i)) by lia.
  assert (Hp : 2 ^ (7 - i) <> 0) by (apply Z.pow_nonzero; lia).
  destruct (Z.testbit crc 7), (Z.testbit c (7 - i)); cbn [xorb].
  - destruct (Z.eqb_spec (2 ^ (7 - i)) 0); [done |]. cbn.
    rewrite Z.lxor_0_r. reflexivity.
  - cbn. reflexivity.
  - destruct (Z.eqb_spec (2 ^ (7 - i)) 0); [done |]. cbn. reflexivity.
  - cbn. rewrite Z.lxor_0_r. reflexivity.
Qed.

Lemma crc_bit_lxor (c d x y i : Z) :
  0 <= i <= 7 ->
  Packet.crc_bit (Z.lxor c d) (Z.lxor x y) i =
    Z.lxor (Packet.crc_bit c x i) (Packet.crc_bit d y i).
Proof.
  intros Hi. rewrite !crc_bit_spec by lia.
  rewrite !Z.lxor_spec, Z.shiftl_lxor.
  destruct (Z.testbit x 7), (Z.testbit y 7),
           (Z.testbit c (7 - i)), (Z.testbit d (7 - i)); cbn [xorb];
    bitwise.
Qed.

Lemma crc_byte_lxor (x y c d : Z) :
  Packet.crc_byte (Z.lxor x y) (Z.lxor c d) =
    Z.lxor (Packet.crc_byte x c) (Packet.crc_byte y d).
Proof.
  unfold Packet.crc_byte.
  change (seqZ 0 8) with [0; 1; 2; 3; 4; 5; 6; 7]. cbn [fold_left].
  rewrite !crc_bit_lxor by lia. bitwise.
Qed.

Lemma crc_fold_lxor (a : list Z) : forall (b : list Z) (x y : Z),
  length a = length b ->
  fold_left Packet.crc_byte (zip_with Z.lxor a b) (Z.lxor x y) =
    Z.lxor (fold_left Packet.crc_byte a x) (fold_left Packet.crc_byte b y).
Proof.
  induction a as [| c a IH]; intros [| d b] x y Hlen; try done.
  cbn. rewrite <- IH by (cbn in Hlen; lia).
  rewrite crc_byte_lxor. reflexivity.
Qed.

Lemma crc_of_lxor (a b : list Z) :
  length a = length b ->
  Packet.crc_of (zip_with Z.lxor a b) =
    Z.lxor (Packet.crc_of a) (Packet.crc_of b).
Proof.
  intros H. unfold Packet.crc_of.
  rewrite <- crc_fold_lxor by exact H. reflexivity.
Qed.

End CrcLinear.

Section CrcFrames.

Lemma is_byte_land (b : Z) : is_byte b <-> Z.land b 0xFF = b.
Proof.
  pose proof (Z.land_ones b 8 ltac:(lia)) as E.
  change (Z.ones 8) with 255 in E. change (2 ^ 8) with 256 in E.
  unfold is_byte. rewrite E. split.
  - intros H. apply Z.mod_small. exact H.
  - intros <-. apply Z.mod_pos_bound. lia.
Qed.

Lemma is_byte_lxor (a b : Z) : is_byte a -> is_byte b -> is_byte (Z.lxor a b).
Proof.
  rewrite !is_byte_land. intros Ha Hb.
  rewrite <- Ha, <- Hb at 2. bitwise.
Qed.

Lemma is_byte_pow2 (i : Z) : 0 <= i < 8 -> is_byte (2 ^ i).
Proof.
  intros Hi. unfold is_byte. split; [apply Z.pow_nonneg; lia |].
  change 256 with (2 ^ 8). apply Z.pow_lt_mono_r; lia.
Qed.

Lemma pack_B_byte (b : Z) : is_byte b -> pack_B b = Ok [b].
Proof.
  unfold is_byte, pack_B. intros H.
  destruct (Z.leb_spec 0 b), (Z.leb_spec b 255); try lia. reflexivity.
Qed.

Lemma crc_fold_byte (bs : list Z) : forall x : Z,
  is_byte x -> is_byte (fold_left Packet.crc_byte bs x).
Proof.
  induction bs as [| b bs IH]; intros x Hx; [exact Hx |].
  cbn [fold_left]. apply IH. unfold Packet.crc_byte.
  apply is_byte_land. bitwise.
Qed.

Lemma crc_of_byte (bs : list Z) : is_byte (Packet.crc_of bs).
Proof. apply crc_fold_byte. unfold is_byte. lia. Qed.

(** What [check_crc] answers on a received 20-byte frame. *)
Lemma check_crc_frame (body : list Z) (c : Z) :
  length body = 19%nat -> is_bytes body ->
  (let? p := Packet.from_bytes (body ++ [c]) in Packet.check_crc p)
    = Ok (c =? Packet.crc_of body).
Proof.
  intros Hlen Hb.
  do 19 (destruct body as [| ? body]; [done |]).
  destruct body; [| done].
  unfold is_bytes in Hb.
  apply Forall_cons in Hb as [H0 Hb].
  apply Forall_cons in Hb as [H1 Hb].
  apply Forall_cons in Hb as [H2 _].
  cbn [app Packet.from_bytes length Nat.eqb Packet.PACKET_LEN rbind index
       lookup list_lookup slice drop take Nat.sub Packet.init Nat.leb
       Packet.PAYLOAD_LEN zero_bytes replicate].
  unfold Packet.check_crc, Packet.calc_crc, Packet.packet.
  cbn [Packet._crc Packet.dev Packet.cmd Packet.inc Packet.payload].
  rewrite !pack_B_byte by assumption. reflexivity.
Qed.

End CrcFrames.

Section BitFlips.

Lemma zip_lxor_zeros (l : list Z) :
  zip_with Z.lxor l (replicate (length l) 0) = l.
Proof.
  induction l as [| b l IH]; [done |].
  cbn. rewrite Z.lxor_0_r, IH. reflexivity.
Qed.

Lemma alter_lxor_one_hot (l : list Z) : forall (j : nat) (v : Z),
  (j < length l)%nat ->
  alter (fun b => Z.lxor b v) j l
    = zip_with Z.lxor l (one_hot (length l) j v).
Proof.
  unfold one_hot.
  induction l as [| b l IH]; intros j v Hj; [cbn in Hj; lia |].
  destruct j as [| j]; cbn.
  - rewrite zip_lxor_zeros. reflexivity.
  - rewrite Z.lxor_0_r. f_equal. apply IH. cbn in Hj. lia.
Qed.

Lemma single_bit_patterns_checked : single_bit_patterns_nonzero = true.
Proof. vm_compute. reflexivity. Qed.

Lemma one_hot_crc_nonzero (j i : nat) :
  (j < 19)%nat -> (i < 8)%nat ->
  Packet.crc_of (one_hot 19 j (2 ^ Z.of_nat i)) <> 0.
Proof.
  intros Hj Hi. pose proof single_bit_patterns_checked as H.
  unfold single_bit_patterns_nonzero in H.
  rewrite forallb_forall in H. specialize (H j).
  rewrite forallb_forall in H.
  specialize (H ltac:(apply in_seq; lia) i ltac:(apply in_seq; lia)).
  apply negb_true_iff, Z.eqb_neq in H. exact H.
Qed.

Lemma lxor_changes (a e : Z) : e <> 0 -> (a =? Z.lxor a e) = false.
Proof.
  intros He. apply Z.eqb_neq. intros H. apply He.
  apply (f_equal (Z.lxor a)) in H.
  rewrite Z.lxor_nilpotent, <- Z.lxor_assoc, Z.lxor_nilpotent,
    Z.lxor_0_l in H. congruence.
Qed.

End BitFlips.

(** C1: a 19-byte body followed by its checksum is received as a packet
    whose [check_crc] is true, and after flipping any one of the 160 bits of
    that frame [check_crc] is false. *)
Theorem crc_round_trip (body : list Z) :
  length body = 19%nat -> is_bytes body ->
  (let? p := Packet.from_bytes (body ++ [Packet.crc_of body]) in
   Packet.check_crc p) = Ok true /\
  forall k : nat, (k < 160)%nat ->
    (let? p := Packet.from_bytes
                 (flip_bit (body ++ [Packet.crc_of body]) k) in
     Packet.check_crc p) = Ok false.
Proof.
  intros Hlen Hb. split.
  - rewrite check_crc_frame by assumption. rewrite Z.eqb_refl. reflexivity.
  - intros k Hk. unfold flip_bit.
    assert (Hi : (k mod 8 < 8)%nat) by (apply Nat.mod_upper_bound; lia).
    assert (Hj : (k / 8 < 20)%nat)
      by (apply Nat.Div0.div_lt_upper_bound; lia).
    set (i := (k mod 8)%nat) in *. set (j := (k / 8)%nat) in *.
    destruct (decide (j < 19)%nat) as [Hlt | Hge].
    + rewrite alter_app_l by lia.
      rewrite check_crc_frame.
      * rewrite alter_lxor_one_hot, crc_of_lxor by
          (unfold one_hot; rewrite ?length_insert, ?length_replicate; lia).
        rewrite Hlen. rewrite lxor_changes; [reflexivity |].
        apply one_hot_crc_nonzero; assumption.
      * rewrite length_alter. exact Hlen.
      * apply Forall_alter; [exact Hb |]. intros b _ Hbyte.
        apply is_byte_lxor; [exact Hbyte |]. apply is_byte_pow2. lia.
    + rewrite alter_app_r_alt by lia.
      replace (j - length body)%nat with 0%nat by lia. cbn [alter list_alter].
      rewrite check_crc_frame by assumption.
      rewrite Z.eqb_sym, lxor_changes; [reflexivity |].
      apply Z.pow_nonzero; lia.
Qed.

Lemma crc_round_trip_witness :
  let body := [14; 1; 0; 0; 0; 0; 0; 15; 160; 80; 0; 0; 0; 0; 0; 0; 0; 0; 0] in
  (let? p := Packet.from_bytes (body ++ [Packet.crc_of body]) in
   Packet.check_crc p) = Ok true /\
  forall k : nat, (k < 160)%nat ->
    (let? p := Packet.from_bytes
                 (flip_bit (body ++ [Packet.crc_of body]) k) in
     Packet.check_crc p) = Ok false.
Proof.
  apply crc_round_trip.
  - reflexivity.
  - unfold is_bytes. repeat constructor; unfold is_byte; lia.
Defined.

(** ** Motor commands *)

(** C6: with motor commands disabled, each motor-gated command returns at
    once without raising and leaves the whole robot, its transport log
    included, as it was. *)
Theorem motor_gated_commands_skip (s : Robot.t) (x y : number) (pos : pyval) :
  Robot._enable_motors s = false ->
  Robot.set_speeds x y s = (Ok Robot.Returned, s) /\
  Robot.set_left_speed x s = (Ok Robot.Returned, s) /\
  Robot.set_right_speed x s = (Ok Robot.Returned, s) /\
  Robot.drive_distance x s = (Ok Robot.Returned, s) /\
  Robot.turn_right x s = (Ok Robot.Returned, s) /\
  Robot.turn_left x s = (Ok Robot.Returned, s) /\
  Robot.arc x y s = (Ok Robot.Returned, s) /\
  Robot.set_marker pos s = (Ok Robot.Returned, s).
Proof.
  intros H.
  unfold Robot.set_speeds, Robot.set_left_speed, Robot.set_right_speed,
    Robot.drive_distance, Robot.turn_left, Robot.turn_right, Robot.arc,
    Robot.set_marker, Robot.bind, Robot.get.
  rewrite H. repeat split.
Qed.

Lemma motor_gated_commands_skip_witness :
  let s := Robot.with_enable_motors false (Robot.run (Robot.init true)).2 in
  Robot.set_speeds (NInt 5) (NFloat 2.5) s = (Ok Robot.Returned, s) /\
  Robot.set_left_speed (NInt 5) s = (Ok Robot.Returned, s) /\
  Robot.set_right_speed (NInt 5) s = (Ok Robot.Returned, s) /\
  Robot.drive_distance (NInt 5) s = (Ok Robot.Returned, s) /\
  Robot.turn_right (NInt 5) s = (Ok Robot.Returned, s) /\
  Robot.turn_left (NInt 5) s = (Ok Robot.Returned, s) /\
  Robot.arc (NInt 5) (NFloat 2.5) s = (Ok Robot.Returned, s) /\
  Robot.set_marker (VInt 1) s = (Ok Robot.Returned, s).
Proof.
  apply (motor_gated_commands_skip
           (Robot.with_enable_motors false (Robot.run (Robot.init true)).2)).
  reflexivity.
Defined.

(** [bound] on integers is the usual clamp. *)
Lemma bound_int (v lo hi : Z) :
  Robot.bound (VInt v) (VInt lo) (VInt hi) = Ok (VInt (Z.min hi (Z.max lo v))).
Proof.
  unfold Robot.bound, py_max, py_min, py_gt, py_lt. cbn.
  destruct (Z.gtb_spec v lo); cbn.
  - rewrite Z.max_r by lia. destruct (Z.ltb_spec v hi);
      [rewrite Z.min_r by lia | rewrite Z.min_l by lia]; reflexivity.
  - rewrite Z.max_l by lia. destruct (Z.ltb_spec lo hi);
      [rewrite Z.min_r by lia | rewrite Z.min_l by lia]; reflexivity.
Qed.

(** Every speed is sent in tenths, clamped to [-100, 100]. *)
Lemma speed_clamped (x : number) (v : Z) :
  int_of (times10 x) = Ok v ->
  (let? t := Robot.tenths x in Robot.bound t (VInt (-100)) (VInt 100))
    = Ok (VInt (Z.min 100 (Z.max (-100) v))) /\
  -100 <= Z.min 100 (Z.max (-100) v) <= 100.
Proof.
  intros H. unfold Robot.tenths. rewrite H. cbn [rbind].
  rewrite bound_int. split; [reflexivity | lia].
Qed.

(** [bound] against [Enum] members raises whatever the value is. *)
Lemma bound_enum (v : pyval) (cls : string) (lo hi : Z) :
  exists msg, Robot.bound v (VEnum cls lo) (VEnum cls hi) = Raise (TypeError msg).
Proof.
  unfold Robot.bound, py_max, py_gt. destruct v; cbn; eexists; reflexivity.
Qed.

Lemma to_bytes_ok (d c i : Z) (pl : list Z) (k : option Z) :
  is_byte d -> is_byte c -> is_byte i ->
  Packet.to_bytes (Packet.mk d c i pl k)
    = Ok ((d :: c :: i :: pl) ++ [Packet.crc_of (d :: c :: i :: pl)]).
Proof.
  intros Hd Hc Hi. unfold Packet.to_bytes, Packet.calc_crc, Packet.packet.
  cbn [Packet.dev Packet.cmd Packet.inc Packet.payload].
  rewrite !pack_B_byte by assumption. reflexivity.
Qed.

Lemma write_packet_sends (s : Robot.t) (p : Packet.t) (data : list Z) :
  Robot._running s = true -> Robot.connected s = true ->
  Packet.to_bytes p = Ok data ->
  Robot.write_packet p s
    = (Ok tt, Robot.with_written (Robot.written s ++ [data]) s).
Proof.
  intros Hr Hc Hd.
  unfold Robot.write_packet, Robot.bind, Robot.get, Robot.lift,
    Robot.bluetooth_write.
  rewrite Hr, Hd, Hc. reflexivity.
Qed.

(** C7: on a running, connected robot with motors enabled,
    [set_speeds(150, -150)] writes one frame whose two signed 32-bit fields
    are 100 and -100; [set_marker(99)] raises [TypeError] inside [bound],
    after taking a sequence number and before anything is registered or
    written. *)
Theorem set_speeds_clamps_set_marker_raises (s : Robot.t) :
  Robot._enable_motors s = true ->
  Robot._running s = true ->
  Robot.connected s = true ->
  0 <= Robot._inc s <= 255 ->
  (exists data s',
     Robot.set_speeds (NInt 150) (NInt (-150)) s = (Ok Robot.Returned, s') /\
     Robot.written s' = Robot.written s ++ [data] /\
     slice data 0 3 = [1; 4; Robot._inc s] /\
     unpack_i (slice data 3 7) = Ok 100 /\
     unpack_i (slice data 7 11) = Ok (-100)) /\
  (exists msg s',
     Robot.set_marker (VInt 99) s = (Raise (TypeError msg), s') /\
     Robot.written s' = Robot.written s /\
     Robot._responses s' = Robot._responses s /\
     Robot.futures s' = Robot.futures s).
Proof.
  intros Hm Hr Hc Hi. split.
  - unfold Robot.set_speeds, Robot.bind, Robot.get, Robot.lift.
    rewrite Hm. cbn [Robot.tenths times10 int_of rbind].
    rewrite !bound_int, inc_spec.
    set (s1 := Robot.with_inc _ s).
    replace (pack_ii _ _) with (Ok [0; 0; 0; 100; 255; 255; 255; 156])
      by reflexivity.
    replace (Packet.init 1 4 (Robot._inc s) _ None)
      with (Ok (Packet.mk 1 4 (Robot._inc s)
                  [0; 0; 0; 100; 255; 255; 255; 156; 0; 0; 0; 0; 0; 0; 0; 0]
                  None)) by reflexivity.
    erewrite write_packet_sends;
      [| exact Hr | exact Hc | apply to_bytes_ok; unfold is_byte; lia].
    eexists _, _. split; [reflexivity |]. repeat split.
  - unfold Robot.set_marker, Robot.bind, Robot.get, Robot.lift.
    rewrite Hm, inc_spec.
    destruct (bound_enum (VInt 99) Marker.cls Marker.UP Marker.ERASE)
      as [msg ->].
    eexists _, _. split; [reflexivity |]. repeat split.
Qed.

Lemma set_speeds_clamps_set_marker_raises_witness :
  let s := (Robot.run (Robot.init true)).2 in
  (exists data s',
     Robot.set_speeds (NInt 150) (NInt (-150)) s = (Ok Robot.Returned, s') /\
     Robot.written s' = Robot.written s ++ [data] /\
     slice data 0 3 = [1; 4; Robot._inc s] /\
     unpack_i (slice data 3 7) = Ok 100 /\
     unpack_i (slice data 7 11) = Ok (-100)) /\
  (exists msg s',
     Robot.set_marker (VInt 99) s = (Raise (TypeError msg), s') /\
     Robot.written s' = Robot.written s /\
     Robot._responses s' = Robot._responses s /\
     Robot.futures s' = Robot.futures s).
Proof.
  apply (set_speeds_clamps_set_marker_raises (Robot.run (Robot.init true)).2);
    [reflexivity | reflexivity | reflexivity | cbn; lia].
Defined.

(** ** Starting the engine *)

Lemma run_spec (s : Robot.t) :
  Robot.run s =
    (Ok tt,
     Robot.mk ∅
       (<[(20, 0) := [(Robot.cliff_filter, Robot.cb_enable_motors)]]>
          (<[(1, 29) := [(Robot.stall_filter, Robot.cb_enable_motors)]]>
             (<[(0, 4) := [(Robot.stop_filter, Robot.cb_stop)]]> ∅)))
       ∅ 0 true (Robot._enable_motors s)
       (Robot.futures s) (Robot.tasks s) (Robot.connected s)
       (Robot.written s)).
Proof. reflexivity. Qed.

(** C4 (amended): after [run] the sequence counter is 0, the reply table
    and the task table are empty, the event table holds exactly the three
    built-in subscriptions, the engine is running, and the motor flag has
    the value it had before the call. *)
Theorem run_resets_engine_keeps_motor_flag (s : Robot.t) :
  exists s', Robot.run s = (Ok tt, s') /\
    Robot._inc s' = 0 /\
    Robot._responses s' = ∅ /\
    Robot._tasks s' = ∅ /\
    (forall key, Robot._events s' !! key =
       if decide (key = (0, 4)) then Some [(Robot.stop_filter, Robot.cb_stop)]
       else if decide (key = (1, 29))
            then Some [(Robot.stall_filter, Robot.cb_enable_motors)]
       else if decide (key = (20, 0))
            then Some [(Robot.cliff_filter, Robot.cb_enable_motors)]
       else None) /\
    Robot._running s' = true /\
    Robot._enable_motors s' = Robot._enable_motors s.
Proof.
  eexists. split; [apply run_spec |]. cbn. repeat split.
  intros key. repeat case_decide; subst; simplify_map_eq; reflexivity.
Qed.

(** C4 as stated fails: a robot whose motor commands were disabled through
    [enable_motors(False)] still has them disabled after [run]. *)
Lemma run_leaves_motors_disabled :
  let s := (Robot.enable_motors false (Robot.init true)).2 in
  Robot._enable_motors s = false /\
  Robot._enable_motors (Robot.run s).2 = false.
Proof. split; reflexivity. Qed.

(** ** Inbound frames *)

Section Keeps.
Variable R : Robot.t -> Robot.t -> Prop.
Hypothesis R_refl : forall s, R s s.
Hypothesis R_trans : forall a b c, R a b -> R b c -> R a c.

Lemma keeps_ret {A : Type} (a : A) : keeps R (Robot.ret a).
Proof. intros s. apply R_refl. Qed.

Lemma keeps_lift {A : Type} (r : result A) : keeps R (Robot.lift r).
Proof. intros s. apply R_refl. Qed.

Lemma keeps_get {A : Type} (f : Robot.t -> A) : keeps R (Robot.get f).
Proof. intros s. apply R_refl. Qed.

Lemma keeps_bind {A B : Type} (m : Robot.M A) (k : A -> Robot.M B) :
  keeps R m -> (forall a, keeps R (k a)) -> keeps R (Robot.bind m k).
Proof.
  intros Hm Hk s. unfold Robot.bind. specialize (Hm s).
  destruct (m s) as [[a | e] s1]; cbn in *; [| exact Hm].
  eapply R_trans; [exact Hm | apply Hk].
Qed.

Lemma keeps_for_each {A : Type} (l : list A) (body : A -> Robot.M unit) :
  (forall x, keeps R (body x)) -> keeps R (Robot.for_each l body).
Proof.
  intros Hb. induction l as [| x l IH]; cbn [Robot.for_each].
  - apply keeps_ret.
  - apply keeps_bind; [apply Hb | intros _; exact IH].
Qed.
End Keeps.

Lemma same_slots_refl (s : Robot.t) : same_slots s s.
Proof. split; reflexivity. Qed.

Lemma same_slots_trans (a b c : Robot.t) :
  same_slots a b -> same_slots b c -> same_slots a c.
Proof. intros [H1 H2] [H3 H4]. split; congruence. Qed.

Ltac keeps_slots_leaf :=
  first
    [ apply (keeps_ret _ same_slots_refl)
    | apply (keeps_lift _ same_slots_refl)
    | apply (keeps_get _ same_slots_refl)
    | (intros ?s; split; reflexivity) ].

Ltac keeps_slots_bind :=
  apply (keeps_bind _ same_slots_trans);
  [try keeps_slots_leaf | intros ?].

Lemma deliver_keeps_slots (key : Z * Z) (p : Packet.t)
    (sub : Robot.filter * Robot.callback) :
  keeps same_slots (Robot.deliver key p sub).
Proof.
  destruct sub as [f cb]. unfold Robot.deliver.
  keeps_slots_bind.
  destruct (Robot.truthy _); [| keeps_slots_leaf].
  keeps_slots_bind. keeps_slots_bind.
  { destruct (_ !! _); keeps_slots_leaf. }
  keeps_slots_bind.
  { destruct cb; cbn [Robot.call]; keeps_slots_leaf. }
  keeps_slots_bind; [| keeps_slots_leaf].
  intros s. unfold Robot.create_task.
  match goal with |- context [match ?c with Some _ => _ | None => _ end] =>
    destruct c end; split; reflexivity.
Qed.

Lemma dispatch_events_spec (p : Packet.t) (s : Robot.t) :
  Robot.dispatch_events p s =
    match Robot._events s !! (Packet.dev p, Packet.cmd p) with
    | Some subs =>
        Robot.for_each subs
          (Robot.deliver (Packet.dev p, Packet.cmd p) p) s
    | None => (Ok tt, s)
    end.
Proof.
  unfold Robot.dispatch_events, Robot.bind, Robot.get. cbn.
  destruct (_ !! _); reflexivity.
Qed.

Lemma dispatch_events_keeps_slots (p : Packet.t) :
  keeps same_slots (Robot.dispatch_events p).
Proof.
  intros s. rewrite dispatch_events_spec.
  destruct (_ !! _) as [subs |]; [| apply same_slots_refl].
  apply (keeps_for_each _ same_slots_refl same_slots_trans).
  intros sub. apply deliver_keeps_slots.
Qed.

Lemma resolve_response_spec (p : Packet.t) (s : Robot.t) :
  let key := (Packet.dev p, Packet.cmd p, Packet.inc p) in
  Robot.resolve_response p s =
    (Ok tt,
     match Robot._responses s !! key with
     | Some fut =>
         let s1 := Robot.with_responses (delete key (Robot._responses s)) s in
         match Robot.futures s !! fut with
         | Some Robot.Pending =>
             Robot.with_futures (<[fut := Robot.Finished p]> (Robot.futures s)) s1
         | _ => s1
         end
     | None => s
     end).
Proof.
  cbn. unfold Robot.resolve_response, Robot.bind, Robot.get, Robot.modify.
  cbn. destruct (Robot._responses s !! _) as [fut |]; [| reflexivity].
  cbn. destruct (Robot.futures s !! fut) as [[| |] |]; reflexivity.
Qed.

Lemma resolve_response_keeps_events (p : Packet.t) (s : Robot.t) :
  same_events s (Robot.resolve_response p s).2.
Proof.
  rewrite resolve_response_spec. cbn.
  destruct (Robot._responses s !! _) as [fut |]; [| done].
  destruct (Robot.futures s !! fut) as [[| |] |]; done.
Qed.

(** [_data_received] on a running engine and a frame that passes the
    checksum: the reply slot first, then the subscribers. *)
Lemma data_received_valid (s : Robot.t) (data : list Z) (p : Packet.t) :
  Robot._running s = true ->
  Packet.from_bytes data = Ok p ->
  Packet.check_crc p = Ok true ->
  Robot._data_received data s =
    Robot.dispatch_events p (Robot.resolve_response p s).2.
Proof.
  intros Hr Hp Hc.
  unfold Robot._data_received, Robot.bind, Robot.get, Robot.lift.
  rewrite Hr, Hp, Hc. cbn [negb]. rewrite resolve_response_spec. reflexivity.
Qed.

(** What the cliff subscription does with a notification whose payload byte
    4 is 0: the filter yields [True], [enable_motors(True)] runs, and
    [create_task] rejects the [None] it returned. *)
Lemma cliff_byte_zero_outcome (s : Robot.t) (data : list Z) (p : Packet.t) :
  Robot._running s = true ->
  Robot._events s !! (20, 0)
    = Some [(Robot.cliff_filter, Robot.cb_enable_motors)] ->
  Packet.from_bytes data = Ok p ->
  Packet.check_crc p = Ok true ->
  Packet.dev p = 20 -> Packet.cmd p = 0 ->
  Packet.payload p !! 4%nat = Some 0 ->
  exists msg s',
    Robot._data_received data s = (Raise (TypeError msg), s') /\
    Robot._enable_motors s' = true.
Proof.
  intros Hr He Hp Hc Hd Hm Hb.
  rewrite (data_received_valid _ _ _ Hr Hp Hc).
  destruct (resolve_response_keeps_events p s) as (E1 & _).
  set (s1 := (Robot.resolve_response p s).2) in *.
  rewrite dispatch_events_spec, Hd, Hm, E1, He. cbn [Robot.for_each].
  unfold Robot.deliver, Robot.bind, Robot.lift, Robot.get, Robot.cliff_filter.
  rewrite (index_lookup _ _ _ Hb). cbn.
  destruct (Robot._tasks s1 !! (20, 0)); cbn;
    eexists _, _; (split; [reflexivity | reflexivity]).
Qed.

(** C5 (amended): while the cliff subscription installed by [run] is in
    place, every inbound cliff notification (device 20, command 0) whose
    payload byte 4 equals 0 calls [enable_motors(True)]: motor commands are
    enabled afterwards, whatever the flag was before. *)
Theorem cliff_byte_zero_enables_motors
    (s : Robot.t) (data : list Z) (p : Packet.t) :
  Robot._running s = true ->
  Robot._events s !! (20, 0)
    = Some [(Robot.cliff_filter, Robot.cb_enable_motors)] ->
  Packet.from_bytes data = Ok p ->
  Packet.check_crc p = Ok true ->
  Packet.dev p = 20 -> Packet.cmd p = 0 ->
  Packet.payload p !! 4%nat = Some 0 ->
  Robot._enable_motors (Robot._data_received data s).2 = true.
Proof.
  intros Hr He Hp Hc Hd Hm Hb.
  destruct (cliff_byte_zero_outcome s data p Hr He Hp Hc Hd Hm Hb)
    as (msg & s' & -> & Hflag).
  exact Hflag.
Qed.

Lemma cliff_byte_zero_enables_motors_witness :
  let s := (Robot.enable_motors false (Robot.run (Robot.init true)).2).2 in
  Robot._enable_motors s = false /\
  Robot._enable_motors (Robot._data_received (inbound 20 0 0 []) s).2 = true.
Proof.
  split; [reflexivity |].
  apply (cliff_byte_zero_enables_motors
           (Robot.enable_motors false (Robot.run (Robot.init true)).2).2
           (inbound 20 0 0 [])
           (Packet.mk 20 0 0 (zero_bytes 16) (Some 18)));
    reflexivity.
Defined.

(** C5 as stated fails: on a freshly started robot neither a stall
    notification nor a cliff notification with payload byte 4 equal to 0
    disables motor commands. *)
Lemma stall_and_cliff_leave_motors_enabled :
  let s := (Robot.run (Robot.init true)).2 in
  Robot._enable_motors s = true /\
  Robot._enable_motors (Robot._data_received (inbound 1 29 0 []) s).2 = true /\
  Robot._enable_motors (Robot._data_received (inbound 20 0 0 []) s).2 = true.
Proof. repeat split. Qed.

(** * Further properties of the packet *)

Section Framing.

Lemma from_bytes_20 (raw : list Z) :
  length raw = 20%nat ->
  exists d c i k pl,
    raw = d :: c :: i :: pl ++ [k] /\ length pl = 16%nat /\
    Packet.from_bytes raw = Ok (Packet.mk d c i pl (Some k)).
Proof.
  intros Hlen.
  do 20 (destruct raw as [| ? raw]; [done |]).
  destruct raw; [| done].
  eexists _, _, _, _, [_; _; _; _; _; _; _; _; _; _; _; _; _; _; _; _].
  repeat split.
Qed.

(** X1: [from_bytes] succeeds exactly on 20 bytes.  It then returns the
    first three bytes as device, command and sequence number, bytes 3 to
    18 as a 16-byte payload and byte 19 as the stored checksum; any other
    length fails the assertion. *)
Theorem from_bytes_frames_20_bytes (raw : list Z) :
  (length raw = 20%nat ->
     exists p, Packet.from_bytes raw = Ok p /\
       raw !! 0%nat = Some (Packet.dev p) /\
       raw !! 1%nat = Some (Packet.cmd p) /\
       raw !! 2%nat = Some (Packet.inc p) /\
       Packet.payload p = slice raw 3 19 /\
       length (Packet.payload p) = 16%nat /\
       raw !! 19%nat = Packet._crc p) /\
  (length raw <> 20%nat ->
     exists msg, Packet.from_bytes raw = Raise (AssertionError msg)).
Proof.
  split.
  - intros Hlen.
    destruct (from_bytes_20 raw Hlen) as (d & c & i & k & pl & -> & Hpl & ->).
    eexists. split; [reflexivity |]. cbn.
    do 16 (destruct pl as [| ? pl]; [done |]). destruct pl; [| done].
    repeat split.
  - intros Hlen. unfold Packet.from_bytes.
    destruct (Nat.eqb_spec (length raw) Packet.PACKET_LEN) as [E |];
      [done | eexists; reflexivity].
Qed.

End Framing.

Lemma from_bytes_frames_20_bytes_witness :
  (exists p, Packet.from_bytes (replicate 19 7 ++ [9]) = Ok p /\
     (replicate 19 7 ++ [9]) !! 0%nat = Some (Packet.dev p) /\
     (replicate 19 7 ++ [9]) !! 1%nat = Some (Packet.cmd p) /\
     (replicate 19 7 ++ [9]) !! 2%nat = Some (Packet.inc p) /\
     Packet.payload p = slice (replicate 19 7 ++ [9]) 3 19 /\
     length (Packet.payload p) = 16%nat /\
     (replicate 19 7 ++ [9]) !! 19%nat = Packet._crc p) /\
  (exists msg, Packet.from_bytes [1; 2; 3] = Raise (AssertionError msg)).
Proof.
  split.
  - apply (proj1 (from_bytes_frames_20_bytes (replicate 19 7 ++ [9]))).
    reflexivity.
  - apply (proj2 (from_bytes_frames_20_bytes [1; 2; 3])). cbn. lia.
Defined.

Section WireRoundTrip.

Lemma to_bytes_shape (p : Packet.t) (data : list Z) :
  Packet.to_bytes p = Ok data ->
  is_byte (Packet.dev p) /\ is_byte (Packet.cmd p) /\ is_byte (Packet.inc p) /\
  data = (Packet.dev p :: Packet.cmd p :: Packet.inc p :: Packet.payload p)
           ++ [Packet.crc_of (Packet.dev p :: Packet.cmd p :: Packet.inc p
                                :: Packet.payload p)].
Proof.
  unfold Packet.to_bytes, Packet.calc_crc, Packet.packet, pack_B, is_byte.
  destruct (Z.leb_spec 0 (Packet.dev p)), (Z.leb_spec (Packet.dev p) 255);
    cbn; try discriminate.
  destruct (Z.leb_spec 0 (Packet.cmd p)), (Z.leb_spec (Packet.cmd p) 255);
    cbn; try discriminate.
  destruct (Z.leb_spec 0 (Packet.inc p)), (Z.leb_spec (Packet.inc p) 255);
    cbn; try discriminate.
  intros [= <-]. repeat split; lia.
Qed.

Lemma crc_byte_self_checked :
  forallb (fun x => Packet.crc_byte x x =? 0) (seqZ 0 256) = true.
Proof. vm_compute. reflexivity. Qed.

Lemma crc_byte_self (x : Z) : is_byte x -> Packet.crc_byte x x = 0.
Proof.
  intros Hx. pose proof crc_byte_self_checked as H.
  rewrite forallb_forall in H. apply Z.eqb_eq, H.
  apply list_elem_of_In, elem_of_seqZ. unfold is_byte in Hx. lia.
Qed.

Lemma crc_of_snoc (bs : list Z) (c : Z) :
  Packet.crc_of (bs ++ [c]) = Packet.crc_byte (Packet.crc_of bs) c.
Proof. unfold Packet.crc_of. rewrite fold_left_app. reflexivity. Qed.

End WireRoundTrip.

(** X2: a packet built by the constructor from byte values goes to the
    wire as 20 bytes and comes back from [from_bytes] with the same device,
    command, sequence number and payload, a stored checksum that passes
    [check_crc], and the same [crc] property. *)
Theorem to_bytes_from_bytes_round_trip
    (dev cmd inc : Z) (payload : list Z) (p : Packet.t) :
  is_byte dev -> is_byte cmd -> is_byte inc -> is_bytes payload ->
  Packet.init dev cmd inc payload None = Ok p ->
  exists data q,
    Packet.to_bytes p = Ok data /\
    length data = 20%nat /\ is_bytes data /\
    Packet.from_bytes data = Ok q /\
    Packet.dev q = dev /\ Packet.cmd q = cmd /\ Packet.inc q = inc /\
    Packet.payload q = Packet.payload p /\
    Packet.check_crc q = Ok true /\
    Packet.crc q = Packet.crc p.
Proof.
  intros Hd Hc Hi Hpl Hinit. unfold Packet.init in Hinit.
  destruct (Nat.leb_spec (length payload) Packet.PAYLOAD_LEN) as [Hlen |];
    [| discriminate].
  injection Hinit as <-.
  set (pl := payload ++ zero_bytes (Packet.PAYLOAD_LEN - length payload)).
  assert (Hpl16 : length pl = 16%nat).
  { subst pl. unfold zero_bytes, Packet.PAYLOAD_LEN in *.
    rewrite length_app, length_replicate. lia. }
  assert (Hplb : is_bytes pl).
  { subst pl. apply Forall_app. split; [exact Hpl |].
    apply Forall_replicate. unfold is_byte. lia. }
  set (body := dev :: cmd :: inc :: pl).
  assert (Hbody : is_bytes body).
  { subst body. unfold is_bytes.
    repeat (apply Forall_cons; split; [assumption |]). exact Hplb. }
  assert (Hblen : length body = 19%nat) by (cbn; lia).
  exists (body ++ [Packet.crc_of body]).
  exists (Packet.mk dev cmd inc pl (Some (Packet.crc_of body))).
  assert (Hfrom : Packet.from_bytes (body ++ [Packet.crc_of body])
                  = Ok (Packet.mk dev cmd inc pl (Some (Packet.crc_of body)))).
  { subst body.
    do 16 (destruct pl as [| ? pl]; [done |]). destruct pl; [| done].
    reflexivity. }
  split; [apply to_bytes_ok; assumption |].
  split; [rewrite length_app, Hblen; reflexivity |].
  split; [apply Forall_app; split;
          [exact Hbody | repeat constructor; apply crc_of_byte] |].
  split; [exact Hfrom |].
  pose proof (check_crc_frame body (Packet.crc_of body) Hblen Hbody) as Hchk.
  rewrite Hfrom, Z.eqb_refl in Hchk. cbn [rbind] in Hchk.
  repeat split; try exact Hchk.
  unfold Packet.crc, Packet.calc_crc, Packet.packet. cbn.
  rewrite !pack_B_byte by assumption. reflexivity.
Qed.

Lemma to_bytes_from_bytes_round_trip_witness :
  exists data q,
    Packet.to_bytes (Packet.mk 14 1 3 ([1; 2; 3] ++ zero_bytes 13) None)
      = Ok data /\
    length data = 20%nat /\ is_bytes data /\
    Packet.from_bytes data = Ok q /\
    Packet.dev q = 14 /\ Packet.cmd q = 1 /\ Packet.inc q = 3 /\
    Packet.payload q = [1; 2; 3] ++ zero_bytes 13 /\
    Packet.check_crc q = Ok true /\
    Packet.crc q
      = Packet.crc (Packet.mk 14 1 3 ([1; 2; 3] ++ zero_bytes 13) None).
Proof.
  apply (to_bytes_from_bytes_round_trip 14 1 3 [1; 2; 3]);
    try (unfold is_byte; lia).
  - repeat constructor; unfold is_byte; lia.
  - reflexivity.
Defined.

(** X3: the checksum of a whole wire frame, checksum byte included, is 0:
    whatever [to_bytes] returns has [crc_of] equal to 0. *)
Theorem wire_frame_checksum_is_zero (p : Packet.t) (data : list Z) :
  Packet.to_bytes p = Ok data -> Packet.crc_of data = 0.
Proof.
  intros H. destruct (to_bytes_shape p data H) as (_ & _ & _ & ->).
  rewrite crc_of_snoc. apply crc_byte_self, crc_of_byte.
Qed.

Lemma wire_frame_checksum_is_zero_witness :
  Packet.crc_of
    [1; 4; 0; 0; 0; 0; 100; 255; 255; 255; 156; 0; 0; 0; 0; 0; 0; 0; 0; 31]
  = 0.
Proof.
  apply (wire_frame_checksum_is_zero
           (Packet.mk 1 4 0
              [0; 0; 0; 100; 255; 255; 255; 156; 0; 0; 0; 0; 0; 0; 0; 0]
              None)).
  reflexivity.
Defined.

(** X4: the constructor accepts any device, command and sequence number,
    but [to_bytes] returns exactly when all three are in [0, 255]; otherwise
    it raises the error of [struct.pack]. *)
Theorem to_bytes_needs_byte_header (p : Packet.t) :
  (is_byte (Packet.dev p) /\ is_byte (Packet.cmd p) /\ is_byte (Packet.inc p)
     -> exists data, Packet.to_bytes p = Ok data /\ length data
          = (length (Packet.payload p) + 4)%nat) /\
  (~ (is_byte (Packet.dev p) /\ is_byte (Packet.cmd p)
      /\ is_byte (Packet.inc p))
     -> exists msg, Packet.to_bytes p = Raise (StructError msg)).
Proof.
  split.
  - intros (Hd & Hc & Hi). destruct p as [d c i pl k]. cbn in *.
    eexists. split; [apply to_bytes_ok; assumption |].
    rewrite length_app. cbn. lia.
  - intros Hn. unfold Packet.to_bytes, Packet.calc_crc, Packet.packet, pack_B.
    unfold is_byte in Hn.
    destruct (Z.leb_spec 0 (Packet.dev p)), (Z.leb_spec (Packet.dev p) 255);
      cbn; try (eexists; reflexivity).
    destruct (Z.leb_spec 0 (Packet.cmd p)), (Z.leb_spec (Packet.cmd p) 255);
      cbn; try (eexists; reflexivity).
    destruct (Z.leb_spec 0 (Packet.inc p)), (Z.leb_spec (Packet.inc p) 255);
      cbn; try (eexists; reflexivity).
    exfalso. apply Hn. lia.
Qed.

Lemma to_bytes_needs_byte_header_witness :
  (exists data,
     Packet.to_bytes (Packet.mk 0 3 255 (zero_bytes 16) None) = Ok data /\
     length data = 20%nat) /\
  (exists msg,
     Packet.to_bytes (Packet.mk 0 3 256 (zero_bytes 16) None)
       = Raise (StructError msg)).
Proof.
  split.
  - apply (proj1 (to_bytes_needs_byte_header
                    (Packet.mk 0 3 255 (zero_bytes 16) None))).
    cbn. unfold is_byte. lia.
  - apply (proj2 (to_bytes_needs_byte_header
                    (Packet.mk 0 3 256 (zero_bytes 16) None))).
    cbn. unfold is_byte. lia.
Defined.

(** * Further properties of the decoded values *)

(** X5: the touch state is read from payload byte 4: its bits 0x80, 0x40,
    0x20 and 0x10 are front left, front right, back right and back left. *)
Theorem touch_from_payload_byte_4 (p : Packet.t) (b : Z) :
  Packet.payload p !! 4%nat = Some b ->
  Touch.from_packet p
    = Ok (Touch.mk (Z.testbit b 7) (Z.testbit b 6)
                   (Z.testbit b 5) (Z.testbit b 4)).
Proof.
  intros Hb. unfold Touch.from_packet.
  rewrite (index_lookup _ _ _ Hb). cbn.
  change 128 with (2 ^ 7). change 64 with (2 ^ 6).
  change 32 with (2 ^ 5). change 16 with (2 ^ 4).
  rewrite !land_pow2_testbit by lia. reflexivity.
Qed.

Lemma touch_from_payload_byte_4_witness :
  Touch.from_packet
    (Packet.mk 17 0 0 [0; 0; 0; 0; 0x90; 0; 0; 0; 0; 0; 0; 0; 0; 0; 0; 0] None)
  = Ok (Touch.mk (Z.testbit 0x90 7) (Z.testbit 0x90 6)
                 (Z.testbit 0x90 5) (Z.testbit 0x90 4)).
Proof. apply touch_from_payload_byte_4. reflexivity. Defined.

Lemma lookup_16 {A : Type} (l : list A) (i : nat) :
  length l = 16%nat -> (i < 16)%nat -> exists x, l !! i = Some x.
Proof.
  intros Hl Hi. destruct (lookup_lt_is_Some_2 l i) as [x Hx]; [lia |].
  exists x. exact Hx.
Qed.

(** X6: on a 16-byte payload the light decode succeeds: the state is
    payload byte 4, the left reading is bytes 5 and 6 and the right reading
    bytes 7 and 8, each most significant byte first, so both readings lie
    in [0, 65535]. *)
Theorem light_from_payload (p : Packet.t) :
  length (Packet.payload p) = 16%nat ->
  is_bytes (Packet.payload p) ->
  exists s l1 l0 r1 r0,
    Packet.payload p !! 4%nat = Some s /\
    Packet.payload p !! 5%nat = Some l1 /\
    Packet.payload p !! 6%nat = Some l0 /\
    Packet.payload p !! 7%nat = Some r1 /\
    Packet.payload p !! 8%nat = Some r0 /\
    Light.from_packet p = Ok (Light.mk s (l1 * 256 + l0) (r1 * 256 + r0)) /\
    0 <= l1 * 256 + l0 <= 65535 /\ 0 <= r1 * 256 + r0 <= 65535.
Proof.
  intros Hlen Hb. unfold Light.from_packet.
  destruct (Packet.payload p) as [| b0 pl]; [done |].
  do 15 (destruct pl as [| ? pl]; [done |]). destruct pl; [| done].
  unfold is_bytes in Hb. rewrite Forall_lookup in Hb.
  pose proof (Hb 5%nat _ eq_refl) as H5. pose proof (Hb 6%nat _ eq_refl) as H6.
  pose proof (Hb 7%nat _ eq_refl) as H7. pose proof (Hb 8%nat _ eq_refl) as H8.
  unfold is_byte in *.
  eexists _, _, _, _, _. repeat split; lia.
Qed.

Lemma light_from_payload_witness :
  exists s l1 l0 r1 r0,
    [0; 0; 0; 0; 6; 3; 232; 1; 244; 0; 0; 0; 0; 0; 0; 0] !! 4%nat = Some s /\
    [0; 0; 0; 0; 6; 3; 232; 1; 244; 0; 0; 0; 0; 0; 0; 0] !! 5%nat = Some l1 /\
    [0; 0; 0; 0; 6; 3; 232; 1; 244; 0; 0; 0; 0; 0; 0; 0] !! 6%nat = Some l0 /\
    [0; 0; 0; 0; 6; 3; 232; 1; 244; 0; 0; 0; 0; 0; 0; 0] !! 7%nat = Some r1 /\
    [0; 0; 0; 0; 6; 3; 232; 1; 244; 0; 0; 0; 0; 0; 0; 0] !! 8%nat = Some r0 /\
    Light.from_packet
      (Packet.mk 13 0 0 [0; 0; 0; 0; 6; 3; 232; 1; 244; 0; 0; 0; 0; 0; 0; 0]
         None)
      = Ok (Light.mk s (l1 * 256 + l0) (r1 * 256 + r0)) /\
    0 <= l1 * 256 + l0 <= 65535 /\ 0 <= r1 * 256 + r0 <= 65535.
Proof.
  apply (light_from_payload
           (Packet.mk 13 0 0
              [0; 0; 0; 0; 6; 3; 232; 1; 244; 0; 0; 0; 0; 0; 0; 0] None)).
  - reflexivity.
  - cbn. unfold is_bytes. repeat constructor; unfold is_byte; lia.
Defined.

Lemma init_payload_16 (d c i : Z) (pl : list Z) (k : option Z) (p : Packet.t) :
  Packet.init d c i pl k = Ok p -> length (Packet.payload p) = 16%nat.
Proof.
  unfold Packet.init.
  destruct (Nat.leb_spec (length pl) Packet.PAYLOAD_LEN); [| discriminate].
  intros [= <-]. cbn. unfold zero_bytes, Packet.PAYLOAD_LEN in *.
  rewrite length_app, length_replicate. lia.
Qed.

Lemma from_bytes_payload_16 (raw : list Z) (p : Packet.t) :
  Packet.from_bytes raw = Ok p -> length (Packet.payload p) = 16%nat.
Proof.
  unfold Packet.from_bytes.
  destruct (Nat.eqb_spec (length raw) Packet.PACKET_LEN) as [E |];
    [| discriminate].
  destruct (from_bytes_20 raw E) as (d & c & i & k & pl & _ & Hpl & H).
  unfold Packet.from_bytes in H. rewrite E in H. cbn [Nat.eqb] in H.
  rewrite Nat.eqb_refl in H. rewrite H. intros [= <-]. exact Hpl.
Qed.

(** X7: every packet that the constructor or [from_bytes] returns has a
    payload of exactly 16 bytes, so the bump, touch and light decoders never
    raise on it and the color decode has 32 entries. *)
Theorem decoders_total_on_packets (p : Packet.t) :
  (exists d c i pl k, Packet.init d c i pl k = Ok p) \/
  (exists raw, Packet.from_bytes raw = Ok p) ->
  length (Packet.payload p) = 16%nat /\
  (exists b, Bumper.from_packet p = Ok b) /\
  (exists t, Touch.from_packet p = Ok t) /\
  (exists l, Light.from_packet p = Ok l) /\
  length (Color.colors (Color.from_packet p)) = 32%nat.
Proof.
  intros H.
  assert (Hlen : length (Packet.payload p) = 16%nat).
  { destruct H as [(d & c & i & pl & k & H) | (raw & H)].
    - eapply init_payload_16. exact H.
    - eapply from_bytes_payload_16. exact H. }
  split; [exact Hlen |].
  destruct (lookup_16 _ 4 Hlen ltac:(lia)) as [b Hb].
  split; [eexists; unfold Bumper.from_packet;
          rewrite (index_lookup _ _ _ Hb); reflexivity |].
  split; [eexists; unfold Touch.from_packet;
          rewrite (index_lookup _ _ _ Hb); reflexivity |].
  split.
  - unfold Light.from_packet. rewrite (index_lookup _ _ _ Hb). cbn [rbind].
    destruct (Packet.payload p) as [| b0 pl]; [done |].
    do 15 (destruct pl as [| ? pl]; [done |]). destruct pl; [| done].
    eexists. reflexivity.
  - rewrite color_from_packet_unfold, pairs_length, Hlen. reflexivity.
Qed.

Lemma decoders_total_on_packets_witness :
  length (Packet.payload (Packet.mk 12 0 0 ([1] ++ zero_bytes 15) None))
    = 16%nat /\
  (exists b, Bumper.from_packet
               (Packet.mk 12 0 0 ([1] ++ zero_bytes 15) None) = Ok b) /\
  (exists t, Touch.from_packet
               (Packet.mk 12 0 0 ([1] ++ zero_bytes 15) None) = Ok t) /\
  (exists l, Light.from_packet
               (Packet.mk 12 0 0 ([1] ++ zero_bytes 15) None) = Ok l) /\
  length (Color.colors
            (Color.from_packet
               (Packet.mk 12 0 0 ([1] ++ zero_bytes 15) None))) = 32%nat.
Proof.
  apply decoders_total_on_packets.
  left. exists 12, 0, 0, [1], None. reflexivity.
Defined.

(** * Further properties of inbound frames *)

(** X8: a frame that is not dispatched leaves the robot untouched: on a
    stopped engine any data at all is ignored; on a running engine data of
    another length than 20 raises the assertion error of [from_bytes], and
    a 20-byte frame whose last byte is not the checksum of the first 19 is
    dropped without an error. *)
Theorem data_received_drops (s : Robot.t) :
  (Robot._running s = false ->
     forall data, Robot._data_received data s = (Ok tt, s)) /\
  (Robot._running s = true ->
     forall data, length data <> 20%nat ->
       exists msg,
         Robot._data_received data s = (Raise (AssertionError msg), s)) /\
  (Robot._running s = true ->
     forall body c, length body = 19%nat -> is_bytes body ->
       c <> Packet.crc_of body ->
       Robot._data_received (body ++ [c]) s = (Ok tt, s)).
Proof.
  unfold Robot._data_received, Robot.bind, Robot.get, Robot.lift.
  split; [| split]; intros Hr; rewrite Hr; cbn [negb].
  - reflexivity.
  - intros data Hlen. unfold Packet.from_bytes.
    destruct (Nat.eqb_spec (length data) Packet.PACKET_LEN) as [E |];
      [done | eexists; reflexivity].
  - intros body c Hlen Hb Hc.
    pose proof (check_crc_frame body c Hlen Hb) as H.
    destruct (Packet.from_bytes (body ++ [c])) as [p |]; [| discriminate].
    cbn [rbind] in H. rewrite H.
    destruct (Z.eqb_spec c (Packet.crc_of body)); [done | reflexivity].
Qed.

Lemma data_received_drops_witness :
  let s := (Robot.run (Robot.init true)).2 in
  (exists msg,
     Robot._data_received [1; 2; 3] s = (Raise (AssertionError msg), s)) /\
  Robot._data_received (replicate 19 0 ++ [1]) s = (Ok tt, s) /\
  Robot._data_received [1; 2; 3] (Robot.init true) = (Ok tt, Robot.init true).
Proof.
  intros s.
  destruct (data_received_drops s) as (_ & Hlen & Hcrc).
  destruct (data_received_drops (Robot.init true)) as (Hidle & _).
  split; [apply (Hlen eq_refl [1; 2; 3]); cbn; lia |].
  split; [| apply (Hidle eq_refl)].
  apply (Hcrc eq_refl (replicate 19 0) 1); [reflexivity | | vm_compute; lia].
  unfold is_bytes. repeat constructor; unfold is_byte; lia.
Defined.

Section MotorsStayOn.

Lemma motors_stay_on_refl (s : Robot.t) : motors_stay_on s s.
Proof. intros H. exact H. Qed.

Lemma motors_stay_on_trans (a b c : Robot.t) :
  motors_stay_on a b -> motors_stay_on b c -> motors_stay_on a c.
Proof. unfold motors_stay_on. auto. Qed.

Lemma motors_stay_on_same (s s' : Robot.t) :
  Robot._enable_motors s' = Robot._enable_motors s -> motors_stay_on s s'.
Proof. intros E H. congruence. Qed.

Lemma deliver_keeps_motors_on (key : Z * Z) (p : Packet.t)
    (sub : Robot.filter * Robot.callback) :
  keeps motors_stay_on (Robot.deliver key p sub).
Proof.
  destruct sub as [f cb]. intros s.
  unfold Robot.deliver, Robot.bind, Robot.lift, Robot.get.
  destruct (f p) as [a |]; cbn; [| apply motors_stay_on_refl].
  destruct (Robot.truthy a) eqn:Ha; [| apply motors_stay_on_refl].
  destruct (Robot._tasks s !! key) as [old |]; cbn;
    destruct cb; cbn; rewrite ?Ha; intros H; cbn; first [exact H | reflexivity].
Qed.

Lemma data_received_keeps_motors_on (data : list Z) :
  keeps motors_stay_on (Robot._data_received data).
Proof.
  intros s. unfold Robot._data_received, Robot.bind at 1, Robot.get.
  destruct (Robot._running s); cbn [negb]; [| apply motors_stay_on_refl].
  unfold Robot.bind at 1, Robot.lift.
  destruct (Packet.from_bytes data) as [p |]; [| apply motors_stay_on_refl].
  unfold Robot.bind at 1, Robot.lift.
  destruct (Packet.check_crc p) as [[|] |]; cbn [negb];
    try apply motors_stay_on_refl.
  unfold Robot.bind at 1.
  pose proof (resolve_response_spec p s) as Hres. cbn zeta in Hres.
  destruct (resolve_response_keeps_events p s) as (_ & _ & _ & _ & E).
  destruct (Robot.resolve_response p s) as [r s1].
  injection Hres as -> _. cbn [snd] in E.
  eapply motors_stay_on_trans; [apply motors_stay_on_same; exact E |].
  rewrite dispatch_events_spec.
  destruct (Robot._events s1 !! _) as [subs |]; [| apply motors_stay_on_refl].
  apply (keeps_for_each _ motors_stay_on_refl motors_stay_on_trans).
  intros sub. apply deliver_keeps_motors_on.
Qed.

End MotorsStayOn.

(** X9: no inbound data ever disables motor commands: whatever the
    subscriptions are, if motor commands are enabled before
    [_data_received] they are enabled after it, also when it raises. *)
Theorem data_received_never_disables_motors (s : Robot.t) (data : list Z) :
  Robot._enable_motors s = true ->
  Robot._enable_motors (Robot._data_received data s).2 = true.
Proof. apply data_received_keeps_motors_on. Qed.

Lemma data_received_never_disables_motors_witness :
  Robot._enable_motors
    (Robot._data_received (inbound 1 29 0 [])
       (Robot.run (Robot.init true)).2).2 = true.
Proof.
  apply (data_received_never_disables_motors
           (Robot.run (Robot.init true)).2 (inbound 1 29 0 [])).
  reflexivity.
Defined.

Section TaskReplacement.

Lemma superseding_cons (c : Robot.coroutine) (cs : list Robot.coroutine) :
  superseding (c :: cs)
    = Robot.mk_task c (bool_decide (cs <> [])) :: superseding cs.
Proof. destruct cs; reflexivity. Qed.

Lemma length_cancel_entry (entry : option nat) (ts : list Robot.task) :
  length (cancel_entry entry ts) = length ts.
Proof. destruct entry; cbn; [apply length_alter | reflexivity]. Qed.

Lemma starts_coroutine_handles (p : Packet.t)
    (sub : Robot.filter * Robot.callback) :
  starts_coroutine p sub -> handles p sub.
Proof. intros [[a Ha] Hcb]. exists a. split; [exact Ha | intros _; exact Hcb]. Qed.

(** The subscriptions that [run] installs: the loop gets past the stop
    and the stall subscription on every packet, and past the cliff
    subscription exactly when payload byte 4 is not 0. *)
Lemma builtin_subscriptions_handled (p : Packet.t) (b : Z) :
  Packet.payload p !! 4%nat = Some b ->
  handles p (Robot.stop_filter, Robot.cb_stop) /\
  handles p (Robot.stall_filter, Robot.cb_enable_motors) /\
  (handles p (Robot.cliff_filter, Robot.cb_enable_motors) <-> b <> 0).
Proof.
  intros Hb. split; [| split].
  - exists (Robot.APacket p). split; [reflexivity | discriminate].
  - exists (Robot.ABool false). split; [reflexivity | discriminate].
  - unfold handles, Robot.cliff_filter. cbn [fst snd].
    rewrite (index_lookup _ _ _ Hb). cbn [rbind]. split.
    + intros (a & Ha & Hcb) ->. injection Ha as <-.
      apply (Hcb eq_refl eq_refl).
    + intros Hne. exists (Robot.ABool (b =? 0)). split; [reflexivity |].
      cbn [Robot.truthy]. intros Ht. apply Z.eqb_eq in Ht. contradiction.
Qed.

(** One subscriber whose filter does not match: nothing happens. *)
Lemma deliver_skipped (key : Z * Z) (p : Packet.t)
    (sub : Robot.filter * Robot.callback) (s : Robot.t) :
  handles p sub -> delivered p sub = None ->
  Robot.deliver key p sub s = (Ok tt, s).
Proof.
  destruct sub as [f cb]. intros (a & Ha & Hcb) Hd. cbn in Ha, Hcb.
  unfold delivered in Hd. cbn [fst snd] in Hd. rewrite Ha in Hd.
  unfold Robot.deliver, Robot.bind, Robot.lift. rewrite Ha.
  destruct (Robot.truthy a); [| reflexivity].
  destruct cb; try discriminate. destruct (Hcb eq_refl eq_refl).
Qed.

(** One subscriber whose filter matches: the task registered under the key
    is cancelled, a new task is appended and registered. *)
Lemma deliver_started (key : Z * Z) (p : Packet.t)
    (sub : Robot.filter * Robot.callback) (c : Robot.coroutine)
    (s : Robot.t) :
  handles p sub -> delivered p sub = Some c ->
  exists s', Robot.deliver key p sub s = (Ok tt, s') /\
    Robot.tasks s'
      = cancel_entry (Robot._tasks s !! key) (Robot.tasks s)
          ++ [Robot.mk_task c false] /\
    Robot._tasks s' = <[key := length (Robot.tasks s)]> (Robot._tasks s) /\
    same_subscriptions s s'.
Proof.
  destruct sub as [f cb]. intros (a & Ha & Hcb) Hd. cbn in Ha, Hcb.
  unfold delivered in Hd. cbn [fst snd] in Hd. rewrite Ha in Hd.
  unfold Robot.deliver, Robot.bind, Robot.lift, Robot.get. rewrite Ha.
  destruct (Robot.truthy a); [| discriminate].
  destruct (Robot._tasks s !! key) as [old |];
    destruct cb; try done; injection Hd as <-; cbn;
    (eexists; split; [reflexivity |]); cbn;
    rewrite ?length_alter; repeat split.
Qed.

Lemma same_subscriptions_trans (a b c : Robot.t) :
  same_subscriptions a b -> same_subscriptions b c -> same_subscriptions a c.
Proof. intros [H1 H2] [H3 H4]. split; congruence. Qed.

(** All subscribers of one key, in order. *)
Lemma for_each_deliver_tasks (key : Z * Z) (p : Packet.t)
    (subs : list (Robot.filter * Robot.callback)) : forall s : Robot.t,
  Forall (handles p) subs ->
  exists s', Robot.for_each subs (Robot.deliver key p) s = (Ok tt, s') /\
    (omap (delivered p) subs = [] -> s' = s) /\
    (omap (delivered p) subs <> [] ->
       Robot.tasks s'
         = cancel_entry (Robot._tasks s !! key) (Robot.tasks s)
             ++ superseding (omap (delivered p) subs) /\
       Robot._tasks s'
         = <[key := pred (length (Robot.tasks s'))]> (Robot._tasks s)) /\
    same_subscriptions s s'.
Proof.
  induction subs as [| sub subs IH]; intros s Hall.
  - exists s. cbn. repeat split; done.
  - apply Forall_cons in Hall as [Hsub Hall]. cbn [omap list_omap].
    cbn [Robot.for_each]. unfold Robot.bind at 1.
    destruct (delivered p sub) as [c |] eqn:Hd.
    + destruct (deliver_started key p sub c s Hsub Hd)
        as (s1 & E1 & Ht1 & Hk1 & Hs1).
      destruct (IH s1 Hall) as (s2 & E2 & Hnil & Hnew & Hs2).
      rewrite E1. exists s2. split; [exact E2 |].
      split; [done |]. split; [| eapply same_subscriptions_trans; eassumption].
      intros _. rewrite superseding_cons.
      destruct (omap (delivered p) subs) as [| c' cs] eqn:Erest.
      * rewrite (Hnil eq_refl), Ht1, Hk1. cbn. split; [reflexivity |].
        rewrite length_app, length_cancel_entry. cbn.
        replace (pred (length (Robot.tasks s) + 1)) with (length (Robot.tasks s))
          by lia.
        reflexivity.
      * destruct (Hnew ltac:(done)) as [Ht2 Hk2].
        rewrite Hk2, Hk1, insert_insert_eq. split; [| reflexivity].
        rewrite Ht2, Hk1, lookup_insert_eq, Ht1. cbn [cancel_entry].
        rewrite <- (length_cancel_entry (Robot._tasks s !! key)).
        rewrite <- (Nat.add_0_r (length (cancel_entry _ _))).
        rewrite alter_app_r. cbn [alter list_alter].
        rewrite bool_decide_true by done. rewrite <- app_assoc. reflexivity.
    + rewrite (deliver_skipped key p sub s Hsub Hd). apply IH. exact Hall.
Qed.

Lemma resolve_response_keeps_running (p : Packet.t) (s : Robot.t) :
  same_subscriptions s (Robot.resolve_response p s).2.
Proof.
  destruct (resolve_response_keeps_events p s) as (H1 & H2 & _).
  split; assumption.
Qed.

(** A dispatched frame whose subscribers the loop gets past. *)
Lemma data_received_handled (s : Robot.t) (data : list Z) (p : Packet.t)
    (subs : list (Robot.filter * Robot.callback)) :
  Robot._running s = true ->
  Packet.from_bytes data = Ok p ->
  Packet.check_crc p = Ok true ->
  Robot._events s !! (Packet.dev p, Packet.cmd p) = Some subs ->
  Forall (handles p) subs ->
  exists s', Robot._data_received data s = (Ok tt, s') /\
    (omap (delivered p) subs = [] ->
       Robot.tasks s' = Robot.tasks s /\ Robot._tasks s' = Robot._tasks s) /\
    (omap (delivered p) subs <> [] ->
       Robot.tasks s'
         = cancel_entry (Robot._tasks s !! (Packet.dev p, Packet.cmd p))
             (Robot.tasks s)
             ++ superseding (omap (delivered p) subs) /\
       Robot._tasks s'
         = <[(Packet.dev p, Packet.cmd p) := pred (length (Robot.tasks s'))]>
             (Robot._tasks s)) /\
    same_subscriptions s s'.
Proof.
  intros Hr Hp Hc He Hall.
  rewrite (data_received_valid _ _ _ Hr Hp Hc).
  destruct (resolve_response_keeps_events p s) as (Ke & _ & Kt & Kts & _).
  pose proof (resolve_response_keeps_running p s) as Ks.
  set (s1 := (Robot.resolve_response p s).2) in *.
  rewrite dispatch_events_spec, Ke, He.
  destruct (for_each_deliver_tasks (Packet.dev p, Packet.cmd p) p subs s1 Hall)
    as (s2 & E2 & Hnil & Hnew & Hs2).
  exists s2. split; [exact E2 |]. split; [| split].
  - intros Hn. rewrite (Hnil Hn). split; assumption.
  - intros Hn. destruct (Hnew Hn) as [H1 H2].
    rewrite Kt, Kts in H1. rewrite Kt in H2. split; assumption.
  - eapply same_subscriptions_trans; eassumption.
Qed.

(** A dispatched frame whose subscribers all start coroutines. *)
Lemma data_received_tasks (s : Robot.t) (data : list Z) (p : Packet.t)
    (subs : list (Robot.filter * Robot.callback)) :
  Robot._running s = true ->
  Packet.from_bytes data = Ok p ->
  Packet.check_crc p = Ok true ->
  Robot._events s !! (Packet.dev p, Packet.cmd p) = Some subs ->
  Forall (starts_coroutine p) subs ->
  exists s', Robot._data_received data s = (Ok tt, s') /\
    (omap (delivered p) subs = [] ->
       Robot.tasks s' = Robot.tasks s /\ Robot._tasks s' = Robot._tasks s) /\
    (omap (delivered p) subs <> [] ->
       Robot.tasks s'
         = cancel_entry (Robot._tasks s !! (Packet.dev p, Packet.cmd p))
             (Robot.tasks s)
             ++ superseding (omap (delivered p) subs) /\
       Robot._tasks s'
         = <[(Packet.dev p, Packet.cmd p) := pred (length (Robot.tasks s'))]>
             (Robot._tasks s)) /\
    same_subscriptions s s'.
Proof.
  intros Hr Hp Hc He Hall.
  apply data_received_handled; try assumption.
  eapply Forall_impl; [exact Hall |]. apply starts_coroutine_handles.
Qed.

End TaskReplacement.

(** * Correlation and delivery *)




(** X10: the stall subscription installed by [run] never does anything:
    its filter yields [False], which the dispatch loop takes for "no
    match".  A stall notification (device 1, command 29) creates no task,
    leaves the motor flag and the transport log as they were and raises
    nothing. *)
Theorem stall_notification_has_no_effect
    (s : Robot.t) (data : list Z) (p : Packet.t) :
  Robot._running s = true ->
  Robot._events s !! (1, 29)
    = Some [(Robot.stall_filter, Robot.cb_enable_motors)] ->
  Packet.from_bytes data = Ok p ->
  Packet.check_crc p = Ok true ->
  Packet.dev p = 1 -> Packet.cmd p = 29 ->
  exists s', Robot._data_received data s = (Ok tt, s') /\
    Robot._enable_motors s' = Robot._enable_motors s /\
    Robot.written s' = Robot.written s /\
    Robot.tasks s' = Robot.tasks s /\
    Robot._tasks s' = Robot._tasks s /\
    Robot._events s' = Robot._events s /\
    Robot._running s' = true.
Proof.
  intros Hr He Hp Hc Hd Hm.
  rewrite (data_received_valid _ _ _ Hr Hp Hc).
  destruct (resolve_response_keeps_events p s) as (E1 & E2 & E3 & E4 & E5).
  assert (Ew : Robot.written (Robot.resolve_response p s).2
               = Robot.written s).
  { rewrite resolve_response_spec. cbn zeta.
    destruct (Robot._responses s !! _) as [fut |]; [| reflexivity].
    destruct (Robot.futures s !! fut) as [[| |] |]; reflexivity. }
  set (s1 := (Robot.resolve_response p s).2) in *.
  rewrite dispatch_events_spec, Hd, Hm, E1, He.
  exists s1. split; [reflexivity |]. repeat split; congruence.
Qed.

Lemma stall_notification_has_no_effect_witness :
  let s := (Robot.run (Robot.init true)).2 in
  exists s', Robot._data_received (inbound 1 29 0 []) s = (Ok tt, s') /\
    Robot._enable_motors s' = Robot._enable_motors s /\
    Robot.written s' = Robot.written s /\
    Robot.tasks s' = Robot.tasks s /\
    Robot._tasks s' = Robot._tasks s /\
    Robot._events s' = Robot._events s /\
    Robot._running s' = true.
Proof.
  apply (stall_notification_has_no_effect
           (Robot.run (Robot.init true)).2 (inbound 1 29 0 [])
           (Packet.mk 1 29 0 (zero_bytes 16) (Some 173)));
    reflexivity.
Defined.

Lemma superseding_lookup (cs : list Robot.coroutine) :
  forall (i : nat) (c : Robot.coroutine),
  cs !! i = Some c ->
  superseding cs !! i
    = Some (Robot.mk_task c (bool_decide (S i < length cs)%nat)).
Proof.
  induction cs as [| c0 cs IH]; intros i c Hi; [done |].
  rewrite superseding_cons. destruct i as [| i].
  - cbn in Hi. injection Hi as ->.
    change ((?x :: ?l) !! 0%nat) with (Some x). do 2 f_equal.
    apply bool_decide_ext. destruct cs; cbn; split; intros H; try done; lia.
  - cbn in Hi. change ((?x :: ?l) !! S i) with (l !! i).
    rewrite (IH i c Hi). do 2 f_equal.
    apply bool_decide_ext. cbn. lia.
Qed.

Lemma length_superseding (cs : list Robot.coroutine) :
  length (superseding cs) = length cs.
Proof.
  induction cs as [| c cs IH]; [done |].
  rewrite superseding_cons. cbn. rewrite IH. reflexivity.
Qed.

(** X11: when several subscribers of one event key match the same frame,
    a task is created for each in registration order, but each creation
    cancels the task created just before: every new task except the last
    has its cancellation requested, the task that was registered under the
    key before the frame is cancelled too, and the task table ends up at
    the last task. *)
Theorem matching_subscribers_supersede
    (s : Robot.t) (data : list Z) (p : Packet.t)
    (subs : list (Robot.filter * Robot.callback)) :
  Robot._running s = true ->
  Packet.from_bytes data = Ok p ->
  Packet.check_crc p = Ok true ->
  Robot._events s !! (Packet.dev p, Packet.cmd p) = Some subs ->
  Forall (starts_coroutine p) subs ->
  omap (delivered p) subs <> [] ->
  let ekey := (Packet.dev p, Packet.cmd p) in
  let news := omap (delivered p) subs in
  let s' := (Robot._data_received data s).2 in
  length (Robot.tasks s') = (length (Robot.tasks s) + length news)%nat /\
  (forall i c, news !! i = Some c ->
     Robot.tasks s' !! (length (Robot.tasks s) + i)%nat
       = Some (Robot.mk_task c (bool_decide (S i < length news)%nat))) /\
  (forall old k, Robot._tasks s !! ekey = Some old ->
     Robot.tasks s !! old = Some k ->
     Robot.tasks s' !! old = Some (cancelled k)) /\
  Robot._tasks s' !! ekey = Some (pred (length (Robot.tasks s'))).
Proof.
  intros Hr Hp Hc He Hall Hne ekey news s'. subst s'.
  destruct (data_received_tasks s data p subs Hr Hp Hc He Hall)
    as (s2 & -> & _ & Hnew & _).
  cbn [snd]. destruct (Hnew Hne) as [Ht Hk]. fold ekey news in Ht, Hk.
  split; [| split; [| split]].
  - rewrite Ht, length_app, length_cancel_entry, length_superseding. done.
  - intros i c Hi. rewrite Ht.
    rewrite <- (length_cancel_entry (Robot._tasks s !! ekey)).
    rewrite lookup_app_r by lia.
    replace (_ + i - _)%nat with i by lia.
    apply superseding_lookup. exact Hi.
  - intros old k Hold Hk0. rewrite Ht, Hold. cbn [cancel_entry].
    rewrite lookup_app_l
      by (rewrite length_alter; eapply lookup_lt_Some; exact Hk0).
    rewrite list_lookup_alter_eq, Hk0. reflexivity.
  - rewrite Hk. apply lookup_insert_eq.
Qed.

Lemma matching_subscribers_supersede_witness :
  let left_bump := inbound 12 0 0 [0; 0; 0; 0; 0x80] in
  let s' := (Robot._data_received left_bump listening).2 in
  Robot.tasks s'
    = [Robot.mk_task
         (Robot.co_handler 1 (Robot.ABumper (Bumper.mk true false))) true;
       Robot.mk_task
         (Robot.co_handler 3 (Robot.ABumper (Bumper.mk true false))) false] /\
  Robot._tasks s' !! (12, 0) = Some 1%nat.
Proof.
  intros left_bump s'.
  set (p := Packet.mk 12 0 0
              [0; 0; 0; 0; 0x80; 0; 0; 0; 0; 0; 0; 0; 0; 0; 0; 0] (Some 185)).
  set (subs := [(bump_filter None, Robot.cb_handler 1);
                (bump_filter (Some (Bumper.mk true true)), Robot.cb_handler 2);
                (bump_filter (Some (Bumper.mk true false)),
                 Robot.cb_handler 3)]).
  assert (Hall : Forall (starts_coroutine p) subs).
  { unfold subs.
    repeat (apply Forall_cons; split;
            [split; [eexists; reflexivity | cbn; discriminate] |]).
    constructor. }
  destruct (matching_subscribers_supersede listening left_bump p subs
              ltac:(vm_compute; reflexivity) ltac:(vm_compute; reflexivity)
              ltac:(vm_compute; reflexivity) ltac:(vm_compute; reflexivity)
              Hall ltac:(vm_compute; discriminate))
    as (Hlen & Hnew & _ & Hlast).
  fold s' in Hlen, Hnew, Hlast.
  assert (H0 := Hnew 0%nat _ ltac:(vm_compute; reflexivity)).
  assert (H1 := Hnew 1%nat _ ltac:(vm_compute; reflexivity)).
  change (length (Robot.tasks listening)) with 0%nat in *.
  cbn [Nat.add] in *.
  assert (L : length (Robot.tasks s') = 2%nat) by exact Hlen.
  split.
  - destruct (Robot.tasks s') as [| t0 [| t1 [| t2 ts]]];
      try discriminate L.
    cbn in H0, H1. injection H0 as ->. injection H1 as ->. reflexivity.
  - rewrite L in Hlast. exact Hlast.
Defined.

Lemma delivered_handler (p : Packet.t) (f : Robot.filter) (h : nat)
    (a : Robot.arg) :
  f p = Ok a ->
  starts_coroutine p (f, Robot.cb_handler h) /\
  delivered p (f, Robot.cb_handler h)
    = if Robot.truthy a then Some (Robot.co_handler h a) else None.
Proof.
  intros Hf. split.
  - split; [exists a; exact Hf | discriminate].
  - unfold delivered. cbn [fst snd]. rewrite Hf. reflexivity.
Qed.

(** X12: cancel and replace.  With one handler registered under an event
    key and no task running for it, two matching frames in a row create
    two tasks: the second frame cancels the task of the first and puts its
    own task in the task table. *)
Theorem second_match_cancels_first
    (s : Robot.t) (d1 d2 : list Z) (p1 p2 : Packet.t)
    (f : Robot.filter) (h : nat) (a1 a2 : Robot.arg) :
  Robot._running s = true ->
  Packet.from_bytes d1 = Ok p1 -> Packet.check_crc p1 = Ok true ->
  Packet.from_bytes d2 = Ok p2 -> Packet.check_crc p2 = Ok true ->
  (Packet.dev p2, Packet.cmd p2) = (Packet.dev p1, Packet.cmd p1) ->
  Robot._events s !! (Packet.dev p1, Packet.cmd p1)
    = Some [(f, Robot.cb_handler h)] ->
  Robot._tasks s !! (Packet.dev p1, Packet.cmd p1) = None ->
  f p1 = Ok a1 -> Robot.truthy a1 = true ->
  f p2 = Ok a2 -> Robot.truthy a2 = true ->
  let s1 := (Robot._data_received d1 s).2 in
  let s2 := (Robot._data_received d2 s1).2 in
  Robot.tasks s1
    = Robot.tasks s ++ [Robot.mk_task (Robot.co_handler h a1) false] /\
  Robot.tasks s2
    = Robot.tasks s ++ [Robot.mk_task (Robot.co_handler h a1) true;
                        Robot.mk_task (Robot.co_handler h a2) false] /\
  Robot._tasks s2 !! (Packet.dev p1, Packet.cmd p1)
    = Some (S (length (Robot.tasks s))).
Proof.
  intros Hr Hp1 Hc1 Hp2 Hc2 Hkey He Hnone Hf1 Ht1 Hf2 Ht2 s1 s2.
  destruct (delivered_handler p1 f h a1 Hf1) as [Hs1 Hd1].
  destruct (delivered_handler p2 f h a2 Hf2) as [Hs2 Hd2].
  rewrite Ht1 in Hd1. rewrite Ht2 in Hd2.
  destruct (data_received_tasks s d1 p1 _ Hr Hp1 Hc1 He
              ltac:(constructor; [exact Hs1 | constructor]))
    as (t1 & E1 & _ & Hnew1 & [Kev Krun]).
  cbn [omap list_omap] in Hnew1. rewrite Hd1 in Hnew1.
  destruct (Hnew1 ltac:(done)) as [Htasks1 Htab1].
  rewrite Hnone in Htasks1. cbn in Htasks1.
  assert (Es1 : s1 = t1) by (subst s1; rewrite E1; reflexivity).
  rewrite <- Es1 in *. clear Es1 E1.
  destruct (data_received_tasks s1 d2 p2 [(f, Robot.cb_handler h)]
              ltac:(congruence) Hp2 Hc2 ltac:(rewrite Hkey; congruence)
              ltac:(constructor; [exact Hs2 | constructor]))
    as (t2 & E2 & _ & Hnew2 & _).
  cbn [omap list_omap] in Hnew2. rewrite Hd2 in Hnew2.
  destruct (Hnew2 ltac:(done)) as [Htasks2 Htab2].
  assert (Es2 : s2 = t2) by (subst s2; rewrite E2; reflexivity).
  rewrite <- Es2 in *. clear Es2 E2.
  rewrite Hkey, Htab1, lookup_insert_eq, Htasks1 in Htasks2.
  rewrite length_app in Htasks2. cbn [length cancel_entry] in Htasks2.
  replace (pred (length (Robot.tasks s) + 1)) with
    (length (Robot.tasks s) + 0)%nat in Htasks2 by lia.
  rewrite alter_app_r in Htasks2. cbn in Htasks2.
  rewrite <- app_assoc in Htasks2. cbn in Htasks2.
  split; [exact Htasks1 |]. split; [exact Htasks2 |].
  rewrite Htab2, Hkey, lookup_insert_eq, Htasks2, length_app. cbn.
  f_equal. lia.
Qed.

Lemma second_match_cancels_first_witness :
  let s := (Robot.on_bump None 1 (Robot.run (Robot.init true)).2).2 in
  let s1 := (Robot._data_received (inbound 12 0 0 [0; 0; 0; 0; 0x80]) s).2 in
  let s2 := (Robot._data_received (inbound 12 0 1 [0; 0; 0; 0; 0x40]) s1).2 in
  Robot.tasks s1
    = Robot.tasks s
        ++ [Robot.mk_task
              (Robot.co_handler 1 (Robot.ABumper (Bumper.mk true false)))
              false] /\
  Robot.tasks s2
    = Robot.tasks s
        ++ [Robot.mk_task
              (Robot.co_handler 1 (Robot.ABumper (Bumper.mk true false)))
              true;
            Robot.mk_task
              (Robot.co_handler 1 (Robot.ABumper (Bumper.mk false true)))
              false] /\
  Robot._tasks s2 !! (12, 0) = Some (S (length (Robot.tasks s))).
Proof.
  apply (second_match_cancels_first
           (Robot.on_bump None 1 (Robot.run (Robot.init true)).2).2
           (inbound 12 0 0 [0; 0; 0; 0; 0x80])
           (inbound 12 0 1 [0; 0; 0; 0; 0x40])
           (Packet.mk 12 0 0
              [0; 0; 0; 0; 0x80; 0; 0; 0; 0; 0; 0; 0; 0; 0; 0; 0] (Some 185))
           (Packet.mk 12 0 1
              [0; 0; 0; 0; 0x40; 0; 0; 0; 0; 0; 0; 0; 0; 0; 0; 0] (Some 216))
           (bump_filter None) 1
           (Robot.ABumper (Bumper.mk true false))
           (Robot.ABumper (Bumper.mk false true)));
    vm_compute; reflexivity.
Defined.

Lemma on_bump_spec (flt : option Bumper.t) (h : nat) (s : Robot.t) :
  Robot.on_bump flt h s =
    (Ok tt,
     Robot.with_events
       (<[(12, 0) := default [] (Robot._events s !! (12, 0))
                       ++ [(bump_filter flt, Robot.cb_handler h)]]>
          (Robot._events s)) s).
Proof. reflexivity. Qed.

Lemma bump_filter_spec (flt : option Bumper.t) (p : Packet.t) (b : Z) :
  Packet.payload p !! 4%nat = Some b ->
  bump_filter flt p =
    Ok (match flt with
        | None => Robot.ABumper (Bumper.mk (Z.testbit b 7) (Z.testbit b 6))
        | Some f =>
            if eqb (Bumper.left f) (Z.testbit b 7)
               && eqb (Bumper.right f) (Z.testbit b 6)
            then Robot.ABumper (Bumper.mk (Z.testbit b 7) (Z.testbit b 6))
            else Robot.ANone
        end).
Proof.
  intros Hb. unfold bump_filter, Bumper.from_packet.
  rewrite (index_lookup _ _ _ Hb). cbn [rbind].
  change 128 with (2 ^ 7). change 64 with (2 ^ 6).
  rewrite !land_pow2_testbit by lia. reflexivity.
Qed.

(** X13: a handler registered with [on_bump] on a robot that has no other
    bump subscriber is started by a bump notification (device 12, command
    0) exactly when no filter was given or the filter equals the decoded
    bump state; it then receives the decoded state.  Otherwise no task is
    created. *)
Theorem on_bump_starts_handler_on_match
    (s : Robot.t) (flt : option Bumper.t) (h : nat)
    (data : list Z) (p : Packet.t) (b : Z) :
  Robot._running s = true ->
  Robot._events s !! (12, 0) = None ->
  Robot._tasks s !! (12, 0) = None ->
  Packet.from_bytes data = Ok p ->
  Packet.check_crc p = Ok true ->
  Packet.dev p = 12 -> Packet.cmd p = 0 ->
  Packet.payload p !! 4%nat = Some b ->
  let bumper := Bumper.mk (Z.testbit b 7) (Z.testbit b 6) in
  let s' := (Robot._data_received data (Robot.on_bump flt h s).2).2 in
  (flt = None \/ flt = Some bumper ->
     Robot.tasks s'
       = Robot.tasks s
           ++ [Robot.mk_task (Robot.co_handler h (Robot.ABumper bumper))
                 false]) /\
  (forall f, flt = Some f -> f <> bumper -> Robot.tasks s' = Robot.tasks s).
Proof.
  intros Hr He Ht Hp Hc Hd Hm Hb bumper s'. subst s'.
  rewrite on_bump_spec, He. cbn [snd default app].
  set (s1 := Robot.with_events _ s).
  assert (He1 : Robot._events s1 !! (Packet.dev p, Packet.cmd p)
                = Some [(bump_filter flt, Robot.cb_handler h)]).
  { rewrite Hd, Hm. subst s1. cbn. apply lookup_insert_eq. }
  pose proof (bump_filter_spec flt p b Hb) as Hf.
  destruct (delivered_handler p (bump_filter flt) h _ Hf) as [Hs Hdl].
  destruct (data_received_tasks s1 data p _ Hr Hp Hc He1
              ltac:(constructor; [exact Hs | constructor]))
    as (s2 & -> & Hnil & Hnew & _).
  cbn [snd omap list_omap] in *. rewrite Hdl in Hnil, Hnew.
  rewrite Hd, Hm in Hnew.
  change (Robot._tasks s1) with (Robot._tasks s) in Hnew.
  change (Robot.tasks s1) with (Robot.tasks s) in Hnew, Hnil.
  rewrite Ht in Hnew. cbn [cancel_entry] in Hnew.
  split.
  - intros [-> | ->]; cbn in Hnew.
    + destruct (Hnew ltac:(done)) as [H _]. exact H.
    + rewrite !eqb_reflx in Hnew. cbn in Hnew.
      destruct (Hnew ltac:(done)) as [H _]. exact H.
  - intros f -> Hne.
    destruct (eqb (Bumper.left f) (Z.testbit b 7)) eqn:El;
      destruct (eqb (Bumper.right f) (Z.testbit b 6)) eqn:Er;
      cbn in Hnil; try (destruct (Hnil eq_refl) as [H _]; exact H).
    exfalso. apply Hne. apply eqb_prop in El, Er. destruct f. cbn in *.
    subst. reflexivity.
Qed.

Lemma on_bump_starts_handler_on_match_witness :
  let s := (Robot.run (Robot.init true)).2 in
  let data := inbound 12 0 0 [0; 0; 0; 0; 0x80] in
  let s' := (Robot._data_received data
               (Robot.on_bump (Some (Bumper.mk true false)) 3 s).2).2 in
  let t' := (Robot._data_received data
               (Robot.on_bump (Some (Bumper.mk true true)) 2 s).2).2 in
  Robot.tasks s'
    = [Robot.mk_task
         (Robot.co_handler 3 (Robot.ABumper (Bumper.mk true false))) false] /\
  Robot.tasks t' = [].
Proof.
  intros s data s' t'.
  assert (Hp : Packet.from_bytes data
               = Ok (Packet.mk 12 0 0
                       [0; 0; 0; 0; 0x80; 0; 0; 0; 0; 0; 0; 0; 0; 0; 0; 0]
                       (Some 185))) by (vm_compute; reflexivity).
  split.
  - apply (proj1 (on_bump_starts_handler_on_match s
                    (Some (Bumper.mk true false)) 3 data _ 0x80
                    eq_refl eq_refl eq_refl Hp eq_refl eq_refl eq_refl
                    eq_refl)).
    right. reflexivity.
  - apply (proj2 (on_bump_starts_handler_on_match s
                    (Some (Bumper.mk true true)) 2 data _ 0x80
                    eq_refl eq_refl eq_refl Hp eq_refl eq_refl eq_refl
                    eq_refl) (Bumper.mk true true) eq_refl).
    discriminate.
Defined.

(** * Further properties of the commands *)

Section Sending.

Lemma be32_bytes (u : Z) : is_bytes (be32 u) /\ length (be32 u) = 4%nat.
Proof.
  split; [| reflexivity]. unfold be32, is_bytes.
  repeat (apply Forall_cons; split; [apply is_byte_land; bitwise |]).
  constructor.
Qed.

Lemma be32_value (u : Z) :
  0 <= u < 2 ^ 32 ->
  match be32 u with
  | [b3; b2; b1; b0] => ((b3 * 256 + b2) * 256 + b1) * 256 + b0 = u
  | _ => False
  end.
Proof.
  intros Hu. unfold be32.
  change 255 with (Z.ones 8). rewrite !Z.land_ones, !Z.shiftr_div_pow2 by lia.
  change (2 ^ 8) with 256. change (2 ^ 16) with (256 * 256).
  change (2 ^ 24) with (256 * 256 * 256).
  rewrite <- !Z.div_div by lia.
  pose proof (Z.div_mod u 256 ltac:(lia)).
  pose proof (Z.div_mod (u / 256) 256 ltac:(lia)).
  pose proof (Z.div_mod (u / 256 / 256) 256 ltac:(lia)).
  assert (0 <= u / 256 / 256 / 256 < 256).
  { split; [repeat apply Z.div_pos; lia |].
    repeat (apply Z.div_lt_upper_bound; [lia |]). lia. }
  rewrite (Z.mod_small (u / 256 / 256 / 256) 256) by lia. lia.
Qed.

(** A signed 32-bit value survives [pack] and [unpack]. *)
Lemma pack_i_unpack_i (v : Z) :
  - 2 ^ 31 <= v < 2 ^ 31 ->
  pack_i (VInt v) = Ok (be32 (v mod 2 ^ 32)) /\
  unpack_i (be32 (v mod 2 ^ 32)) = Ok v.
Proof.
  intros Hv. split.
  - unfold pack_i.
    destruct (Z.leb_spec (- 2 ^ 31) v), (Z.ltb_spec v (2 ^ 31)); try lia.
    reflexivity.
  - pose proof (Z.mod_pos_bound v (2 ^ 32) ltac:(lia)) as Hu.
    pose proof (be32_value (v mod 2 ^ 32) Hu) as Hval.
    unfold be32 in *. unfold unpack_i. rewrite Hval. f_equal.
    destruct (Z.ltb_spec (v mod 2 ^ 32) (2 ^ 31)) as [Hlt | Hge].
    + destruct (Z_lt_le_dec v 0) as [Hneg |].
      * rewrite <- (Z.mod_add v 1 (2 ^ 32)) in Hlt by lia.
        rewrite Z.mod_small in Hlt by lia. lia.
      * apply Z.mod_small. lia.
    + destruct (Z_lt_le_dec v 0) as [Hneg |].
      * rewrite <- (Z.mod_add v 1 (2 ^ 32)) by lia.
        rewrite Z.mod_small by lia. lia.
      * rewrite Z.mod_small in Hge by lia. lia.
Qed.

Lemma pack_i_out_of_range (v : Z) :
  ~ (- 2 ^ 31 <= v < 2 ^ 31) ->
  exists msg, pack_i (VInt v) = Raise (StructError msg).
Proof.
  intros Hv. unfold pack_i.
  destruct (Z.leb_spec (- 2 ^ 31) v), (Z.ltb_spec v (2 ^ 31));
    try lia; eexists; reflexivity.
Qed.

(** Building a packet from a short enough payload and writing it, on a
    running engine with a connected transport. *)
Lemma send_packet {A : Type} (d c i : Z) (payload : list Z) (r : A)
    (s : Robot.t) :
  Robot._running s = true -> Robot.connected s = true ->
  is_byte d -> is_byte c -> is_byte i ->
  (length payload <= 16)%nat ->
  Robot.bind (Robot.lift (Packet.init d c i payload None))
    (fun packet => Robot.bind (Robot.write_packet packet)
                     (fun _ => Robot.ret r)) s
  = (Ok r,
     Robot.with_written (Robot.written s ++ [frame_of d c i payload]) s).
Proof.
  intros Hr Hc Hd Hcm Hi Hlen.
  unfold Robot.bind at 1, Robot.lift. rewrite init_ok by exact Hlen.
  unfold Robot.bind.
  erewrite write_packet_sends;
    [| exact Hr | exact Hc | apply to_bytes_ok; assumption].
  reflexivity.
Qed.

(** The same on a stopped engine: nothing is written. *)
Lemma skip_packet {A : Type} (d c i : Z) (payload : list Z) (r : A)
    (s : Robot.t) :
  Robot._running s = false ->
  (length payload <= 16)%nat ->
  Robot.bind (Robot.lift (Packet.init d c i payload None))
    (fun packet => Robot.bind (Robot.write_packet packet)
                     (fun _ => Robot.ret r)) s
  = (Ok r, s).
Proof.
  intros Hr Hlen.
  unfold Robot.bind at 1, Robot.lift. rewrite init_ok by exact Hlen.
  unfold Robot.bind, Robot.write_packet, Robot.bind, Robot.get.
  rewrite Hr. reflexivity.
Qed.

Lemma frame_of_length (d c i : Z) (payload : list Z) :
  (length payload <= 16)%nat -> length (frame_of d c i payload) = 20%nat.
Proof.
  intros H. unfold frame_of, zero_bytes, Packet.PAYLOAD_LEN. cbn.
  rewrite !length_app, length_replicate. cbn. lia.
Qed.

Lemma next_inc_mod (i : Z) : 0 <= i <= 255 -> next_inc i = (i + 1) mod 256.
Proof.
  intros Hi. unfold next_inc. destruct (Z.gtb_spec (i + 1) 255).
  - replace i with 255 by lia. reflexivity.
  - rewrite Z.mod_small; lia.
Qed.

End Sending.

Section Stepping.
Context {A B : Type}.

Lemma bind_get (f : Robot.t -> A) (k : A -> Robot.M B) (s : Robot.t) :
  Robot.bind (Robot.get f) k s = k (f s) s.
Proof. reflexivity. Qed.

Lemma bind_lift_ok (r : result A) (a : A) (k : A -> Robot.M B) (s : Robot.t) :
  r = Ok a -> Robot.bind (Robot.lift r) k s = k a s.
Proof. intros ->. reflexivity. Qed.

Lemma bind_lift_raise (r : result A) (e : exn) (k : A -> Robot.M B)
    (s : Robot.t) :
  r = Raise e -> Robot.bind (Robot.lift r) k s = (Raise e, s).
Proof. intros ->. reflexivity. Qed.

Lemma bind_inc (k : Z -> Robot.M B) (s : Robot.t) :
  Robot.bind Robot.inc k s
    = k (Robot._inc s) (Robot.with_inc (next_inc (Robot._inc s)) s).
Proof. unfold Robot.bind. rewrite inc_spec. reflexivity. Qed.

Lemma bind_create_future (k : nat -> Robot.M B) (s : Robot.t) :
  Robot.bind Robot.create_future k s
    = k (length (Robot.futures s))
        (Robot.with_futures (Robot.futures s ++ [Robot.Pending]) s).
Proof. reflexivity. Qed.

Lemma bind_expect (key : Z * Z * Z) (future : nat) (k : unit -> Robot.M B)
    (s : Robot.t) :
  Robot.bind (Robot.expect key future) k s
    = k tt (Robot.with_responses (<[key := future]> (Robot._responses s)) s).
Proof. reflexivity. Qed.

End Stepping.

Lemma clamp_speed_range (v : Z) : - 2 ^ 31 <= clamp_speed v < 2 ^ 31.
Proof. unfold clamp_speed. lia. Qed.

Lemma tenths_bound (x : number) (v : Z) :
  int_of (times10 x) = Ok v ->
  (let? t := Robot.tenths x in Robot.bound t (VInt (-100)) (VInt 100))
    = Ok (VInt (clamp_speed v)).
Proof.
  intros H. unfold Robot.tenths. rewrite H. cbn [rbind].
  apply bound_int.
Qed.

(** X14: on a running, connected robot with motors enabled, each speed
    command writes exactly one 20-byte frame and registers no reply slot;
    its signed 32-bit fields decode to the arguments in tenths, clamped to
    [-100, 100], and the sequence counter advances by one modulo 256. *)
Theorem speed_commands_send_clamped_tenths
    (s : Robot.t) (left right : number) (vl vr : Z) :
  Robot._enable_motors s = true ->
  Robot._running s = true ->
  Robot.connected s = true ->
  0 <= Robot._inc s <= 255 ->
  int_of (times10 left) = Ok vl ->
  int_of (times10 right) = Ok vr ->
  (exists data s',
     Robot.set_speeds left right s = (Ok Robot.Returned, s') /\
     Robot.written s' = Robot.written s ++ [data] /\
     length data = 20%nat /\
     slice data 0 3 = [1; 4; Robot._inc s] /\
     unpack_i (slice data 3 7) = Ok (clamp_speed vl) /\
     unpack_i (slice data 7 11) = Ok (clamp_speed vr) /\
     Robot._responses s' = Robot._responses s /\
     Robot._inc s' = (Robot._inc s + 1) mod 256) /\
  (exists data s',
     Robot.set_left_speed left s = (Ok Robot.Returned, s') /\
     Robot.written s' = Robot.written s ++ [data] /\
     length data = 20%nat /\
     slice data 0 3 = [1; 6; Robot._inc s] /\
     unpack_i (slice data 3 7) = Ok (clamp_speed vl) /\
     Robot._responses s' = Robot._responses s /\
     Robot._inc s' = (Robot._inc s + 1) mod 256) /\
  (exists data s',
     Robot.set_right_speed right s = (Ok Robot.Returned, s') /\
     Robot.written s' = Robot.written s ++ [data] /\
     length data = 20%nat /\
     slice data 0 3 = [1; 7; Robot._inc s] /\
     unpack_i (slice data 3 7) = Ok (clamp_speed vr) /\
     Robot._responses s' = Robot._responses s /\
     Robot._inc s' = (Robot._inc s + 1) mod 256).
Proof.
  intros Hm Hr Hc Hi Hl Hrt.
  pose proof (pack_i_unpack_i _ (clamp_speed_range vl)) as [Pl Ul].
  pose proof (pack_i_unpack_i _ (clamp_speed_range vr)) as [Pr Ur].
  pose proof (next_inc_mod _ Hi) as Hn.
  assert (Hb : is_byte (Robot._inc s)) by (unfold is_byte; lia).
  assert (H1 : is_byte 1) by (unfold is_byte; lia).
  assert (H4 : is_byte 4) by (unfold is_byte; lia).
  assert (H6 : is_byte 6) by (unfold is_byte; lia).
  assert (H7 : is_byte 7) by (unfold is_byte; lia).
  assert (Pii : pack_ii (VInt (clamp_speed vl)) (VInt (clamp_speed vr))
                = Ok (be32 (clamp_speed vl mod 2 ^ 32)
                        ++ be32 (clamp_speed vr mod 2 ^ 32))).
  { unfold pack_ii. rewrite Pl, Pr. reflexivity. }
  split; [| split].
  - unfold Robot.set_speeds. rewrite bind_get, Hm.
    rewrite (bind_lift_ok _ _ _ _ (tenths_bound _ _ Hl)).
    rewrite (bind_lift_ok _ _ _ _ (tenths_bound _ _ Hrt)).
    rewrite bind_inc, (bind_lift_ok _ _ _ _ Pii).
    rewrite send_packet; try assumption; [| cbn; lia].
    eexists _, _. split; [reflexivity |]. cbn [Robot.written Robot.with_written
      Robot.with_inc Robot._responses Robot._inc].
    split; [reflexivity |].
    split; [apply frame_of_length; cbn; lia |].
    split; [reflexivity |]. split; [exact Ul |]. split; [exact Ur |].
    split; [reflexivity | exact Hn].
  - unfold Robot.set_left_speed. rewrite bind_get, Hm.
    rewrite (bind_lift_ok _ _ _ _ (tenths_bound _ _ Hl)).
    rewrite bind_inc, (bind_lift_ok _ _ _ _ Pl).
    rewrite send_packet; try assumption; [| cbn; lia].
    eexists _, _. split; [reflexivity |]. cbn [Robot.written Robot.with_written
      Robot.with_inc Robot._responses Robot._inc].
    split; [reflexivity |].
    split; [apply frame_of_length; cbn; lia |].
    split; [reflexivity |]. split; [exact Ul |].
    split; [reflexivity | exact Hn].
  - unfold Robot.set_right_speed. rewrite bind_get, Hm.
    rewrite (bind_lift_ok _ _ _ _ (tenths_bound _ _ Hrt)).
    rewrite bind_inc, (bind_lift_ok _ _ _ _ Pr).
    rewrite send_packet; try assumption; [| cbn; lia].
    eexists _, _. split; [reflexivity |]. cbn [Robot.written Robot.with_written
      Robot.with_inc Robot._responses Robot._inc].
    split; [reflexivity |].
    split; [apply frame_of_length; cbn; lia |].
    split; [reflexivity |]. split; [exact Ur |].
    split; [reflexivity | exact Hn].
Qed.

Lemma speed_commands_send_clamped_tenths_witness :
  let s := (Robot.run (Robot.init true)).2 in
  (exists data s',
     Robot.set_speeds (NFloat 12.5) (NInt (-3)) s = (Ok Robot.Returned, s') /\
     Robot.written s' = Robot.written s ++ [data] /\
     length data = 20%nat /\
     slice data 0 3 = [1; 4; Robot._inc s] /\
     unpack_i (slice data 3 7) = Ok (clamp_speed 125) /\
     unpack_i (slice data 7 11) = Ok (clamp_speed (-30)) /\
     Robot._responses s' = Robot._responses s /\
     Robot._inc s' = (Robot._inc s + 1) mod 256) /\
  (exists data s',
     Robot.set_left_speed (NFloat 12.5) s = (Ok Robot.Returned, s') /\
     Robot.written s' = Robot.written s ++ [data] /\
     length data = 20%nat /\
     slice data 0 3 = [1; 6; Robot._inc s] /\
     unpack_i (slice data 3 7) = Ok (clamp_speed 125) /\
     Robot._responses s' = Robot._responses s /\
     Robot._inc s' = (Robot._inc s + 1) mod 256) /\
  (exists data s',
     Robot.set_right_speed (NInt (-3)) s = (Ok Robot.Returned, s') /\
     Robot.written s' = Robot.written s ++ [data] /\
     length data = 20%nat /\
     slice data 0 3 = [1; 7; Robot._inc s] /\
     unpack_i (slice data 3 7) = Ok (clamp_speed (-30)) /\
     Robot._responses s' = Robot._responses s /\
     Robot._inc s' = (Robot._inc s + 1) mod 256).
Proof.
  apply (speed_commands_send_clamped_tenths
           (Robot.run (Robot.init true)).2 (NFloat 12.5) (NInt (-3)) 125 (-30));
    try reflexivity.
  cbn. lia.
Defined.

Section Requests.

Lemma requested_intro (s : Robot.t) (d c : Z) (payload : list Z) :
  0 <= Robot._inc s <= 255 -> (length payload <= 16)%nat ->
  requested s
    (Robot.with_written
       (Robot.written s ++ [frame_of d c (Robot._inc s) payload])
       (Robot.with_responses
          (<[(d, c, Robot._inc s) := length (Robot.futures s)]>
             (Robot._responses s))
          (Robot.with_futures (Robot.futures s ++ [Robot.Pending])
             (Robot.with_inc (next_inc (Robot._inc s)) s))))
    d c (frame_of d c (Robot._inc s) payload).
Proof.
  intros Hi Hlen. unfold requested. cbn.
  repeat split; try reflexivity.
  - apply (frame_of_length d c (Robot._inc s) payload Hlen).
  - apply next_inc_mod. exact Hi.
Qed.

End Requests.

(** X15: on a running, connected robot with motors enabled,
    [drive_distance], [turn_right], [turn_left] and [arc] each write one
    frame, register a fresh pending future under (device, command,
    sequence number) and suspend on it.  The signed 32-bit fields are the
    arguments in tenths, not clamped; [turn_left] of an integer angle sends
    the negated value under the command of [turn_right]. *)
Theorem drive_commands_request_tenths
    (s : Robot.t) (x y : number) (vx vy z : Z) :
  Robot._enable_motors s = true ->
  Robot._running s = true ->
  Robot.connected s = true ->
  0 <= Robot._inc s <= 255 ->
  int_of (times10 x) = Ok vx -> - 2 ^ 31 <= vx < 2 ^ 31 ->
  int_of (times10 y) = Ok vy -> - 2 ^ 31 <= vy < 2 ^ 31 ->
  - 2 ^ 31 < z * 10 < 2 ^ 31 ->
  let future := length (Robot.futures s) in
  (exists data s',
     Robot.drive_distance x s = (Ok (Robot.Awaiting future), s') /\
     requested s s' 1 8 data /\
     unpack_i (slice data 3 7) = Ok vx) /\
  (exists data s',
     Robot.turn_right x s = (Ok (Robot.Awaiting future), s') /\
     requested s s' 1 12 data /\
     unpack_i (slice data 3 7) = Ok vx) /\
  (exists data s',
     Robot.turn_left (NInt z) s = (Ok (Robot.Awaiting future), s') /\
     requested s s' 1 12 data /\
     unpack_i (slice data 3 7) = Ok (- (z * 10))) /\
  (exists data s',
     Robot.arc x y s = (Ok (Robot.Awaiting future), s') /\
     requested s s' 1 27 data /\
     unpack_i (slice data 3 7) = Ok vx /\
     unpack_i (slice data 7 11) = Ok vy).
Proof.
  intros Hm Hr Hc Hi Hx Rx Hy Ry Rz future. subst future.
  pose proof (pack_i_unpack_i vx Rx) as [Px Ux].
  pose proof (pack_i_unpack_i vy Ry) as [Py Uy].
  pose proof (pack_i_unpack_i (- (z * 10)) ltac:(lia)) as [Pz Uz].
  assert (Hb : is_byte (Robot._inc s)) by (unfold is_byte; lia).
  assert (H1 : is_byte 1) by (unfold is_byte; lia).
  assert (H8 : is_byte 8) by (unfold is_byte; lia).
  assert (H12 : is_byte 12) by (unfold is_byte; lia).
  assert (H27 : is_byte 27) by (unfold is_byte; lia).
  assert (Tx : (let? v := Robot.tenths x in pack_i v)
               = Ok (be32 (vx mod 2 ^ 32))).
  { unfold Robot.tenths. rewrite Hx. exact Px. }
  assert (Tz : (let? v := Robot.tenths (negate (NInt z)) in pack_i v)
               = Ok (be32 (- (z * 10) mod 2 ^ 32))).
  { unfold Robot.tenths. cbn [negate times10 int_of rbind].
    replace (- z * 10) with (- (z * 10)) by lia. exact Pz. }
  assert (Txy : (let? a := Robot.tenths x in
                 let? r := Robot.tenths y in pack_ii a r)
                = Ok (be32 (vx mod 2 ^ 32) ++ be32 (vy mod 2 ^ 32))).
  { unfold Robot.tenths, pack_ii. rewrite Hx, Hy. cbn [rbind].
    rewrite Px, Py. reflexivity. }
  assert (H4le : (4 <= Packet.PAYLOAD_LEN)%nat)
    by (unfold Packet.PAYLOAD_LEN; lia).
  split; [| split; [| split]].
  - unfold Robot.drive_distance. rewrite bind_get, Hm, bind_inc.
    rewrite (bind_lift_ok _ _ _ _ Tx).
    rewrite (bind_lift_ok _ _ _ _
              (init_ok 1 8 (Robot._inc s) (be32 (vx mod 2 ^ 32)) None H4le)).
    rewrite bind_create_future, bind_expect.
    unfold Robot.bind.
    erewrite write_packet_sends;
      [| exact Hr | exact Hc | apply to_bytes_ok; assumption].
    eexists _, _. split; [reflexivity |].
    split; [apply (requested_intro s 1 8 (be32 (vx mod 2 ^ 32)) Hi);
            cbn; lia | exact Ux].
  - unfold Robot.turn_right. rewrite bind_get, Hm, bind_inc.
    rewrite (bind_lift_ok _ _ _ _ Tx).
    rewrite (bind_lift_ok _ _ _ _
              (init_ok 1 12 (Robot._inc s) (be32 (vx mod 2 ^ 32)) None H4le)).
    rewrite bind_create_future, bind_expect.
    unfold Robot.bind.
    erewrite write_packet_sends;
      [| exact Hr | exact Hc | apply to_bytes_ok; assumption].
    eexists _, _. split; [reflexivity |].
    split; [apply (requested_intro s 1 12 (be32 (vx mod 2 ^ 32)) Hi);
            cbn; lia | exact Ux].
  - unfold Robot.turn_left, Robot.turn_right. rewrite bind_get, Hm, bind_inc.
    rewrite (bind_lift_ok _ _ _ _ Tz).
    rewrite (bind_lift_ok _ _ _ _
              (init_ok 1 12 (Robot._inc s) (be32 (- (z * 10) mod 2 ^ 32)) None
                 H4le)).
    rewrite bind_create_future, bind_expect.
    unfold Robot.bind.
    erewrite write_packet_sends;
      [| exact Hr | exact Hc | apply to_bytes_ok; assumption].
    eexists _, _. split; [reflexivity |].
    split; [apply (requested_intro s 1 12 (be32 (- (z * 10) mod 2 ^ 32)) Hi);
            cbn; lia | exact Uz].
  - unfold Robot.arc. rewrite bind_get, Hm, bind_inc.
    rewrite (bind_lift_ok _ _ _ _ Txy).
    rewrite bind_create_future, bind_expect.
    rewrite send_packet; try assumption; [| cbn; lia].
    eexists _, _. split; [reflexivity |].
    split; [apply (requested_intro s 1 27
                     (be32 (vx mod 2 ^ 32) ++ be32 (vy mod 2 ^ 32)) Hi);
            cbn; lia |].
    split; [exact Ux | exact Uy].
Qed.

Lemma drive_commands_request_tenths_witness :
  let s := (Robot.run (Robot.init true)).2 in
  (exists data s',
     Robot.drive_distance (NFloat 12.5) s = (Ok (Robot.Awaiting 0), s') /\
     requested s s' 1 8 data /\
     unpack_i (slice data 3 7) = Ok 125) /\
  (exists data s',
     Robot.turn_right (NFloat 12.5) s = (Ok (Robot.Awaiting 0), s') /\
     requested s s' 1 12 data /\
     unpack_i (slice data 3 7) = Ok 125) /\
  (exists data s',
     Robot.turn_left (NInt 90) s = (Ok (Robot.Awaiting 0), s') /\
     requested s s' 1 12 data /\
     unpack_i (slice data 3 7) = Ok (- (90 * 10))) /\
  (exists data s',
     Robot.arc (NFloat 12.5) (NInt (-400)) s = (Ok (Robot.Awaiting 0), s') /\
     requested s s' 1 27 data /\
     unpack_i (slice data 3 7) = Ok 125 /\
     unpack_i (slice data 7 11) = Ok (-4000)).
Proof.
  apply (drive_commands_request_tenths
           (Robot.run (Robot.init true)).2 (NFloat 12.5) (NInt (-400))
           125 (-4000) 90);
    try reflexivity; cbn; lia.
Defined.

(** X16: the unclamped commands fail before anything is registered or
    written when the value in tenths does not fit a signed 32-bit field
    ([struct.error]) or the argument cannot be converted by [int] (an
    infinite or NaN float): only the sequence number is consumed. *)
Theorem drive_commands_reject_unpackable
    (s : Robot.t) (x y : number) (vy : Z) :
  Robot._enable_motors s = true ->
  int_of (times10 y) = Ok vy ->
  let s' := Robot.with_inc (next_inc (Robot._inc s)) s in
  (forall vx, int_of (times10 x) = Ok vx -> ~ (- 2 ^ 31 <= vx < 2 ^ 31) ->
     exists msg,
       Robot.drive_distance x s = (Raise (StructError msg), s') /\
       Robot.turn_right x s = (Raise (StructError msg), s') /\
       Robot.arc x y s = (Raise (StructError msg), s')) /\
  (forall e, int_of (times10 x) = Raise e ->
     Robot.drive_distance x s = (Raise e, s') /\
     Robot.turn_right x s = (Raise e, s') /\
     Robot.arc x y s = (Raise e, s')).
Proof.
  intros Hm Hy s'. split.
  - intros vx Hx Rx. destruct (pack_i_out_of_range vx Rx) as [msg Hp].
    exists msg.
    assert (Tx : (let? v := Robot.tenths x in pack_i v)
                 = Raise (StructError msg)).
    { unfold Robot.tenths. rewrite Hx. exact Hp. }
    assert (Txy : (let? a := Robot.tenths x in
                   let? r := Robot.tenths y in pack_ii a r)
                  = Raise (StructError msg)).
    { unfold Robot.tenths, pack_ii. rewrite Hx, Hy. cbn [rbind].
      rewrite Hp. reflexivity. }
    unfold Robot.drive_distance, Robot.turn_right, Robot.arc.
    rewrite !bind_get, Hm, !bind_inc.
    rewrite !(bind_lift_raise _ _ _ _ Tx), (bind_lift_raise _ _ _ _ Txy).
    repeat split.
  - intros e Hx.
    assert (Tx : (let? v := Robot.tenths x in pack_i v) = Raise e).
    { unfold Robot.tenths. rewrite Hx. reflexivity. }
    assert (Txy : (let? a := Robot.tenths x in
                   let? r := Robot.tenths y in pack_ii a r) = Raise e).
    { unfold Robot.tenths, pack_ii. rewrite Hx. reflexivity. }
    unfold Robot.drive_distance, Robot.turn_right, Robot.arc.
    rewrite !bind_get, Hm, !bind_inc.
    rewrite !(bind_lift_raise _ _ _ _ Tx), (bind_lift_raise _ _ _ _ Txy).
    repeat split.
Qed.

Lemma drive_commands_reject_unpackable_witness :
  let s := (Robot.run (Robot.init true)).2 in
  let s' := Robot.with_inc (next_inc (Robot._inc s)) s in
  (exists msg,
     Robot.drive_distance (NFloat 1e9) s = (Raise (StructError msg), s') /\
     Robot.turn_right (NFloat 1e9) s = (Raise (StructError msg), s') /\
     Robot.arc (NFloat 1e9) (NInt 5) s = (Raise (StructError msg), s')) /\
  (exists msg,
     Robot.drive_distance (NFloat infinity) s
       = (Raise (OverflowError msg), s')).
Proof.
  intros s s'.
  destruct (drive_commands_reject_unpackable s (NFloat 1e9) (NInt 5) 50
              eq_refl eq_refl) as [Hbig _].
  destruct (drive_commands_reject_unpackable s (NFloat infinity) (NInt 5) 50
              eq_refl eq_refl) as [_ Hinf].
  split.
  - apply (Hbig 10000000000); [reflexivity | lia].
  - eexists. apply (Hinf _ eq_refl).
Defined.

Lemma write_packet_spec (p : Packet.t) (s : Robot.t) :
  Robot.write_packet p s =
    if Robot._running s then
      match Packet.to_bytes p with
      | Ok data =>
          (Ok tt,
           if Robot.connected s
           then Robot.with_written (Robot.written s ++ [data]) s else s)
      | Raise e => (Raise e, s)
      end
    else (Ok tt, s).
Proof.
  unfold Robot.write_packet, Robot.bind, Robot.get, Robot.lift,
    Robot.bluetooth_write.
  destruct (Robot._running s); [| reflexivity].
  destruct (Packet.to_bytes p); [| reflexivity].
  destruct (Robot.connected s); reflexivity.
Qed.

(** X17: [stop] consumes a sequence number, writes the stop frame (device
    0, command 3) when the engine was running and the transport connected,
    and clears the running flag.  It leaves the reply table, the futures,
    the subscriptions and the tasks as they are, and afterwards every
    inbound frame is ignored: a request that was waiting keeps waiting. *)
Theorem stop_idles_without_cleanup (s : Robot.t) :
  0 <= Robot._inc s <= 255 ->
  exists s', Robot.stop s = (Ok tt, s') /\
    Robot._running s' = false /\
    Robot.written s'
      = Robot.written s
          ++ (if Robot._running s && Robot.connected s
              then [frame_of 0 3 (Robot._inc s) (zero_bytes 16)] else []) /\
    Robot._inc s' = (Robot._inc s + 1) mod 256 /\
    Robot._responses s' = Robot._responses s /\
    Robot.futures s' = Robot.futures s /\
    Robot._events s' = Robot._events s /\
    Robot._tasks s' = Robot._tasks s /\
    Robot.tasks s' = Robot.tasks s /\
    forall data, Robot._data_received data s' = (Ok tt, s').
Proof.
  intros Hi. unfold Robot.stop. rewrite bind_inc.
  rewrite (bind_lift_ok _ _ _ _
             (init_ok 0 3 (Robot._inc s) (zero_bytes Packet.PAYLOAD_LEN) None
                ltac:(reflexivity))).
  pose proof (next_inc_mod _ Hi) as Hn.
  unfold Robot.bind at 1. rewrite write_packet_spec.
  cbn [Robot._running Robot.with_inc Robot.connected].
  rewrite to_bytes_ok by (unfold is_byte; lia).
  destruct (Robot._running s), (Robot.connected s); cbn;
    (eexists; split; [reflexivity |]); cbn; rewrite ?app_nil_r;
    repeat split; try exact Hn.
Qed.

Lemma stop_idles_without_cleanup_witness :
  exists s', Robot.stop driving = (Ok tt, s') /\
    Robot._running s' = false /\
    Robot.written s'
      = Robot.written driving
          ++ (if Robot._running driving && Robot.connected driving
              then [frame_of 0 3 (Robot._inc driving) (zero_bytes 16)]
              else []) /\
    Robot._inc s' = (Robot._inc driving + 1) mod 256 /\
    Robot._responses s' = Robot._responses driving /\
    Robot.futures s' = Robot.futures driving /\
    Robot._events s' = Robot._events driving /\
    Robot._tasks s' = Robot._tasks driving /\
    Robot.tasks s' = Robot.tasks driving /\
    forall data, Robot._data_received data s' = (Ok tt, s').
Proof. apply (stop_idles_without_cleanup driving). vm_compute. split; discriminate. Defined.

(** X18: on an engine that is not running a command still consumes a
    sequence number but writes nothing.  A command that expects a reply
    still registers a pending future and suspends on it, and since inbound
    data is ignored while stopped, that future stays pending whatever
    arrives. *)
Theorem commands_on_stopped_engine (s : Robot.t) (x y : number) (vx vy : Z) :
  Robot._running s = false ->
  Robot._enable_motors s = true ->
  int_of (times10 x) = Ok vx -> - 2 ^ 31 <= vx < 2 ^ 31 ->
  int_of (times10 y) = Ok vy ->
  (exists s',
     Robot.set_speeds x y s = (Ok Robot.Returned, s') /\
     Robot.written s' = Robot.written s /\
     Robot._inc s' = next_inc (Robot._inc s)) /\
  (exists s',
     Robot.drive_distance x s
       = (Ok (Robot.Awaiting (length (Robot.futures s))), s') /\
     Robot.written s' = Robot.written s /\
     Robot._inc s' = next_inc (Robot._inc s) /\
     Robot._responses s' !! (1, 8, Robot._inc s)
       = Some (length (Robot.futures s)) /\
     Robot.futures s' !! length (Robot.futures s) = Some Robot.Pending /\
     forall data, Robot._data_received data s' = (Ok tt, s')).
Proof.
  intros Hr Hm Hx Rx Hy.
  pose proof (pack_i_unpack_i vx Rx) as [Px _].
  pose proof (pack_i_unpack_i _ (clamp_speed_range vx)) as [Pcx _].
  pose proof (pack_i_unpack_i _ (clamp_speed_range vy)) as [Pcy _].
  split.
  - unfold Robot.set_speeds. rewrite bind_get, Hm.
    rewrite (bind_lift_ok _ _ _ _ (tenths_bound _ _ Hx)).
    rewrite (bind_lift_ok _ _ _ _ (tenths_bound _ _ Hy)).
    rewrite bind_inc.
    assert (Pii : pack_ii (VInt (clamp_speed vx)) (VInt (clamp_speed vy))
                  = Ok (be32 (clamp_speed vx mod 2 ^ 32)
                          ++ be32 (clamp_speed vy mod 2 ^ 32))).
    { unfold pack_ii. rewrite Pcx, Pcy. reflexivity. }
    rewrite (bind_lift_ok _ _ _ _ Pii).
    rewrite skip_packet; [| exact Hr | cbn; lia].
    eexists. split; [reflexivity |]. split; reflexivity.
  - unfold Robot.drive_distance. rewrite bind_get, Hm, bind_inc.
    assert (Tx : (let? v := Robot.tenths x in pack_i v)
                 = Ok (be32 (vx mod 2 ^ 32))).
    { unfold Robot.tenths. rewrite Hx. exact Px. }
    rewrite (bind_lift_ok _ _ _ _ Tx).
    rewrite (bind_lift_ok _ _ _ _
               (init_ok 1 8 (Robot._inc s) (be32 (vx mod 2 ^ 32)) None
                  ltac:(unfold Packet.PAYLOAD_LEN; cbn; lia))).
    rewrite bind_create_future, bind_expect.
    unfold Robot.bind at 1. rewrite write_packet_spec.
    cbn [Robot._running Robot.with_inc Robot.with_futures
         Robot.with_responses]. rewrite Hr.
    eexists. split; [reflexivity |]. cbn.
    split; [reflexivity |]. split; [reflexivity |].
    split; [apply lookup_insert_eq |].
    split; [apply list_lookup_middle; reflexivity |].
    intros data. unfold Robot._data_received, Robot.bind, Robot.get.
    cbn. rewrite Hr. reflexivity.
Qed.

Lemma commands_on_stopped_engine_witness :
  let s := Robot.init true in
  (exists s',
     Robot.set_speeds (NInt 5) (NInt 5) s = (Ok Robot.Returned, s') /\
     Robot.written s' = Robot.written s /\
     Robot._inc s' = next_inc (Robot._inc s)) /\
  (exists s',
     Robot.drive_distance (NInt 5) s
       = (Ok (Robot.Awaiting (length (Robot.futures s))), s') /\
     Robot.written s' = Robot.written s /\
     Robot._inc s' = next_inc (Robot._inc s) /\
     Robot._responses s' !! (1, 8, Robot._inc s)
       = Some (length (Robot.futures s)) /\
     Robot.futures s' !! length (Robot.futures s) = Some Robot.Pending /\
     forall data, Robot._data_received data s' = (Ok tt, s')).
Proof.
  apply (commands_on_stopped_engine (Robot.init true) (NInt 5) (NInt 5) 50 50);
    try reflexivity.
  cbn. lia.
Defined.

Section Replies.

(** A reply that passes the checksum finishes the pending future registered
    under its triplet and frees the slot, whatever the subscribers do. *)
Lemma reply_finishes_future (s : Robot.t) (data : list Z) (p : Packet.t)
    (future : nat) :
  Robot._running s = true ->
  Packet.from_bytes data = Ok p ->
  Packet.check_crc p = Ok true ->
  Robot._responses s !! (Packet.dev p, Packet.cmd p, Packet.inc p)
    = Some future ->
  Robot.futures s !! future = Some Robot.Pending ->
  Robot.futures (Robot._data_received data s).2 !! future
    = Some (Robot.Finished p) /\
  Robot._responses (Robot._data_received data s).2
    !! (Packet.dev p, Packet.cmd p, Packet.inc p) = None.
Proof.
  intros Hr Hp Hc Hslot Hpend.
  rewrite (data_received_valid _ _ _ Hr Hp Hc).
  destruct (dispatch_events_keeps_slots p (Robot.resolve_response p s).2)
    as [Kr Kf].
  rewrite Kr, Kf, resolve_response_spec. cbn zeta. rewrite Hslot, Hpend.
  cbn. split.
  - apply list_lookup_insert_eq. eapply lookup_lt_Some. exact Hpend.
  - apply lookup_delete_eq.
Qed.

Lemma requested_slot (s s' : Robot.t) (d c : Z) (data : list Z) :
  requested s s' d c data ->
  Robot._responses s' !! (d, c, Robot._inc s) = Some (length (Robot.futures s))
  /\ Robot.futures s' !! length (Robot.futures s) = Some Robot.Pending.
Proof.
  intros (_ & _ & _ & Hresp & Hfut & _). rewrite Hresp, Hfut. split.
  - apply lookup_insert_eq.
  - apply list_lookup_middle. reflexivity.
Qed.

End Replies.

Lemma slice_two {A : Type} (l : list A) (i : nat) (a b : A) :
  l !! i = Some a -> l !! S i = Some b -> slice l i (S (S i)) = [a; b].
Proof.
  unfold slice. replace (S (S i) - i)%nat with 2%nat by lia.
  revert l. induction i as [| i IH]; intros l Ha Hb.
  - destruct l as [| x [| y l]]; cbn in *; try discriminate.
    injection Ha as ->. injection Hb as ->. reflexivity.
  - destruct l as [| x l]; [discriminate |]. cbn in *. apply IH; assumption.
Qed.

(** X19: request and reply.  [get_battery_level] and
    [get_light_sensor_data] write a request with an all-zero payload and
    suspend on a fresh future; when the reply with the same device,
    command and sequence number arrives, [_data_received] finishes that
    future with it, and the command resumes to return the big-endian
    16-bit value of payload bytes 4-5 together with payload byte 6
    (battery: millivolts and percent), respectively the values of bytes
    4-5 and 6-7 (light sensors). *)
Theorem sensor_request_reply
    (s : Robot.t) (dev : Z) (reply : list Z) (p : Packet.t)
    (b4 b5 b6 b7 : Z) :
  Robot._running s = true ->
  Robot.connected s = true ->
  0 <= Robot._inc s <= 255 ->
  Packet.from_bytes reply = Ok p ->
  Packet.check_crc p = Ok true ->
  Packet.dev p = dev -> Packet.cmd p = 1 -> Packet.inc p = Robot._inc s ->
  Packet.payload p !! 4%nat = Some b4 ->
  Packet.payload p !! 5%nat = Some b5 ->
  Packet.payload p !! 6%nat = Some b6 ->
  Packet.payload p !! 7%nat = Some b7 ->
  let future := length (Robot.futures s) in
  (dev = 14 ->
   exists k s1,
     Robot.get_battery_level s = (Ok (Robot.Await future k), s1) /\
     requested s s1 14 1 (frame_of 14 1 (Robot._inc s) (zero_bytes 16)) /\
     Robot.futures (Robot._data_received reply s1).2 !! future
       = Some (Robot.Finished p) /\
     forall st, k p st = (Ok (Robot.Return (b4 * 256 + b5, b6)), st)) /\
  (dev = 13 ->
   exists k s1,
     Robot.get_light_sensor_data s = (Ok (Robot.Await future k), s1) /\
     requested s s1 13 1 (frame_of 13 1 (Robot._inc s) (zero_bytes 16)) /\
     Robot.futures (Robot._data_received reply s1).2 !! future
       = Some (Robot.Finished p) /\
     forall st,
       k p st = (Ok (Robot.Return (b4 * 256 + b5, b6 * 256 + b7)), st)).
Proof.
  intros Hr Hc Hi Hp Hcrc Hd Hcmd Hinc H4 H5 H6 H7 future. subst future.
  assert (Hb : is_byte (Robot._inc s)) by (unfold is_byte; lia).
  split; intros ->.
  - unfold Robot.get_battery_level.
    rewrite bind_inc, bind_create_future, bind_expect.
    rewrite send_packet; try assumption; try (unfold is_byte; lia);
      [| cbn; lia].
    eexists _, _. split; [reflexivity |].
    pose proof (requested_intro s 14 1 (zero_bytes 16) Hi ltac:(cbn; lia))
      as Hreq.
    split; [exact Hreq |].
    destruct (requested_slot _ _ _ _ _ Hreq) as [Hslot Hpend].
    split.
    + apply reply_finishes_future; try assumption.
      rewrite Hd, Hcmd, Hinc. exact Hslot.
    + intros st. unfold Robot.lift.
      rewrite (slice_two _ 4 _ _ H4 H5), (index_lookup _ _ _ H6).
      reflexivity.
  - unfold Robot.get_light_sensor_data.
    rewrite bind_inc, bind_create_future, bind_expect.
    rewrite send_packet; try assumption; try (unfold is_byte; lia);
      [| cbn; lia].
    eexists _, _. split; [reflexivity |].
    pose proof (requested_intro s 13 1 (zero_bytes 16) Hi ltac:(cbn; lia))
      as Hreq.
    split; [exact Hreq |].
    destruct (requested_slot _ _ _ _ _ Hreq) as [Hslot Hpend].
    split.
    + apply reply_finishes_future; try assumption.
      rewrite Hd, Hcmd, Hinc. exact Hslot.
    + intros st. unfold Robot.lift.
      rewrite (slice_two _ 4 _ _ H4 H5), (slice_two _ 6 _ _ H6 H7).
      reflexivity.
Qed.

Lemma sensor_request_reply_witness :
  let s := (Robot.run (Robot.init true)).2 in
  let reply := inbound 14 1 0 [0; 0; 0; 0; 15; 160; 80] in
  exists k s1,
    Robot.get_battery_level s = (Ok (Robot.Await 0 k), s1) /\
    requested s s1 14 1 (frame_of 14 1 (Robot._inc s) (zero_bytes 16)) /\
    Robot.futures (Robot._data_received reply s1).2 !! 0%nat
      = Some (Robot.Finished
                (Packet.mk 14 1 0
                   [0; 0; 0; 0; 15; 160; 80; 0; 0; 0; 0; 0; 0; 0; 0; 0]
                   (Some 144))) /\
    forall st,
      k (Packet.mk 14 1 0
           [0; 0; 0; 0; 15; 160; 80; 0; 0; 0; 0; 0; 0; 0; 0; 0] (Some 144)) st
      = (Ok (Robot.Return (15 * 256 + 160, 80)), st).
Proof.
  intros s reply.
  apply (proj1 (sensor_request_reply s 14 reply
                  (Packet.mk 14 1 0
                     [0; 0; 0; 0; 15; 160; 80; 0; 0; 0; 0; 0; 0; 0; 0; 0]
                     (Some 144)) 15 160 80 0
                  eq_refl eq_refl ltac:(cbn; lia)
                  ltac:(vm_compute; reflexivity) ltac:(vm_compute; reflexivity)
                  eq_refl eq_refl eq_refl eq_refl eq_refl eq_refl eq_refl)).
  reflexivity.
Defined.

(** X20: [get_versions] registers its reply slot before it builds the
    packet.  With a board number in [0, 255] it sends the board as first
    payload byte and resumes to the first nine payload bytes of the reply;
    with any other board number [bytes([board])] raises [ValueError],
    nothing is written, and the slot with its pending future stays in the
    reply table. *)
Theorem get_versions_request_or_leak (s : Robot.t) (board : Z) :
  Robot._running s = true ->
  Robot.connected s = true ->
  0 <= Robot._inc s <= 255 ->
  let future := length (Robot.futures s) in
  (0 <= board <= 255 ->
   exists k s1,
     Robot.get_versions board s = (Ok (Robot.Await future k), s1) /\
     requested s s1 0 0 (frame_of 0 0 (Robot._inc s) [board]) /\
     forall p st, k p st = (Ok (Robot.Return (take 9 (Packet.payload p))), st))
  /\
  (~ 0 <= board <= 255 ->
   exists msg s1,
     Robot.get_versions board s = (Raise (ValueError msg), s1) /\
     Robot.written s1 = Robot.written s /\
     Robot._responses s1 !! (0, 0, Robot._inc s) = Some future /\
     Robot.futures s1 !! future = Some Robot.Pending).
Proof.
  intros Hr Hc Hi future. subst future.
  assert (Hb : is_byte (Robot._inc s)) by (unfold is_byte; lia).
  assert (H0 : is_byte 0) by (unfold is_byte; lia).
  split; intros Hboard.
  - unfold Robot.get_versions.
    rewrite bind_inc, bind_create_future, bind_expect.
    assert (Hbytes : bytes_of [VInt board] = Ok [board]).
    { cbn. destruct (Z.leb_spec 0 board), (Z.ltb_spec board 256); try lia.
      reflexivity. }
    rewrite (bind_lift_ok _ _ _ _ Hbytes).
    rewrite send_packet; try assumption; [| cbn; lia].
    eexists _, _. split; [reflexivity |].
    split; [apply (requested_intro s 0 0 [board] Hi); cbn; lia |].
    reflexivity.
  - unfold Robot.get_versions.
    rewrite bind_inc, bind_create_future, bind_expect.
    assert (Hbytes : exists msg, bytes_of [VInt board] = Raise (ValueError msg)).
    { cbn. destruct (Z.leb_spec 0 board), (Z.ltb_spec board 256); try lia;
        eexists; reflexivity. }
    destruct Hbytes as [msg Hbytes].
    rewrite (bind_lift_raise _ _ _ _ Hbytes).
    eexists _, _. split; [reflexivity |]. cbn.
    split; [reflexivity |].
    split; [apply lookup_insert_eq | apply list_lookup_middle; reflexivity].
Qed.

Lemma get_versions_request_or_leak_witness :
  let s := (Robot.run (Robot.init true)).2 in
  (exists k s1,
     Robot.get_versions 165 s = (Ok (Robot.Await 0 k), s1) /\
     requested s s1 0 0 (frame_of 0 0 (Robot._inc s) [165]) /\
     forall p st, k p st = (Ok (Robot.Return (take 9 (Packet.payload p))), st))
  /\
  (exists msg s1,
     Robot.get_versions 300 s = (Raise (ValueError msg), s1) /\
     Robot.written s1 = Robot.written s /\
     Robot._responses s1 !! (0, 0, Robot._inc s) = Some 0%nat /\
     Robot.futures s1 !! 0%nat = Some Robot.Pending).
Proof.
  intros s. split.
  - apply (proj1 (get_versions_request_or_leak s 165 eq_refl eq_refl
                    ltac:(cbn; lia))). lia.
  - apply (proj2 (get_versions_request_or_leak s 300 eq_refl eq_refl
                    ltac:(cbn; lia))). lia.
Defined.

(** X21: the commands that clamp an argument between members of an [Enum]
    class never get as far as sending: [set_lights] and
    [get_color_sensor_data] raise [TypeError] in their first [bound] and
    leave the robot unchanged; [play_sweep] always raises, having consumed
    one sequence number, with nothing written and no reply slot
    registered. *)
Theorem enum_bounded_commands_always_raise
    (s : Robot.t) (a b c d : pyval) (x y z u v w : number) (append : bool) :
  (exists msg,
     Robot.set_lights a b c d s = (Raise (TypeError msg), s)) /\
  (exists msg,
     Robot.get_color_sensor_data a b c s = (Raise (TypeError msg), s)) /\
  (exists e,
     Robot.play_sweep x y z u v w a b append s
       = (Raise e, Robot.with_inc (next_inc (Robot._inc s)) s)).
Proof.
  split; [| split].
  - destruct (bound_enum d Animation.cls Animation.OFF Animation.SPIN)
      as [msg H].
    exists msg. unfold Robot.set_lights.
    rewrite (bind_lift_raise _ _ _ _ H). reflexivity.
  - destruct (bound_enum a ColorSensors.cls ColorSensors.SENSORS_0_TO_7
                ColorSensors.SENSORS_24_TO_31) as [msg H].
    exists msg. unfold Robot.get_color_sensor_data.
    rewrite (bind_lift_raise _ _ _ _ H). reflexivity.
  - destruct (bound_enum a ModulationType.cls ModulationType.DISABLED
                ModulationType.FREQUENCY) as [msg H].
    unfold Robot.play_sweep. rewrite bind_inc.
    repeat match goal with
    | |- context [Robot.bind (Robot.lift ?r) _ _] =>
        lazymatch r with
        | Robot.bound a _ _ => fail
        | _ =>
          let E := fresh "E" in
          destruct r as [? | ?] eqn:E;
          [rewrite (bind_lift_ok _ _ _ _ eq_refl)
          | rewrite (bind_lift_raise _ _ _ _ eq_refl); eexists; reflexivity]
        end
    end.
    rewrite (bind_lift_raise _ _ _ _ H). eexists. reflexivity.
Qed.

Lemma pack_H_unpack_H (v : Z) :
  0 <= v < 2 ^ 16 ->
  exists hi lo, pack_H v = Ok [hi; lo] /\ unpack_H [hi; lo] = Ok v.
Proof.
  intros Hv. unfold pack_H.
  destruct (Z.leb_spec 0 v), (Z.ltb_spec v (2 ^ 16)); try lia.
  eexists _, _. split; [reflexivity |]. cbn [unpack_H]. f_equal.
  change 255 with (Z.ones 8). rewrite !Z.land_ones, Z.shiftr_div_pow2 by lia.
  change (2 ^ 8) with 256.
  rewrite (Z.mod_small (v / 256) 256).
  - pose proof (Z.div_mod v 256 ltac:(lia)). lia.
  - split; [apply Z.div_pos; lia | apply Z.div_lt_upper_bound; lia].
Qed.

(** X22: [play_note] sends the absolute values of [int(frequency)] as an
    unsigned 32-bit field and of [int(duration * 1000)] as an unsigned
    16-bit field and then waits for the reply; a duration above 65535
    milliseconds (or a frequency of 2^32 or more) makes [struct.pack] fail,
    after the sequence number is taken and before anything is registered
    or written. *)
Theorem play_note_packs_or_rejects
    (s : Robot.t) (frequency duration : number) (f d : Z) :
  Robot._running s = true ->
  Robot.connected s = true ->
  0 <= Robot._inc s <= 255 ->
  int_of frequency = Ok f ->
  int_of (times1000 duration) = Ok d ->
  (Z.abs f < 2 ^ 32 /\ Z.abs d < 2 ^ 16 ->
   exists data s',
     Robot.play_note frequency duration s
       = (Ok (Robot.Awaiting (length (Robot.futures s))), s') /\
     requested s s' 5 0 data /\
     unpack_I (slice data 3 7) = Ok (Z.abs f) /\
     unpack_H (slice data 7 9) = Ok (Z.abs d)) /\
  (~ (Z.abs f < 2 ^ 32 /\ Z.abs d < 2 ^ 16) ->
   exists msg,
     Robot.play_note frequency duration s
       = (Raise (StructError msg),
          Robot.with_inc (next_inc (Robot._inc s)) s)).
Proof.
  intros Hr Hc Hi Hf Hd.
  assert (Hb : is_byte (Robot._inc s)) by (unfold is_byte; lia).
  assert (H5 : is_byte 5) by (unfold is_byte; lia).
  assert (H0 : is_byte 0) by (unfold is_byte; lia).
  unfold Robot.play_note. rewrite !bind_inc.
  split.
  - intros [Rf Rd].
    destruct (pack_H_unpack_H (Z.abs d) ltac:(lia)) as (hi & lo & Ph & Uh).
    pose proof (be32_value (Z.abs f) ltac:(lia)) as Uf.
    assert (Hpack : (let? f0 := Robot.abs_int frequency in
                     let? d0 := Robot.abs_int (times1000 duration) in
                     pack_IH f0 d0) = Ok (be32 (Z.abs f) ++ [hi; lo])).
    { unfold Robot.abs_int, pack_IH, pack_I. rewrite Hf, Hd. cbn [rbind].
      destruct (Z.leb_spec 0 (Z.abs f)), (Z.ltb_spec (Z.abs f) (2 ^ 32));
        try lia.
      cbn [andb rbind]. rewrite Ph. reflexivity. }
    rewrite (bind_lift_ok _ _ _ _ Hpack).
    rewrite bind_create_future, bind_expect.
    rewrite send_packet; try assumption; [| cbn; lia].
    eexists _, _. split; [reflexivity |].
    split; [apply (requested_intro s 5 0 (be32 (Z.abs f) ++ [hi; lo]) Hi);
            cbn; lia |].
    split; [| exact Uh].
    unfold be32 in *. cbn [slice take drop frame_of app Nat.sub unpack_I].
    rewrite Uf. reflexivity.
  - intros Hn.
    assert (Hpack : exists msg,
              (let? f0 := Robot.abs_int frequency in
               let? d0 := Robot.abs_int (times1000 duration) in
               pack_IH f0 d0) = Raise (StructError msg)).
    { unfold Robot.abs_int, pack_IH, pack_I, pack_H. rewrite Hf, Hd. cbn [rbind].
      destruct (Z.leb_spec 0 (Z.abs f)), (Z.ltb_spec (Z.abs f) (2 ^ 32));
        cbn [andb rbind]; try (eexists; reflexivity).
      destruct (Z.leb_spec 0 (Z.abs d)), (Z.ltb_spec (Z.abs d) (2 ^ 16));
        cbn [andb rbind]; try (eexists; reflexivity).
      lia. }
    destruct Hpack as [msg Hpack]. exists msg.
    rewrite (bind_lift_raise _ _ _ _ Hpack). reflexivity.
Qed.

Lemma play_note_packs_or_rejects_witness :
  let s := (Robot.run (Robot.init true)).2 in
  (exists data s',
     Robot.play_note (NFloat 440) (NFloat 0.5) s
       = (Ok (Robot.Awaiting (length (Robot.futures s))), s') /\
     requested s s' 5 0 data /\
     unpack_I (slice data 3 7) = Ok (Z.abs 440) /\
     unpack_H (slice data 7 9) = Ok (Z.abs 500)) /\
  (exists msg,
     Robot.play_note (NFloat 440) (NInt 70) s
       = (Raise (StructError msg),
          Robot.with_inc (next_inc (Robot._inc s)) s)).
Proof.
  intros s. split.
  - apply (proj1 (play_note_packs_or_rejects s (NFloat 440) (NFloat 0.5)
                    440 500 eq_refl eq_refl ltac:(cbn; lia)
                    eq_refl eq_refl)).
    cbn. lia.
  - apply (proj2 (play_note_packs_or_rejects s (NFloat 440) (NInt 70)
                    440 70000 eq_refl eq_refl ltac:(cbn; lia)
                    eq_refl eq_refl)).
    cbn. lia.
Defined.

Section Names.

Lemma encode_utf8_app (a b : list Z) :
  encode_utf8 (a ++ b) =
    let? x := encode_utf8 a in
    let? y := encode_utf8 b in
    Ok (x ++ y).
Proof.
  induction a as [| c a IH]; cbn.
  - destruct (encode_utf8 b); reflexivity.
  - destruct (utf8_char c) as [bc |]; cbn; [| reflexivity].
    rewrite IH. destruct (encode_utf8 a) as [x |]; cbn; [| reflexivity].
    destruct (encode_utf8 b) as [y |]; cbn; [| reflexivity].
    rewrite app_assoc. reflexivity.
Qed.

Lemma encode_utf8_take (name utf : list Z) (k : nat) :
  encode_utf8 name = Ok utf -> exists u, encode_utf8 (take k name) = Ok u.
Proof.
  intros H. rewrite <- (take_drop k name), encode_utf8_app in H.
  destruct (encode_utf8 (take k name)) as [u |]; [| discriminate].
  exists u. reflexivity.
Qed.

Lemma removelast_take (name : list Z) :
  removelast name = take (pred (length name)) name.
Proof. apply removelast_firstn_len. Qed.

(** The loop of [set_name] ends at the longest prefix that fits. *)
Lemma fit_name_spec (n : nat) : forall name utf0 : list Z,
  length name = n -> encode_utf8 name = Ok utf0 ->
  exists k utf,
    Robot.fit_name n name = Ok utf /\
    (k <= n)%nat /\
    encode_utf8 (take k name) = Ok utf /\
    (length utf <= 16)%nat /\
    (k < n -> forall u, encode_utf8 (take (S k) name) = Ok u ->
              16 < length u)%nat.
Proof.
  induction n as [| n IH]; intros name utf0 Hlen Henc.
  - destruct name; [| discriminate]. exists 0%nat, [].
    cbn. repeat split; lia.
  - cbn [Robot.fit_name]. rewrite Henc. cbn [rbind].
    unfold Packet.PAYLOAD_LEN.
    destruct (Nat.ltb_spec 16 (length utf0)) as [Hlong | Hfit].
    + rewrite removelast_take, Hlen. cbn [pred].
      destruct (encode_utf8_take name utf0 n Henc) as [u0 Hu0].
      destruct (IH (take n name) u0) as (k & utf & Hfit & Hk & Hpre & Hl & Hmax).
      { rewrite length_take. lia. }
      { exact Hu0. }
      exists k, utf. rewrite take_take in Hpre.
      replace (k `min` n)%nat with k in Hpre by lia.
      split; [exact Hfit |]. split; [lia |]. split; [exact Hpre |].
      split; [exact Hl |].
      intros Hlt u Hu. destruct (decide (k < n)%nat) as [Hkn | Hkn].
      * apply (Hmax Hkn u). rewrite take_take.
        replace (S k `min` n)%nat with (S k) by lia. exact Hu.
      * replace (S k) with (length name) in Hu by lia.
        rewrite firstn_all in Hu. congruence.
    + exists (S n), utf0. split; [reflexivity |]. split; [lia |].
      split; [rewrite <- Hlen, firstn_all; exact Henc |].
      split; [exact Hfit | lia].
Qed.

End Names.

(** X23: [set_name] sends the UTF-8 encoding of the longest prefix of the
    name whose encoding fits the 16-byte payload, so a character is never
    cut in the middle and the payload assertion never fails; a name that
    already fits is sent whole.  It writes one frame (device 0, command 1)
    and waits for no reply. *)
Theorem set_name_sends_longest_fitting_prefix
    (s : Robot.t) (name utf0 : list Z) :
  Robot._running s = true ->
  Robot.connected s = true ->
  0 <= Robot._inc s <= 255 ->
  encode_utf8 name = Ok utf0 ->
  exists k utf s',
    (k <= length name)%nat /\
    encode_utf8 (take k name) = Ok utf /\
    (length utf <= 16)%nat /\
    (k < length name ->
       forall u, encode_utf8 (take (S k) name) = Ok u -> 16 < length u)%nat /\
    ((length utf0 <= 16)%nat -> utf = utf0) /\
    Robot.set_name name s = (Ok Robot.Returned, s') /\
    Robot.written s' = Robot.written s ++ [frame_of 0 1 (Robot._inc s) utf] /\
    Robot._responses s' = Robot._responses s.
Proof.
  intros Hr Hc Hi Henc.
  destruct (fit_name_spec (length name) name utf0 eq_refl Henc)
    as (k & utf & Hfit & Hk & Hpre & Hl & Hmax).
  exists k, utf. eexists.
  split; [exact Hk |]. split; [exact Hpre |]. split; [exact Hl |].
  split; [exact Hmax |]. split.
  - intros Hshort. destruct (decide (k < length name)%nat) as [Hlt | Hge].
    + destruct (encode_utf8_take name utf0 (S k) Henc) as [u Hu].
      pose proof (Hmax Hlt u Hu) as Hbig.
      rewrite <- (take_drop (S k) name), encode_utf8_app, Hu in Henc.
      cbn [rbind] in Henc.
      destruct (encode_utf8 (drop (S k) name)) as [y |]; [| discriminate].
      injection Henc as <-. rewrite length_app in Hshort. lia.
    + replace k with (length name) in Hpre by lia.
      rewrite firstn_all in Hpre. congruence.
  - unfold Robot.set_name. rewrite (bind_lift_ok _ _ _ _ Hfit), bind_inc.
    rewrite send_packet; try assumption; try (unfold is_byte; lia).
    repeat split.
Qed.

Lemma set_name_sends_longest_fitting_prefix_witness :
  let s := (Robot.run (Robot.init true)).2 in
  let name := replicate 6 0x20AC in
  exists k utf s',
    (k <= length name)%nat /\
    encode_utf8 (take k name) = Ok utf /\
    (length utf <= 16)%nat /\
    (k < length name ->
       forall u, encode_utf8 (take (S k) name) = Ok u -> 16 < length u)%nat /\
    ((length (concat (replicate 6 [226; 130; 172])) <= 16)%nat ->
       utf = concat (replicate 6 [226; 130; 172])) /\
    Robot.set_name name s = (Ok Robot.Returned, s') /\
    Robot.written s' = Robot.written s ++ [frame_of 0 1 (Robot._inc s) utf] /\
    Robot._responses s' = Robot._responses s.
Proof.
  apply (set_name_sends_longest_fitting_prefix
           (Robot.run (Robot.init true)).2 (replicate 6 0x20AC)
           (concat (replicate 6 [226; 130; 172])));
    try reflexivity.
  cbn. lia.
Defined.

Section Chunks.

Lemma py_range_16_nil (n : Z) : n <= 0 -> py_range 0 n 16 = [].
Proof.
  intros Hn. unfold py_range. cbn [Z.ltb Z.compare].
  assert ((n - 0 + 16 - 1) / 16 <= 0).
  { apply Z.lt_succ_r. apply Z.div_lt_upper_bound; lia. }
  destruct ((n - 0 + 16 - 1) / 16) eqn:E; try lia; reflexivity.
Qed.

Lemma py_range_16_cons (n : Z) :
  0 < n ->
  py_range 0 n 16 = 0 :: ((fun i => i + 16) <$> py_range 0 (n - 16) 16).
Proof.
  intros Hn. unfold py_range. cbn [Z.ltb Z.compare].
  replace (n - 0 + 16 - 1) with ((n - 16 - 0 + 16 - 1) + 1 * 16) by lia.
  rewrite Z.div_add by lia.
  set (c := (n - 16 - 0 + 16 - 1) / 16).
  assert (0 <= c).
  { subst c. apply Z.div_pos; lia. }
  rewrite seqZ_cons by lia. rewrite fmap_cons. f_equal.
  replace (Z.succ 0) with (1 + 0) by lia.
  replace (Z.pred (c + 1)) with c by lia.
  rewrite <- fmap_add_seqZ, <- !list_fmap_compose.
  apply list_fmap_ext. intros _ k _. cbn. lia.
Qed.

(** The chunks of a non-empty buffer: its first 16 bytes, then the chunks
    of the rest. *)
Lemma chunks_unfold (buf : list Z) :
  Robot.chunks buf =
    match buf with
    | [] => []
    | _ => take 16 buf :: Robot.chunks (drop 16 buf)
    end.
Proof.
  unfold Robot.chunks, Packet.PAYLOAD_LEN. destruct buf as [| b buf].
  - reflexivity.
  - rewrite py_range_16_cons by (cbn [length]; lia).
    rewrite fmap_cons. f_equal.
    rewrite length_drop.
    replace (Z.of_nat (length (b :: buf)) - Z.of_nat 16)
      with (Z.of_nat (length (b :: buf)) - 16) by lia.
    destruct (Z_le_gt_dec (Z.of_nat (length (b :: buf)) - 16) 0) as [Hle | Hgt].
    + rewrite (py_range_16_nil (_ - 16)) by (change (Z.of_nat 16) with 16; lia).
      replace (Z.of_nat (length (b :: buf) - 16)) with 0 by lia.
      rewrite py_range_16_nil by (change (Z.of_nat 16) with 16; lia).
      reflexivity.
    + replace (Z.of_nat (length (b :: buf) - 16))
        with (Z.of_nat (length (b :: buf)) - 16) by lia.
      change (Z.of_nat 16) with 16.
      rewrite <- !list_fmap_compose. apply list_fmap_ext.
      intros j i Hj. apply list_elem_of_lookup_2 in Hj as Hi. cbn [compose].
      assert (0 <= i).
      { unfold py_range in Hi. cbn [Z.ltb Z.compare] in Hi.
        apply list_elem_of_fmap in Hi as (k & -> & Hk).
        apply elem_of_seqZ in Hk. lia. }
      unfold slice. replace (Z.to_nat (i + 16)) with (16 + Z.to_nat i)%nat by lia.
      rewrite <- drop_drop. f_equal; lia.
Qed.

Lemma chunks_spec (n : nat) : forall buf : list Z,
  (length buf <= n)%nat ->
  concat (Robot.chunks buf) = buf /\
  Forall (fun c => 0 < length c <= 16)%nat (Robot.chunks buf) /\
  (length (Robot.chunks buf) = (length buf + 15) / 16)%nat.
Proof.
  induction n as [| n IH]; intros buf Hlen; rewrite chunks_unfold.
  - destruct buf; [| cbn in Hlen; lia]. repeat split. constructor.
  - destruct buf as [| b buf]; [repeat split; constructor |].
    destruct (IH (drop 16 (b :: buf))) as (Hc & Hf & Hl).
    { rewrite length_drop. cbn [length] in *. lia. }
    split; [| split].
    + cbn [concat]. rewrite Hc. apply take_drop.
    + apply Forall_cons. split; [| exact Hf].
      rewrite length_take. cbn [length]. lia.
    + cbn [length]. rewrite Hl, length_drop. cbn [length].
      destruct (le_lt_dec (S (length buf)) 16) as [Hs | Hb].
      * replace (S (length buf) - 16)%nat with 0%nat by lia.
        change ((0 + 15) / 16)%nat with 0%nat.
        apply Nat.div_unique with (r := (length buf)%nat); lia.
      * replace (S (length buf) + 15)%nat
          with ((S (length buf) - 16 + 15) + 1 * 16)%nat by lia.
        rewrite Nat.div_add by lia. lia.
Qed.

End Chunks.

Section Acknowledged.

(** A well-formed frame is received as the packet it was built from and
    passes the checksum. *)
Lemma frame_of_received (d c i : Z) (payload : list Z) :
  is_byte d -> is_byte c -> is_byte i -> is_bytes payload ->
  (length payload <= 16)%nat ->
  exists k,
    Packet.from_bytes (frame_of d c i payload)
      = Ok (Packet.mk d c i (payload ++ zero_bytes (16 - length payload))
              (Some k)) /\
    Packet.check_crc
      (Packet.mk d c i (payload ++ zero_bytes (16 - length payload)) (Some k))
      = Ok true.
Proof.
  intros Hd Hc Hi Hpl Hlen. unfold frame_of, Packet.PAYLOAD_LEN.
  set (pl := payload ++ zero_bytes (16 - length payload)).
  assert (Hpl16 : length pl = 16%nat).
  { subst pl. unfold zero_bytes. rewrite length_app, length_replicate. lia. }
  assert (Hplb : is_bytes pl).
  { subst pl. apply Forall_app. split; [exact Hpl |].
    apply Forall_replicate. unfold is_byte. lia. }
  set (body := d :: c :: i :: pl).
  assert (Hbody : is_bytes body).
  { subst body. unfold is_bytes.
    repeat (apply Forall_cons; split; [assumption |]). exact Hplb. }
  assert (Hblen : length body = 19%nat) by (cbn; lia).
  exists (Packet.crc_of body).
  assert (Hfrom : Packet.from_bytes (body ++ [Packet.crc_of body])
                  = Ok (Packet.mk d c i pl (Some (Packet.crc_of body)))).
  { subst body. clearbody pl.
    do 16 (destruct pl as [| ? pl]; [done |]). destruct pl; [| done].
    reflexivity. }
  split; [exact Hfrom |].
  pose proof (check_crc_frame body (Packet.crc_of body) Hblen Hbody) as Hchk.
  rewrite Hfrom, Z.eqb_refl in Hchk. exact Hchk.
Qed.

Lemma same_link_refl (s : Robot.t) : same_link s s.
Proof. repeat split. Qed.

Lemma same_link_trans (a b c : Robot.t) :
  same_link a b -> same_link b c -> same_link a c.
Proof.
  intros (H1 & H2 & H3 & H4) (H5 & H6 & H7 & H8). repeat split; congruence.
Qed.

Lemma deliver_keeps_link (key : Z * Z) (p : Packet.t)
    (sub : Robot.filter * Robot.callback) :
  keeps same_link (Robot.deliver key p sub).
Proof.
  destruct sub as [f cb]. intros s.
  unfold Robot.deliver, Robot.bind, Robot.lift, Robot.get.
  destruct (f p) as [a |]; cbn; [| apply same_link_refl].
  destruct (Robot.truthy a); [| apply same_link_refl].
  destruct (Robot._tasks s !! key) as [old |]; cbn;
    destruct cb; cbn; repeat split.
Qed.

Lemma data_received_keeps_link (data : list Z) :
  keeps same_link (Robot._data_received data).
Proof.
  intros s. unfold Robot._data_received, Robot.bind at 1, Robot.get.
  destruct (Robot._running s); cbn [negb]; [| apply same_link_refl].
  unfold Robot.bind at 1, Robot.lift.
  destruct (Packet.from_bytes data) as [p |]; [| apply same_link_refl].
  unfold Robot.bind at 1, Robot.lift.
  destruct (Packet.check_crc p) as [[|] |]; cbn [negb];
    try apply same_link_refl.
  unfold Robot.bind at 1.
  pose proof (resolve_response_spec p s) as Hres. cbn zeta in Hres.
  destruct (Robot.resolve_response p s) as [r s1].
  injection Hres as -> Hs1.
  eapply same_link_trans.
  - instantiate (1 := s1). rewrite Hs1.
    destruct (Robot._responses s !! _) as [fut |]; [| apply same_link_refl].
    destruct (Robot.futures s !! fut) as [[| |] |]; repeat split.
  - rewrite dispatch_events_spec.
    destruct (Robot._events s1 !! _) as [subs |]; [| apply same_link_refl].
    apply (keeps_for_each _ same_link_refl same_link_trans).
    intros sub. apply deliver_keeps_link.
Qed.

Lemma next_inc_byte (i : Z) : 0 <= i <= 255 -> 0 <= next_inc i <= 255.
Proof. intros H. unfold next_inc. destruct (Z.gtb_spec (i + 1) 255); lia. Qed.

(** The loop of [say] against a robot that acknowledges every chunk. *)
Lemma say_chunks_acknowledged (payloads : list (list Z)) : forall s : Robot.t,
  Robot._running s = true ->
  Robot.connected s = true ->
  0 <= Robot._inc s <= 255 ->
  Forall (fun c => length c <= 16)%nat payloads ->
  exists c0 s0 s',
    Robot.say_chunks payloads s = (Ok c0, s0) /\
    resume_with (acks_from 5 4 (Robot._inc s) (length payloads)) c0 s0
      = (Ok (Robot.Return tt), s') /\
    Robot.written s'
      = Robot.written s ++ frames_from 5 4 (Robot._inc s) payloads.
Proof.
  induction payloads as [| payload rest IH]; intros s Hr Hc Hi Hall.
  - exists (Robot.Return tt), s, s. cbn. rewrite app_nil_r. repeat split.
  - apply Forall_cons in Hall as [Hlen Hall].
    assert (Hb : is_byte (Robot._inc s)) by (unfold is_byte; lia).
    assert (H5 : is_byte 5) by (unfold is_byte; lia).
    assert (H4 : is_byte 4) by (unfold is_byte; lia).
    cbn [Robot.say_chunks length acks_from frames_from].
    rewrite bind_inc, bind_create_future, bind_expect.
    rewrite send_packet; try assumption.
    pose proof (requested_intro s 5 4 payload Hi Hlen) as Hreq.
    set (s1 := Robot.with_written _ _) in *.
    destruct (requested_slot _ _ _ _ _ Hreq) as [Hslot Hpend].
    destruct (frame_of_received 5 4 (Robot._inc s) [] H5 H4 Hb
                ltac:(constructor) ltac:(cbn; lia)) as (k & Hfrom & Hcrc).
    set (ack := Packet.mk 5 4 (Robot._inc s) _ (Some k)) in *.
    destruct (reply_finishes_future s1 (frame_of 5 4 (Robot._inc s) []) ack
                (length (Robot.futures s)) Hr Hfrom Hcrc Hslot Hpend)
      as [Hfin Hfree].
    destruct (data_received_keeps_link (frame_of 5 4 (Robot._inc s) []) s1)
      as (Kw & Kc & Ki & Kr).
    set (s2 := (Robot._data_received (frame_of 5 4 (Robot._inc s) []) s1).2)
      in *.
    destruct (IH s2) as (c0 & s0 & s' & Hsay & Hres & Hw).
    { rewrite Kr. exact Hr. }
    { rewrite Kc. exact Hc. }
    { rewrite Ki. apply next_inc_byte. exact Hi. }
    { exact Hall. }
    exists (Robot.Await (length (Robot.futures s))
              (fun _ => Robot.say_chunks rest)), s1, s'.
    split; [reflexivity |].
    cbn [resume_with]. cbv zeta. fold s2. rewrite Hfin, Hsay.
    rewrite Ki in Hres, Hw. change (Robot._inc s1) with
      (next_inc (Robot._inc s)) in Hres, Hw.
    split; [exact Hres |].
    rewrite Hw, Kw. subst s1. cbn. rewrite <- app_assoc. reflexivity.
Qed.

End Acknowledged.

(** X24: on a running, connected robot, [say] of a phrase that encodes to
    [buf] sends [buf] in chunks: when the robot acknowledges each request,
    the coroutine returns after writing one frame per chunk, addressed
    device 5, command 4 and consecutive sequence numbers, in order.  The
    chunks concatenated are [buf], each holds 1 to 16 bytes, and there are
    [ceil(len(buf) / 16)] of them, so an empty phrase writes nothing. *)
Theorem say_sends_encoding_in_chunks (phrase buf : list Z) (s : Robot.t) :
  Robot._running s = true ->
  Robot.connected s = true ->
  0 <= Robot._inc s <= 255 ->
  encode_utf8 phrase = Ok buf ->
  exists c0 s0 s',
    Robot.say phrase s = (Ok c0, s0) /\
    resume_with
      (acks_from 5 4 (Robot._inc s) (length (Robot.chunks buf))) c0 s0
      = (Ok (Robot.Return tt), s') /\
    Robot.written s'
      = Robot.written s ++ frames_from 5 4 (Robot._inc s) (Robot.chunks buf) /\
    concat (Robot.chunks buf) = buf /\
    Forall (fun c => 0 < length c <= 16)%nat (Robot.chunks buf) /\
    (length (Robot.chunks buf) = (length buf + 15) / 16)%nat.
Proof.
  intros Hr Hc Hi Hbuf.
  destruct (chunks_spec (length buf) buf (le_n _)) as (Hcat & Hall & Hn).
  destruct (say_chunks_acknowledged (Robot.chunks buf) s Hr Hc Hi)
    as (c0 & s0 & s' & Hsay & Hres & Hw).
  { eapply Forall_impl; [exact Hall |]. cbn. intros c Hlen. lia. }
  exists c0, s0, s'. unfold Robot.say.
  rewrite (bind_lift_ok _ _ _ _ Hbuf).
  repeat split; assumption.
Qed.

Lemma say_sends_encoding_in_chunks_witness :
  let s := (Robot.run (Robot.init true)).2 in
  let phrase := replicate 7 0x20AC in
  let buf := concat (replicate 7 [226; 130; 172]) in
  exists c0 s0 s',
    Robot.say phrase s = (Ok c0, s0) /\
    resume_with
      (acks_from 5 4 (Robot._inc s) (length (Robot.chunks buf))) c0 s0
      = (Ok (Robot.Return tt), s') /\
    Robot.written s'
      = Robot.written s ++ frames_from 5 4 (Robot._inc s) (Robot.chunks buf) /\
    concat (Robot.chunks buf) = buf /\
    Forall (fun c => 0 < length c <= 16)%nat (Robot.chunks buf) /\
    (length (Robot.chunks buf) = (length buf + 15) / 16)%nat.
Proof.
  apply (say_sends_encoding_in_chunks
           (replicate 7 0x20AC) (concat (replicate 7 [226; 130; 172]))
           (Robot.run (Robot.init true)).2);
    try reflexivity.
  cbn. lia.
Defined.

Section KeyReuse.

(** A reply addressed to a triplet nobody waits for changes no future. *)
Lemma unexpected_reply_keeps_futures (s : Robot.t) (data : list Z)
    (p : Packet.t) :
  Robot._running s = true ->
  Packet.from_bytes data = Ok p ->
  Packet.check_crc p = Ok true ->
  Robot._responses s !! (Packet.dev p, Packet.cmd p, Packet.inc p) = None ->
  Robot.futures (Robot._data_received data s).2 = Robot.futures s.
Proof.
  intros Hr Hp Hc Hnone.
  rewrite (data_received_valid _ _ _ Hr Hp Hc).
  destruct (dispatch_events_keeps_slots p (Robot.resolve_response p s).2)
    as [_ Kf].
  rewrite Kf, resolve_response_spec. cbn zeta. rewrite Hnone. reflexivity.
Qed.

(** A reply finishes the future registered under its triplet and leaves
    every other future as it was. *)
Lemma reply_keeps_other_futures (s : Robot.t) (data : list Z) (p : Packet.t)
    (future other : nat) :
  Robot._running s = true ->
  Packet.from_bytes data = Ok p ->
  Packet.check_crc p = Ok true ->
  Robot._responses s !! (Packet.dev p, Packet.cmd p, Packet.inc p)
    = Some future ->
  other <> future ->
  Robot.futures (Robot._data_received data s).2 !! other
    = Robot.futures s !! other.
Proof.
  intros Hr Hp Hc Hslot Hne.
  rewrite (data_received_valid _ _ _ Hr Hp Hc).
  destruct (dispatch_events_keeps_slots p (Robot.resolve_response p s).2)
    as [_ Kf].
  rewrite Kf, resolve_response_spec. cbn zeta. rewrite Hslot.
  destruct (Robot.futures s !! future) as [[| |] |]; cbn; try reflexivity.
  apply list_lookup_insert_ne. congruence.
Qed.

End KeyReuse.

(** X25: the reply table holds one future per (device, command, sequence
    number).  When [get_battery_level] is called while an older request is
    still pending under the triplet it is about to use, as happens once the
    sequence number has wrapped, the new future replaces the old one in the
    table: the reply finishes the new future, the older future stays
    pending, and a further reply with the same triplet finds no slot and
    changes no future. *)
Theorem reused_key_orphans_older_request
    (s : Robot.t) (old : nat) (reply : list Z) (p : Packet.t) :
  Robot._running s = true ->
  Robot.connected s = true ->
  0 <= Robot._inc s <= 255 ->
  Robot._responses s !! (14, 1, Robot._inc s) = Some old ->
  Robot.futures s !! old = Some Robot.Pending ->
  Packet.from_bytes reply = Ok p ->
  Packet.check_crc p = Ok true ->
  Packet.dev p = 14 -> Packet.cmd p = 1 -> Packet.inc p = Robot._inc s ->
  let future := length (Robot.futures s) in
  exists k s1,
    Robot.get_battery_level s = (Ok (Robot.Await future k), s1) /\
    Robot._responses s1 !! (14, 1, Robot._inc s) = Some future /\
    let s2 := (Robot._data_received reply s1).2 in
    Robot.futures s2 !! future = Some (Robot.Finished p) /\
    Robot.futures s2 !! old = Some Robot.Pending /\
    Robot._responses s2 !! (14, 1, Robot._inc s) = None /\
    Robot.futures (Robot._data_received reply s2).2 = Robot.futures s2.
Proof.
  intros Hr Hc Hi Hold Hpend Hp Hcrc Hd Hcmd Hinc future. subst future.
  assert (Hb : is_byte (Robot._inc s)) by (unfold is_byte; lia).
  assert (Hlt : (old < length (Robot.futures s))%nat).
  { eapply lookup_lt_Some. exact Hpend. }
  unfold Robot.get_battery_level.
  rewrite bind_inc, bind_create_future, bind_expect.
  rewrite send_packet; try assumption; try (unfold is_byte; lia);
    [| cbn; lia].
  pose proof (requested_intro s 14 1 (zero_bytes 16) Hi ltac:(cbn; lia))
    as Hreq.
  set (s1 := Robot.with_written _ _) in *.
  destruct (requested_slot _ _ _ _ _ Hreq) as [Hslot Hnew].
  assert (Hkey : Robot._responses s1
                   !! (Packet.dev p, Packet.cmd p, Packet.inc p)
                 = Some (length (Robot.futures s))).
  { rewrite Hd, Hcmd, Hinc. exact Hslot. }
  destruct (reply_finishes_future s1 reply p _ Hr Hp Hcrc Hkey Hnew)
    as [Hfin Hfree].
  destruct (data_received_keeps_link reply s1) as (_ & _ & _ & Kr).
  eexists _, s1. split; [reflexivity |]. split; [exact Hslot |].
  cbv zeta. split; [exact Hfin |]. split; [| split].
  - rewrite (reply_keeps_other_futures s1 reply p _ old Hr Hp Hcrc Hkey)
      by lia.
    destruct Hreq as (_ & _ & _ & _ & Hfut & _). rewrite Hfut.
    rewrite lookup_app_l by exact Hlt. exact Hpend.
  - rewrite Hd, Hcmd, Hinc in Hfree. exact Hfree.
  - apply unexpected_reply_keeps_futures with (p := p); try assumption.
    rewrite Kr. exact Hr.
Qed.

Lemma reused_key_orphans_older_request_witness :
  let s := Nat.iter 256 (fun s => (Robot.get_battery_level s).2)
             (Robot.run (Robot.init true)).2 in
  let reply := inbound 14 1 0 [0; 0; 0; 0; 15; 160; 80] in
  let p := Packet.mk 14 1 0
             [0; 0; 0; 0; 15; 160; 80; 0; 0; 0; 0; 0; 0; 0; 0; 0]
             (Some 144) in
  exists k s1,
    Robot.get_battery_level s = (Ok (Robot.Await 256 k), s1) /\
    Robot._responses s1 !! (14, 1, 0) = Some 256%nat /\
    let s2 := (Robot._data_received reply s1).2 in
    Robot.futures s2 !! 256%nat = Some (Robot.Finished p) /\
    Robot.futures s2 !! 0%nat = Some Robot.Pending /\
    Robot._responses s2 !! (14, 1, 0) = None /\
    Robot.futures (Robot._data_received reply s2).2 = Robot.futures s2.
Proof.
  intros s reply p.
  assert (Hinc : Robot._inc s = 0) by (vm_compute; reflexivity).
  assert (Hlen : length (Robot.futures s) = 256%nat)
    by (vm_compute; reflexivity).
  pose proof (reused_key_orphans_older_request s 0 reply p
                ltac:(vm_compute; reflexivity) ltac:(vm_compute; reflexivity)
                ltac:(rewrite Hinc; lia)
                ltac:(vm_compute; reflexivity) ltac:(vm_compute; reflexivity)
                ltac:(vm_compute; reflexivity) ltac:(vm_compute; reflexivity)
                eq_refl eq_refl (eq_sym Hinc)) as H.
  cbv zeta in H. rewrite Hinc, Hlen in H. exact H.
Defined.
